(** * HFTRiskAnalysis_FHE: the encrypted risk-assessment contract

    A shallow embedding of [src/contracts/HFTRiskAnalysis_FHE.sol] and the
    properties of its submission / assessment / decryption workflow.

    - Storage mappings are finite maps ([gmap]); a Solidity read of a key
      that was never written yields the zero value of the value type, which
      the readers [orderBookAt], [riskAssessmentAt], [decryptedAssessmentAt]
      and [requestExchange] reproduce.
    - [uint256] and [uint32] values are numbers in [N]; the only arithmetic
      the contract does itself is the checked [exchangeCount += 1].
    - A contract function is a computation in a state-and-revert monad whose
      failure outcome still carries the storage as it was at the failing
      statement, so that "no write happened before this check" is a
      statement about the function body and not only about the rollback.
    - The FHE library ([@fhevm/solidity]) is not part of the repository: its
      operations are the fields of the class [FHEEngine], the homomorphic
      operations as total functions on handles and the signature check as a
      predicate. The automatic getters of the public state variables are
      views and are left out of [Call].
    - The library also keeps a record of the decryption requests in the
      contract's storage. The first model leaves that record out: the
      request id is an input of the transaction ([oracle_request_id]) and
      the check depends on its arguments only. [WithLibrary] embeds the
      functions that call the library on the contract's storage together
      with the library's, for the properties that depend on the record. *)

From Stdlib Require Import NArith Sorted.
From Stdlib.Strings Require Import Byte.
From stdpp Require Import base option list gmap fin_maps.

Local Open Scope N_scope.

(** ** Machine types *)

Abbreviation uint256 := N (only parsing).
Abbreviation uint32 := N (only parsing).
Abbreviation address := N (only parsing).
Abbreviation bytes32 := N (only parsing).
Abbreviation bytes := (list byte) (only parsing).

Definition max_uint256 : N := 2 ^ 256 - 1.
Definition max_uint32 : N := 2 ^ 32 - 1.

(** ** ABI words

    [abi.decode(data, (uint32, ..., uint32))] reads one 32-byte big-endian
    word per component, reverts when [data] is shorter than the head and
    when a word does not fit the component type; bytes after the head are
    ignored. *)

Definition word_value (w : list byte) : N :=
  fold_left (fun acc b => acc * 256 + Byte.to_N b) w 0.

Definition byte_of_N (n : N) : byte :=
  match Byte.of_N (n mod 256) with
  | Some b => b
  | None => x00
  end.

Fixpoint word_bytes (len : nat) (n : N) : list byte :=
  match len with
  | O => []
  | S len' => word_bytes len' (n / 256) ++ [byte_of_N n]
  end.

Definition abi_encode_uint (n : N) : bytes := word_bytes 32 n.

Definition abi_encode (vs : list N) : bytes :=
  concat (map abi_encode_uint vs).

Fixpoint abi_decode_uint32s (count : nat) (data : bytes) : option (list uint32) :=
  match count with
  | O => Some []
  | S count' =>
      let w := take 32 data in
      if negb (Nat.eqb (length w) 32) then None
      else if negb (word_value w <=? max_uint32) then None
      else match abi_decode_uint32s count' (drop 32 data) with
           | Some vs => Some (word_value w :: vs)
           | None => None
           end
  end.

Arguments abi_decode_uint32s : simpl never.
Arguments abi_encode : simpl never.

(** ** The FHE library, as the contract sees it *)

Class FHEEngine := {
  euint32 : Type;
  (** the handle an uninitialised [euint32] storage slot holds *)
  euint32_zero : euint32;
  asEuint32 : uint32 -> euint32;
  fhe_add : euint32 -> euint32 -> euint32;
  fhe_sub : euint32 -> euint32 -> euint32;
  fhe_mul : euint32 -> euint32 -> euint32;
  fhe_div : euint32 -> euint32 -> euint32;
  toBytes32 : euint32 -> bytes32;
  (** [FHE.checkSignatures] reverts exactly when this is [false] *)
  checkSignatures : uint256 -> bytes -> bytes -> bool
}.

(** What it means for an engine to be homomorphic for a decryption function
    [dec]: 32-bit wrap-around arithmetic on the cleartexts. *)
Record Homomorphic `{FHEEngine} (dec : euint32 -> uint32) : Prop := {
  dec_const : forall n, n <= max_uint32 -> dec (asEuint32 n) = n;
  dec_add : forall a b, dec (fhe_add a b) = (dec a + dec b) mod 2 ^ 32;
  dec_sub : forall a b, dec (fhe_sub a b) = (dec a + 2 ^ 32 - dec b) mod 2 ^ 32;
  dec_mul : forall a b, dec (fhe_mul a b) = (dec a * dec b) mod 2 ^ 32;
  dec_div : forall a b, dec b <> 0 -> dec (fhe_div a b) = dec a / dec b
}.

(** ** Errors

    One constructor per way a call of the contract can revert, with the name
    the specification gives to the failure. *)
Inductive Error :=
  | NotExchangeOwner      (* require(..., "Not exchange owner"): Unauthorized *)
  | AlreadyDecrypted      (* require(..., "Already decrypted"): AlreadyRevealed *)
  | InvalidRequest        (* require(..., "Invalid request"): UnknownRequest *)
  | InvalidKMSSignatures  (* FHE.checkSignatures reverts: InvalidProof *)
  | AbiDecodeFailure      (* abi.decode reverts: MalformedCleartext *)
  | ArithmeticOverflow.   (* checked arithmetic panic *)

(** The four-byte selector of a callback, by the callback's name. *)
Inductive Selector := decryptAssessment_selector | decryptOrderBook_selector.

(** What a transaction gets from its surroundings: the caller, the block
    time, and the request id the decryption oracle hands out if the call
    reaches [FHE.requestDecryption]. *)
Record Env := {
  msg_sender : address;
  block_timestamp : uint256;
  oracle_request_id : uint256
}.

Section Contract.
Context {fhe : FHEEngine}.

(** ** Storage *)

Record EncryptedOrderBook := {
  exchangeId : uint256;
  encryptedBidOrders : euint32;
  encryptedAskOrders : euint32;
  encryptedOrderFlow : euint32;
  encryptedVolatility : euint32;
  timestamp : uint256;
  exchange : address
}.

Record RiskAssessment := {
  encryptedLiquidityImpact : euint32;
  encryptedFlashCrashRisk : euint32;
  encryptedMarketInstability : euint32
}.

Record DecryptedAssessment := {
  liquidityImpact : uint32;
  flashCrashRisk : uint32;
  marketInstability : uint32;
  isRevealed : bool
}.

Inductive Event :=
  | OrderBookSubmitted (exchangeId : uint256) (exchange : address) (timestamp : uint256)
  | RiskAnalysisCompleted (exchangeId : uint256)
  | AssessmentDecrypted (exchangeId : uint256).

Record State := {
  exchangeCount : uint256;
  orderBooks : gmap N EncryptedOrderBook;
  riskAssessments : gmap N RiskAssessment;
  decryptedAssessments : gmap N DecryptedAssessment;
  requestToExchangeId : gmap N uint256;
  (** the log, oldest event first *)
  events : list Event
}.

Definition initial : State := {|
  exchangeCount := 0;
  orderBooks := ∅;
  riskAssessments := ∅;
  decryptedAssessments := ∅;
  requestToExchangeId := ∅;
  events := []
|}.

(** Zero values of the struct types. *)
Definition zeroOrderBook : EncryptedOrderBook := {|
  exchangeId := 0;
  encryptedBidOrders := euint32_zero;
  encryptedAskOrders := euint32_zero;
  encryptedOrderFlow := euint32_zero;
  encryptedVolatility := euint32_zero;
  timestamp := 0;
  exchange := 0
|}.

Definition zeroRiskAssessment : RiskAssessment := {|
  encryptedLiquidityImpact := euint32_zero;
  encryptedFlashCrashRisk := euint32_zero;
  encryptedMarketInstability := euint32_zero
|}.

Definition zeroDecryptedAssessment : DecryptedAssessment := {|
  liquidityImpact := 0;
  flashCrashRisk := 0;
  marketInstability := 0;
  isRevealed := false
|}.

(** Storage reads. *)
Definition orderBookAt (s : State) (id : uint256) : EncryptedOrderBook :=
  default zeroOrderBook (orderBooks s !! id).

Definition riskAssessmentAt (s : State) (id : uint256) : RiskAssessment :=
  default zeroRiskAssessment (riskAssessments s !! id).

Definition decryptedAssessmentAt (s : State) (id : uint256) : DecryptedAssessment :=
  default zeroDecryptedAssessment (decryptedAssessments s !! id).

Definition requestExchange (s : State) (requestId : uint256) : uint256 :=
  default 0 (requestToExchangeId s !! requestId).

(** Storage writes. *)
Definition set_exchangeCount (n : uint256) (s : State) : State :=
  {| exchangeCount := n;
     orderBooks := orderBooks s;
     riskAssessments := riskAssessments s;
     decryptedAssessments := decryptedAssessments s;
     requestToExchangeId := requestToExchangeId s;
     events := events s |}.

Definition set_orderBook (id : uint256) (ob : EncryptedOrderBook) (s : State) : State :=
  {| exchangeCount := exchangeCount s;
     orderBooks := <[id := ob]> (orderBooks s);
     riskAssessments := riskAssessments s;
     decryptedAssessments := decryptedAssessments s;
     requestToExchangeId := requestToExchangeId s;
     events := events s |}.

Definition set_riskAssessment (id : uint256) (ra : RiskAssessment) (s : State) : State :=
  {| exchangeCount := exchangeCount s;
     orderBooks := orderBooks s;
     riskAssessments := <[id := ra]> (riskAssessments s);
     decryptedAssessments := decryptedAssessments s;
     requestToExchangeId := requestToExchangeId s;
     events := events s |}.

Definition set_decryptedAssessment (id : uint256) (da : DecryptedAssessment) (s : State) : State :=
  {| exchangeCount := exchangeCount s;
     orderBooks := orderBooks s;
     riskAssessments := riskAssessments s;
     decryptedAssessments := <[id := da]> (decryptedAssessments s);
     requestToExchangeId := requestToExchangeId s;
     events := events s |}.

Definition set_requestExchange (requestId id : uint256) (s : State) : State :=
  {| exchangeCount := exchangeCount s;
     orderBooks := orderBooks s;
     riskAssessments := riskAssessments s;
     decryptedAssessments := decryptedAssessments s;
     requestToExchangeId := <[requestId := id]> (requestToExchangeId s);
     events := events s |}.

Definition log_event (ev : Event) (s : State) : State :=
  {| exchangeCount := exchangeCount s;
     orderBooks := orderBooks s;
     riskAssessments := riskAssessments s;
     decryptedAssessments := decryptedAssessments s;
     requestToExchangeId := requestToExchangeId s;
     events := events s ++ [ev] |}.

(** Assignments to one member through a [storage] reference. *)
Definition with_liquidityImpact (v : uint32) (d : DecryptedAssessment) :=
  {| liquidityImpact := v; flashCrashRisk := flashCrashRisk d;
     marketInstability := marketInstability d; isRevealed := isRevealed d |}.

Definition with_flashCrashRisk (v : uint32) (d : DecryptedAssessment) :=
  {| liquidityImpact := liquidityImpact d; flashCrashRisk := v;
     marketInstability := marketInstability d; isRevealed := isRevealed d |}.

Definition with_marketInstability (v : uint32) (d : DecryptedAssessment) :=
  {| liquidityImpact := liquidityImpact d; flashCrashRisk := flashCrashRisk d;
     marketInstability := v; isRevealed := isRevealed d |}.

Definition with_isRevealed (v : bool) (d : DecryptedAssessment) :=
  {| liquidityImpact := liquidityImpact d; flashCrashRisk := flashCrashRisk d;
     marketInstability := marketInstability d; isRevealed := v |}.

(** ** The state-and-revert monad *)

Inductive Outcome (A : Type) :=
  | Ok (a : A) (s : State)
  | Revert (err : Error) (s : State).
Arguments Ok {A} a s.
Arguments Revert {A} err s.

Definition M (A : Type) := State -> Outcome A.

Definition ret {A} (a : A) : M A := fun s => Ok a s.

Definition bind {A B} (m : M A) (k : A -> M B) : M B :=
  fun s => match m s with
           | Ok a s' => k a s'
           | Revert err s' => Revert err s'
           end.

Definition revert {A} (err : Error) : M A := fun s => Revert err s.
Definition gets {A} (f : State -> A) : M A := fun s => Ok (f s) s.
Definition modify (f : State -> State) : M unit := fun s => Ok tt (f s).
Definition require (cond : bool) (err : Error) : M unit :=
  if cond then ret tt else revert err.
Definition emit (ev : Event) : M unit := modify (log_event ev).

Notation "x <~ m ;; k" := (bind m (fun x => k))
  (at level 200, m at level 99, right associativity).
Notation "m ;;; k" := (bind m (fun _ => k))
  (at level 200, k at level 200, right associativity).

(** Writes through [decryptedAssessments[id]] used as a storage reference. *)
Definition update_decryptedAssessment (id : uint256)
    (f : DecryptedAssessment -> DecryptedAssessment) : M unit :=
  modify (fun s => set_decryptedAssessment id (f (decryptedAssessmentAt s id)) s).

(** ** Library calls *)

(** The check as a predicate of the request id, the cleartexts and the
    proof. The library's lookup of the handles saved for the request id and
    its [DecryptionFulfilled] event are left out here;
    [WithLibrary.FHE_checkSignatures] has them. *)
Definition FHE_checkSignatures (requestId : uint256) (cleartexts proof : bytes) : M unit :=
  require (checkSignatures requestId cleartexts proof) InvalidKMSSignatures.

(** The contract gets the request id back; here the id is an input of the
    transaction, and the library's counter and saved handles are left out.
    [WithLibrary.FHE_requestDecryption] has them. *)
Definition FHE_requestDecryption (env : Env) (ciphertexts : list bytes32)
    (callback : Selector) : M uint256 :=
  ret (oracle_request_id env).

Definition abi_decode (count : nat) (data : bytes) : M (list uint32) :=
  match abi_decode_uint32s count data with
  | Some vs => ret vs
  | None => revert AbiDecodeFailure
  end.

(** ** The contract's functions *)

Definition registerExchange (env : Env) (exchange : address) : M uint256 :=
  count <~ gets exchangeCount ;;
  require (count <? max_uint256) ArithmeticOverflow ;;;
  modify (set_exchangeCount (count + 1)) ;;;
  gets exchangeCount.

Definition assessRisk (env : Env) (exchangeId : uint256) : M unit :=
  orderBook <~ gets (fun s => orderBookAt s exchangeId) ;;
  modify (set_riskAssessment exchangeId {|
    encryptedLiquidityImpact :=
      fhe_div
        (fhe_sub (encryptedBidOrders orderBook) (encryptedAskOrders orderBook))
        (asEuint32 100);
    encryptedFlashCrashRisk :=
      fhe_mul (encryptedOrderFlow orderBook) (asEuint32 2);
    encryptedMarketInstability :=
      fhe_add
        (fhe_mul (encryptedVolatility orderBook) (asEuint32 3))
        (fhe_div (encryptedOrderFlow orderBook) (asEuint32 5))
  |}) ;;;
  modify (set_decryptedAssessment exchangeId {|
    liquidityImpact := 0;
    flashCrashRisk := 0;
    marketInstability := 0;
    isRevealed := false
  |}) ;;;
  emit (RiskAnalysisCompleted exchangeId).

Definition submitEncryptedOrderBook (env : Env)
    (encryptedBidOrders encryptedAskOrders encryptedOrderFlow encryptedVolatility : euint32)
    (exchange : address) : M unit :=
  exchangeId <~ registerExchange env exchange ;;
  modify (set_orderBook exchangeId {|
    exchangeId := exchangeId;
    encryptedBidOrders := encryptedBidOrders;
    encryptedAskOrders := encryptedAskOrders;
    encryptedOrderFlow := encryptedOrderFlow;
    encryptedVolatility := encryptedVolatility;
    timestamp := block_timestamp env;
    exchange := exchange
  |}) ;;;
  assessRisk env exchangeId ;;;
  emit (OrderBookSubmitted exchangeId exchange (block_timestamp env)).

Definition requestAssessmentDecryption (env : Env) (exchangeId : uint256) : M unit :=
  owner <~ gets (fun s => exchange (orderBookAt s exchangeId)) ;;
  require (msg_sender env =? owner) NotExchangeOwner ;;;
  revealed <~ gets (fun s => isRevealed (decryptedAssessmentAt s exchangeId)) ;;
  require (negb revealed) AlreadyDecrypted ;;;
  assessment <~ gets (fun s => riskAssessmentAt s exchangeId) ;;
  let ciphertexts :=
    [ toBytes32 (encryptedLiquidityImpact assessment);
      toBytes32 (encryptedFlashCrashRisk assessment);
      toBytes32 (encryptedMarketInstability assessment) ] in
  reqId <~ FHE_requestDecryption env ciphertexts decryptAssessment_selector ;;
  modify (set_requestExchange reqId exchangeId).

Definition decryptAssessment (env : Env) (requestId : uint256)
    (cleartexts proof : bytes) : M unit :=
  exchangeId <~ gets (fun s => requestExchange s requestId) ;;
  require (negb (exchangeId =? 0)) InvalidRequest ;;;
  revealed <~ gets (fun s => isRevealed (decryptedAssessmentAt s exchangeId)) ;;
  require (negb revealed) AlreadyDecrypted ;;;
  FHE_checkSignatures requestId cleartexts proof ;;;
  decoded <~ abi_decode 3 cleartexts ;;
  match decoded with
  | [liquidityImpact; crashRisk; instability] =>
      update_decryptedAssessment exchangeId (with_liquidityImpact liquidityImpact) ;;;
      update_decryptedAssessment exchangeId (with_flashCrashRisk crashRisk) ;;;
      update_decryptedAssessment exchangeId (with_marketInstability instability) ;;;
      update_decryptedAssessment exchangeId (with_isRevealed true) ;;;
      emit (AssessmentDecrypted exchangeId)
  | _ => revert AbiDecodeFailure
  end.

Definition requestOrderBookDecryption (env : Env) (exchangeId : uint256) : M unit :=
  owner <~ gets (fun s => exchange (orderBookAt s exchangeId)) ;;
  require (msg_sender env =? owner) NotExchangeOwner ;;;
  orderBook <~ gets (fun s => orderBookAt s exchangeId) ;;
  let ciphertexts :=
    [ toBytes32 (encryptedBidOrders orderBook);
      toBytes32 (encryptedAskOrders orderBook);
      toBytes32 (encryptedOrderFlow orderBook);
      toBytes32 (encryptedVolatility orderBook) ] in
  FHE_requestDecryption env ciphertexts decryptOrderBook_selector ;;;
  ret tt.

Definition decryptOrderBook (env : Env) (requestId : uint256)
    (cleartexts proof : bytes) : M unit :=
  FHE_checkSignatures requestId cleartexts proof ;;;
  decoded <~ abi_decode 4 cleartexts ;;
  match decoded with
  | [bids; asks; flow; volatility] => ret tt
  | _ => revert AbiDecodeFailure
  end.

Definition getExchangeCount (env : Env) : M uint256 :=
  gets exchangeCount.

(** ** Transactions *)

Inductive Call :=
  | CallRegisterExchange (exchange : address)
  | CallSubmitEncryptedOrderBook (bid ask flow volatility : euint32) (exchange : address)
  | CallRequestAssessmentDecryption (exchangeId : uint256)
  | CallDecryptAssessment (requestId : uint256) (cleartexts proof : bytes)
  | CallRequestOrderBookDecryption (exchangeId : uint256)
  | CallDecryptOrderBook (requestId : uint256) (cleartexts proof : bytes)
  | CallGetExchangeCount.

Definition dispatch (env : Env) (c : Call) : M unit :=
  match c with
  | CallRegisterExchange a => registerExchange env a ;;; ret tt
  | CallSubmitEncryptedOrderBook b a f v x => submitEncryptedOrderBook env b a f v x
  | CallRequestAssessmentDecryption id => requestAssessmentDecryption env id
  | CallDecryptAssessment r c p => decryptAssessment env r c p
  | CallRequestOrderBookDecryption id => requestOrderBookDecryption env id
  | CallDecryptOrderBook r c p => decryptOrderBook env r c p
  | CallGetExchangeCount => getExchangeCount env ;;; ret tt
  end.

(** A reverted transaction leaves the storage it started from. *)
Definition commit {A} (m : M A) (s : State) : State :=
  match m s with
  | Ok _ s' => s'
  | Revert _ _ => s
  end.

Definition transact (env : Env) (c : Call) (s : State) : State :=
  commit (dispatch env c) s.

(** States the contract can be in after deployment. No transaction has the
    zero address as its sender. *)
Inductive reachable : State -> Prop :=
  | reachable_initial : reachable initial
  | reachable_transact s env c :
      reachable s -> msg_sender env <> 0 -> reachable (transact env c s).

End Contract.

Arguments Ok {fhe A} a s.
Arguments Revert {fhe A} err s.

(** ** Derived notions

    The post-states of the successful paths written out, the ids a log
    announces, pending and unresolved requests, the invariant of the
    reachable states, and runs of several transactions. *)

Section Notions.
Context {fhe : FHEEngine}.

Definition assessedRisk (ob : EncryptedOrderBook) : RiskAssessment := {|
  encryptedLiquidityImpact :=
    fhe_div (fhe_sub (encryptedBidOrders ob) (encryptedAskOrders ob)) (asEuint32 100);
  encryptedFlashCrashRisk := fhe_mul (encryptedOrderFlow ob) (asEuint32 2);
  encryptedMarketInstability :=
    fhe_add (fhe_mul (encryptedVolatility ob) (asEuint32 3))
            (fhe_div (encryptedOrderFlow ob) (asEuint32 5))
|}.

Definition assessed (id : uint256) (s : State) : State :=
  log_event (RiskAnalysisCompleted id)
    (set_decryptedAssessment id zeroDecryptedAssessment
      (set_riskAssessment id (assessedRisk (orderBookAt s id)) s)).

Definition submittedBook (env : Env) (id : uint256) (b a f v : euint32) (x : address)
    : EncryptedOrderBook :=
  {| exchangeId := id; encryptedBidOrders := b; encryptedAskOrders := a;
     encryptedOrderFlow := f; encryptedVolatility := v;
     timestamp := block_timestamp env; exchange := x |}.

Definition submitted (env : Env) (b a f v : euint32) (x : address) (s : State) : State :=
  let id := exchangeCount s + 1 in
  log_event (OrderBookSubmitted id x (block_timestamp env))
    (assessed id (set_orderBook id (submittedBook env id b a f v x)
      (set_exchangeCount id s))).

Definition revealedWith (id : uint256) (li cr ins : uint32) (s : State) : State :=
  log_event (AssessmentDecrypted id)
    (set_decryptedAssessment id
       {| liquidityImpact := li; flashCrashRisk := cr;
          marketInstability := ins; isRevealed := true |} s).

(** Exchange ids announced by [OrderBookSubmitted], oldest first. *)
Definition submittedIds (evs : list Event) : list uint256 :=
  omap (fun ev => match ev with
                  | OrderBookSubmitted id _ _ => Some id
                  | _ => None
                  end) evs.

(** A request id is pending for [id] when the request table sends it there;
    the contract has no other record of a request. *)
Definition pendingFor (s : State) (requestId id : uint256) : Prop :=
  id <> 0 /\ requestExchange s requestId = id.

Record Inv (s : State) : Prop := {
  inv_ids : forall e, is_Some (orderBooks s !! e) -> 1 <= e /\ e <= exchangeCount s;
  inv_risk : forall e, is_Some (riskAssessments s !! e) <-> is_Some (orderBooks s !! e);
  inv_dec : forall e, is_Some (decryptedAssessments s !! e) <-> is_Some (orderBooks s !! e);
  inv_req : forall r e, requestToExchangeId s !! r = Some e -> is_Some (orderBooks s !! e);
  inv_size : N.of_nat (size (orderBooks s)) <= exchangeCount s;
  inv_log : Forall (fun e => is_Some (orderBooks s !! e)) (submittedIds (events s));
  inv_sorted : StronglySorted N.lt (submittedIds (events s));
  inv_bound : exchangeCount s <= max_uint256
}.

(** [steps s s'] : some sequence of transactions leads from [s] to [s']. *)
Inductive steps : State -> State -> Prop :=
  | steps_done s : steps s s
  | steps_next s env c s' :
      msg_sender env <> 0 -> steps (transact env c s) s' -> steps s s'.

(** A request is unresolved while a callback for it could still commit. *)
Definition unresolved (s : State) (requestId id : uint256) : Prop :=
  pendingFor s requestId id /\ isRevealed (decryptedAssessmentAt s id) = false.

(** An id that was consumed without an order book stays without one, and the
    counter stays ahead of the number of order books. *)
Definition skipped (n : uint256) (s : State) : Prop :=
  orderBooks s !! n = None /\ n <= exchangeCount s /\
  N.of_nat (size (orderBooks s)) < exchangeCount s.

End Notions.

(** ** A cleartext engine

    The engine in which a handle is the 32-bit value itself. It is
    homomorphic for the identity decryption, and is what the concrete runs
    below execute on. Its signature check accepts the proof that is the
    request id word followed by the cleartexts. *)

Definition clear_add (a b : N) : N := (a + b) mod 2 ^ 32.
Definition clear_sub (a b : N) : N := (a + 2 ^ 32 - b) mod 2 ^ 32.
Definition clear_mul (a b : N) : N := (a * b) mod 2 ^ 32.
Definition clear_div (a b : N) : N := if b =? 0 then max_uint32 else a / b.

Definition clear_proof (requestId : uint256) (cleartexts : bytes) : bytes :=
  abi_encode_uint requestId ++ cleartexts.

Definition clear_check (requestId : uint256) (cleartexts proof : bytes) : bool :=
  bool_decide (map Byte.to_N proof = map Byte.to_N (clear_proof requestId cleartexts)).

Definition ClearEngine : FHEEngine := {|
  euint32 := N;
  euint32_zero := 0;
  asEuint32 := fun n => n mod 2 ^ 32;
  fhe_add := clear_add;
  fhe_sub := clear_sub;
  fhe_mul := clear_mul;
  fhe_div := clear_div;
  toBytes32 := fun h => h;
  checkSignatures := clear_check
|}.

(** ** A concrete run on the cleartext engine

    Exchange 7 submits bid = 500, ask = 300, flow = 50, volatility = 20,
    asks for the assessment to be decrypted (the oracle answers with request
    id 1), and the oracle calls back with the three cleartexts. *)

Module Scenario.

Definition owner : address := 7.
Definition stranger : address := 9.
Definition relayer : address := 42.

Definition env_owner : Env :=
  {| msg_sender := owner; block_timestamp := 1000; oracle_request_id := 1 |}.
Definition env_owner_again : Env :=
  {| msg_sender := owner; block_timestamp := 1010; oracle_request_id := 2 |}.
Definition env_stranger : Env :=
  {| msg_sender := stranger; block_timestamp := 1020; oracle_request_id := 3 |}.
Definition env_relayer : Env :=
  {| msg_sender := relayer; block_timestamp := 1030; oracle_request_id := 4 |}.

Definition submit_call : Call (fhe := ClearEngine) :=
  CallSubmitEncryptedOrderBook (fhe := ClearEngine) 500 300 50 20 owner.

Definition st_submitted : State (fhe := ClearEngine) :=
  transact env_owner submit_call initial.

Definition st_requested : State (fhe := ClearEngine) :=
  transact env_owner (CallRequestAssessmentDecryption 1) st_submitted.

Definition st_requested_twice : State (fhe := ClearEngine) :=
  transact env_owner_again (CallRequestAssessmentDecryption 1) st_requested.

Definition cleartexts : bytes := abi_encode [2; 100; 70].
Definition proof : bytes := clear_proof 1 cleartexts.

Definition st_revealed : State (fhe := ClearEngine) :=
  transact env_relayer (CallDecryptAssessment 1 cleartexts proof) st_requested.

(** A proof the engine does not accept, and cleartexts too short to decode. *)
Definition forged_proof : bytes := abi_encode_uint 0.
Definition garbled : bytes := [x02; x64; x46].

Definition book_cleartexts : bytes := abi_encode [500; 300; 50; 20].

(** The counter used on its own, before a submission. *)
Definition st_registered : State (fhe := ClearEngine) :=
  transact env_stranger (CallRegisterExchange stranger) initial.

Definition st_registered_submitted : State (fhe := ClearEngine) :=
  transact env_owner submit_call st_registered.

End Scenario.

(** ** Histories

    Notions for the properties of whole histories: the ids the log reports as
    decrypted, a transaction list run from a state, the calls of
    [registerExchange] that took an id without a submission, runs in which a
    given address sends nothing, and the words [abi.decode] reads. *)

Section Histories.
Context {fhe : FHEEngine}.

(** Exchange ids announced by [AssessmentDecrypted], oldest first. *)
Definition decryptedIds (evs : list Event) : list uint256 :=
  omap (fun ev => match ev with
                  | AssessmentDecrypted id => Some id
                  | _ => None
                  end) evs.

(** The transactions of [tr], oldest first, from [s]. *)
Fixpoint run_trace (tr : list (Env * Call)) (s : State) : State :=
  match tr with
  | [] => s
  | (env, c) :: tr' => run_trace tr' (transact env c s)
  end.

(** How many transactions of [tr] are direct calls of [registerExchange]
    that succeed. *)
Fixpoint bare_registrations (tr : list (Env * Call)) (s : State) : nat :=
  match tr with
  | [] => O
  | (env, c) :: tr' =>
      (match c with
       | CallRegisterExchange x =>
           match registerExchange env x s with
           | Ok _ _ => 1%nat
           | Revert _ _ => O
           end
       | _ => O
       end + bare_registrations tr' (transact env c s))%nat
  end.

(** [steps_without a s s'] : a run from [s] to [s'] in which the address [a]
    sends no transaction. *)
Inductive steps_without (a : address) : State -> State -> Prop :=
  | steps_without_done s : steps_without a s s
  | steps_without_next s env c s' :
      msg_sender env <> 0 -> msg_sender env <> a ->
      steps_without a (transact env c s) s' -> steps_without a s s'.

(** What the stored records look like in a reachable state. *)
Record StoreInv (s : State) : Prop := {
  store_key : forall id ob, orderBooks s !! id = Some ob -> exchangeId ob = id;
  store_risk : forall id ob,
    orderBooks s !! id = Some ob -> riskAssessments s !! id = Some (assessedRisk ob);
  store_zero : forall id da,
    decryptedAssessments s !! id = Some da -> isRevealed da = false ->
    da = zeroDecryptedAssessment;
  store_range : forall id da,
    decryptedAssessments s !! id = Some da ->
    liquidityImpact da <= max_uint32 /\ flashCrashRisk da <= max_uint32 /\
    marketInstability da <= max_uint32
}.

(** Requests and reveals only exist for order books with an owner. *)
Record OwnerInv (s : State) : Prop := {
  owner_requested : forall r id,
    requestToExchangeId s !! r = Some id -> exchange (orderBookAt s id) <> 0;
  owner_revealed : forall id,
    isRevealed (decryptedAssessmentAt s id) = true -> exchange (orderBookAt s id) <> 0
}.

(** The log tells what the storage holds. *)
Record LogInv (s : State) : Prop := {
  log_submitted : forall id, is_Some (orderBooks s !! id) -> id ∈ submittedIds (events s);
  log_announced : forall id x t,
    OrderBookSubmitted id x t ∈ events s ->
    exists ob, orderBooks s !! id = Some ob /\ exchange ob = x /\ timestamp ob = t;
  log_decrypted : forall id,
    id ∈ decryptedIds (events s) <-> isRevealed (decryptedAssessmentAt s id) = true;
  log_decrypted_once : NoDup (decryptedIds (events s))
}.

End Histories.

(** The [i]-th 32-byte word of [data], as [abi.decode] reads it. *)
Definition abi_word (i : nat) (data : bytes) : N :=
  word_value (take 32 (drop (32 * i) data)).

(** ** The contract with the library's storage

    [FHE.requestDecryption] and [FHE.checkSignatures] keep a record of the
    requests in the contract's own storage: the library hands out the request
    id and saves the handles of the request, and the check looks the saved
    handles up before it verifies anything, reverting with
    [NoHandleFoundForRequestID] when there are none. The library is not part
    of the repository: its storage and its two operations are the fields of
    the class [FHELibrary], and [LibraryLaws] says what the contract relies
    on. The functions that call the library are embedded again on the pair
    of the contract's declared storage and the library's storage; the others
    act on the declared storage alone. *)

Inductive LibVerdict (L : Type) :=
  | Verified (l : L)   (* handles found, signatures valid *)
  | NoHandles          (* no handles saved for the request id *)
  | BadSignatures.     (* handles found, signatures invalid *)
Arguments Verified {L} l.
Arguments NoHandles {L}.
Arguments BadSignatures {L}.

Class FHELibrary := {
  LibStorage : Type;
  (** the library's storage when the contract is deployed *)
  lib_deployed : LibStorage;
  (** whether handles are saved for a request id *)
  lib_known : LibStorage -> uint256 -> bool;
  (** [FHE.requestDecryption]: the request id and the new storage, or a
      revert *)
  lib_requestDecryption :
    LibStorage -> list bytes32 -> Selector -> option (uint256 * LibStorage);
  lib_checkSignatures :
    LibStorage -> uint256 -> bytes -> bytes -> LibVerdict LibStorage
}.

Record LibraryLaws `{FHELibrary} : Prop := {
  deployed_unknown : forall r, lib_known lib_deployed r = false;
  request_known : forall l hs sel r l',
    lib_requestDecryption l hs sel = Some (r, l') ->
    forall r', lib_known l' r' = true -> r' = r \/ lib_known l r' = true;
  check_unknown : forall l r c p,
    lib_known l r = false -> lib_checkSignatures l r c p = NoHandles;
  check_known : forall l r c p l',
    lib_checkSignatures l r c p = Verified l' ->
    forall r', lib_known l' r' = true -> lib_known l r' = true
}.

(** The reverts of a call on the two storages: those of the contract's own
    statements and of the decoding, and the library's. *)
Inductive Failure :=
  | Reverted (err : Error)
  | NoHandleFoundForRequestID   (* FHE.checkSignatures: unknown request id *)
  | DecryptionRequestRefused.   (* FHE.requestDecryption reverts *)

Module WithLibrary.
Section WithLibrary.
Context {fhe : FHEEngine} {lib : FHELibrary}.

Record LState := {
  contract : State;
  library : LibStorage
}.

Definition deployed : LState := {| contract := initial; library := lib_deployed |}.

Inductive LOutcome (A : Type) :=
  | LOk (a : A) (ls : LState)
  | LRevert (why : Failure) (ls : LState).
Arguments LOk {A} a ls.
Arguments LRevert {A} why ls.

Definition LM (A : Type) := LState -> LOutcome A.

Definition lbind {A B} (m : LM A) (k : A -> LM B) : LM B :=
  fun ls => match m ls with
            | LOk a ls' => k a ls'
            | LRevert why ls' => LRevert why ls'
            end.

(** A statement of the contract that touches the declared storage only. *)
Definition lift {A} (m : M A) : LM A :=
  fun ls => match m (contract ls) with
            | Ok a s' => LOk a {| contract := s'; library := library ls |}
            | Revert err s' =>
                LRevert (Reverted err) {| contract := s'; library := library ls |}
            end.

Notation "x <~ m ;; k" := (lbind m (fun x => k))
  (at level 200, m at level 99, right associativity).
Notation "m ;;; k" := (lbind m (fun _ => k))
  (at level 200, k at level 200, right associativity).

Definition FHE_requestDecryption (ciphertexts : list bytes32) (callback : Selector)
    : LM uint256 :=
  fun ls => match lib_requestDecryption (library ls) ciphertexts callback with
            | Some (reqId, l') => LOk reqId {| contract := contract ls; library := l' |}
            | None => LRevert DecryptionRequestRefused ls
            end.

Definition FHE_checkSignatures (requestId : uint256) (cleartexts proof : bytes)
    : LM unit :=
  fun ls => match lib_checkSignatures (library ls) requestId cleartexts proof with
            | Verified l' => LOk tt {| contract := contract ls; library := l' |}
            | NoHandles => LRevert NoHandleFoundForRequestID ls
            | BadSignatures => LRevert (Reverted InvalidKMSSignatures) ls
            end.

Definition registerExchange (env : Env) (exchange : address) : LM uint256 :=
  lift (registerExchange env exchange).

Definition submitEncryptedOrderBook (env : Env)
    (encryptedBidOrders encryptedAskOrders encryptedOrderFlow encryptedVolatility : euint32)
    (exchange : address) : LM unit :=
  lift (submitEncryptedOrderBook env encryptedBidOrders encryptedAskOrders
          encryptedOrderFlow encryptedVolatility exchange).

Definition requestAssessmentDecryption (env : Env) (exchangeId : uint256) : LM unit :=
  owner <~ lift (gets (fun s => exchange (orderBookAt s exchangeId))) ;;
  lift (require (msg_sender env =? owner) NotExchangeOwner) ;;;
  revealed <~ lift (gets (fun s => isRevealed (decryptedAssessmentAt s exchangeId))) ;;
  lift (require (negb revealed) AlreadyDecrypted) ;;;
  assessment <~ lift (gets (fun s => riskAssessmentAt s exchangeId)) ;;
  let ciphertexts :=
    [ toBytes32 (encryptedLiquidityImpact assessment);
      toBytes32 (encryptedFlashCrashRisk assessment);
      toBytes32 (encryptedMarketInstability assessment) ] in
  reqId <~ FHE_requestDecryption ciphertexts decryptAssessment_selector ;;
  lift (modify (set_requestExchange reqId exchangeId)).

Definition decryptAssessment (env : Env) (requestId : uint256)
    (cleartexts proof : bytes) : LM unit :=
  exchangeId <~ lift (gets (fun s => requestExchange s requestId)) ;;
  lift (require (negb (exchangeId =? 0)) InvalidRequest) ;;;
  revealed <~ lift (gets (fun s => isRevealed (decryptedAssessmentAt s exchangeId))) ;;
  lift (require (negb revealed) AlreadyDecrypted) ;;;
  FHE_checkSignatures requestId cleartexts proof ;;;
  decoded <~ lift (abi_decode 3 cleartexts) ;;
  match decoded with
  | [liquidityImpact; crashRisk; instability] =>
      lift (update_decryptedAssessment exchangeId (with_liquidityImpact liquidityImpact)) ;;;
      lift (update_decryptedAssessment exchangeId (with_flashCrashRisk crashRisk)) ;;;
      lift (update_decryptedAssessment exchangeId (with_marketInstability instability)) ;;;
      lift (update_decryptedAssessment exchangeId (with_isRevealed true)) ;;;
      lift (emit (AssessmentDecrypted exchangeId))
  | _ => lift (revert AbiDecodeFailure)
  end.

Definition requestOrderBookDecryption (env : Env) (exchangeId : uint256) : LM unit :=
  owner <~ lift (gets (fun s => exchange (orderBookAt s exchangeId))) ;;
  lift (require (msg_sender env =? owner) NotExchangeOwner) ;;;
  orderBook <~ lift (gets (fun s => orderBookAt s exchangeId)) ;;
  let ciphertexts :=
    [ toBytes32 (encryptedBidOrders orderBook);
      toBytes32 (encryptedAskOrders orderBook);
      toBytes32 (encryptedOrderFlow orderBook);
      toBytes32 (encryptedVolatility orderBook) ] in
  FHE_requestDecryption ciphertexts decryptOrderBook_selector ;;;
  lift (ret tt).

Definition decryptOrderBook (env : Env) (requestId : uint256)
    (cleartexts proof : bytes) : LM unit :=
  FHE_checkSignatures requestId cleartexts proof ;;;
  decoded <~ lift (abi_decode 4 cleartexts) ;;
  match decoded with
  | [bids; asks; flow; volatility] => lift (ret tt)
  | _ => lift (revert AbiDecodeFailure)
  end.

Definition getExchangeCount (env : Env) : LM uint256 :=
  lift (getExchangeCount env).

Definition dispatch (env : Env) (c : Call) : LM unit :=
  match c with
  | CallRegisterExchange a => registerExchange env a ;;; lift (ret tt)
  | CallSubmitEncryptedOrderBook b a f v x => submitEncryptedOrderBook env b a f v x
  | CallRequestAssessmentDecryption id => requestAssessmentDecryption env id
  | CallDecryptAssessment r c p => decryptAssessment env r c p
  | CallRequestOrderBookDecryption id => requestOrderBookDecryption env id
  | CallDecryptOrderBook r c p => decryptOrderBook env r c p
  | CallGetExchangeCount => getExchangeCount env ;;; lift (ret tt)
  end.

(** A reverted transaction leaves both storages as they were. *)
Definition transact (env : Env) (c : Call) (ls : LState) : LState :=
  match dispatch env c ls with
  | LOk _ ls' => ls'
  | LRevert _ _ => ls
  end.

End WithLibrary.

Arguments LOk {fhe lib A} a ls.
Arguments LRevert {fhe lib A} why ls.

End WithLibrary.

(** The library storage a computation ends with knows no request id that
    the storage it started from did not know. *)
Definition keeps_known {fhe : FHEEngine} {lib : FHELibrary} {A}
    (m : WithLibrary.LM A) : Prop :=
  forall ls,
    match m ls with
    | WithLibrary.LOk _ ls' | WithLibrary.LRevert _ ls' =>
        forall r, lib_known (WithLibrary.library ls') r = true ->
                  lib_known (WithLibrary.library ls) r = true
    end.

(** ** A library with a request counter

    The library in which the request id is the value of a counter, the
    handles of a request are saved under its id, and the check accepts, for
    a request with saved handles, what the cleartext engine accepts and
    logs [DecryptionFulfilled] for the request. *)

Record CounterStorage := {
  counterRequest : uint256;
  requestedHandles : gmap N (list N);
  fulfilled : list uint256   (* the DecryptionFulfilled events, newest first *)
}.

Definition log_fulfilled (r : uint256) (l : CounterStorage) : CounterStorage :=
  {| counterRequest := counterRequest l;
     requestedHandles := requestedHandles l;
     fulfilled := r :: fulfilled l |}.

Definition counter_known (l : CounterStorage) (r : uint256) : bool :=
  match requestedHandles l !! r with
  | Some (_ :: _) => true
  | _ => false
  end.

Definition counter_request (l : CounterStorage) (handles : list bytes32)
    (callback : Selector) : option (uint256 * CounterStorage) :=
  if counter_known l (counterRequest l) then None
  else Some (counterRequest l,
             {| counterRequest := counterRequest l + 1;
                requestedHandles := <[counterRequest l := handles]> (requestedHandles l);
                fulfilled := fulfilled l |}).

Definition counter_check (l : CounterStorage) (r : uint256) (cleartexts proof : bytes)
    : LibVerdict CounterStorage :=
  if counter_known l r
  then if clear_check r cleartexts proof then Verified (log_fulfilled r l)
       else BadSignatures
  else NoHandles.

Definition CounterLibrary : FHELibrary := {|
  LibStorage := CounterStorage;
  lib_deployed := {| counterRequest := 0; requestedHandles := ∅; fulfilled := [] |};
  lib_known := counter_known;
  lib_requestDecryption := counter_request;
  lib_checkSignatures := counter_check
|}.

(** The owner submits, asks for the order book (the library answers with
    request id 0) and then for the assessment (request id 1). *)
Module LibraryRuns.
Import Scenario.

Definition lst_submitted : WithLibrary.LState (fhe := ClearEngine) (lib := CounterLibrary) :=
  WithLibrary.transact env_owner submit_call WithLibrary.deployed.

Definition lst_book_requested
    : WithLibrary.LState (fhe := ClearEngine) (lib := CounterLibrary) :=
  WithLibrary.transact env_owner (CallRequestOrderBookDecryption 1) lst_submitted.

Definition lst_requested
    : WithLibrary.LState (fhe := ClearEngine) (lib := CounterLibrary) :=
  WithLibrary.transact env_owner (CallRequestAssessmentDecryption 1) lst_book_requested.

Definition book_proof : bytes := clear_proof 0 book_cleartexts.
Definition short_book : bytes := take 127 book_cleartexts.

Definition lst_book_fulfilled
    : WithLibrary.LState (fhe := ClearEngine) (lib := CounterLibrary) :=
  WithLibrary.transact env_relayer
    (CallDecryptOrderBook 0 book_cleartexts book_proof) lst_book_requested.

End LibraryRuns.

(** ** More concrete runs on the cleartext engine *)

Module Runs2.
Import Scenario.

(** The stranger submits an order book and names the owner as its exchange. *)
Definition env_third : Env :=
  {| msg_sender := stranger; block_timestamp := 2000; oracle_request_id := 5 |}.

Definition st_named : State (fhe := ClearEngine) :=
  transact env_third submit_call initial.

(** An order book submitted with the zero address as its exchange. *)
Definition orphan_call : Call (fhe := ClearEngine) :=
  CallSubmitEncryptedOrderBook (fhe := ClearEngine) 500 300 50 20 0.

Definition st_orphan : State (fhe := ClearEngine) :=
  transact env_owner orphan_call initial.

(** A history: a bare registration, a submission, a request, the callback and
    a second bare registration. *)
Definition history : list (Env * Call (fhe := ClearEngine)) :=
  [ (env_stranger, CallRegisterExchange stranger);
    (env_owner, submit_call);
    (env_owner, CallRequestAssessmentDecryption 2);
    (env_relayer, CallDecryptAssessment 1 cleartexts proof);
    (env_stranger, CallRegisterExchange 0) ].

(** The counter at its last value. *)
Definition st_full : State (fhe := ClearEngine) :=
  set_exchangeCount max_uint256 initial.

(** Cleartexts with bytes after the three words, cleartexts that are too
    short, and cleartexts whose second word does not fit 32 bits. *)
Definition padded : bytes := abi_encode [2; 100; 70] ++ [xff; x00; x01].
Definition short : bytes := take 95 (abi_encode [2; 100; 70]).
Definition oversized : bytes := abi_encode [2; 2 ^ 32; 70].

End Runs2.

(** Split a conjunction of closed facts and evaluate each of them. *)
Ltac split_conj := repeat match goal with |- _ /\ _ => split end.
Ltac evaluate := split_conj; reflexivity.


(** ** The ABI codec

    Decoding undoes encoding for values that fit the component type. *)

Section Codec.

Lemma to_N_byte_of_N n : Byte.to_N (byte_of_N n) = n mod 256.
Proof.
  unfold byte_of_N. destruct (Byte.of_N (n mod 256)) as [b|] eqn:E.
  - apply Byte.to_of_N. exact E.
  - apply Byte.of_N_None_iff in E. pose proof (N.mod_lt n 256). lia.
Qed.

Lemma word_value_snoc l b : word_value (l ++ [b]) = word_value l * 256 + Byte.to_N b.
Proof. unfold word_value. rewrite fold_left_app. reflexivity. Qed.

Lemma length_word_bytes len n : length (word_bytes len n) = len.
Proof.
  revert n. induction len as [|len IH]; intros n; simpl; [reflexivity|].
  rewrite length_app, IH. simpl. lia.
Qed.

Lemma word_value_word_bytes len n :
  word_value (word_bytes len n) = n mod 256 ^ N.of_nat len.
Proof.
  revert n. induction len as [|len IH]; intros n.
  - simpl. rewrite N.mod_1_r. reflexivity.
  - simpl word_bytes. rewrite word_value_snoc, IH, to_N_byte_of_N.
    rewrite Nat2N.inj_succ, N.pow_succ_r'.
    rewrite N.Div0.mod_mul_r. lia.
Qed.

Lemma abi_decode_encode vs :
  Forall (fun v => v <= max_uint32) vs ->
  abi_decode_uint32s (length vs) (abi_encode vs) = Some vs.
Proof.
  induction 1 as [|v vs Hv _ IH]; [reflexivity|].
  change (abi_encode (v :: vs)) with (abi_encode_uint v ++ abi_encode vs).
  simpl length. unfold abi_decode_uint32s; fold abi_decode_uint32s.
  assert (Hlen : length (abi_encode_uint v) = 32%nat) by apply length_word_bytes.
  rewrite take_app_length' by exact Hlen.
  rewrite drop_app_length' by exact Hlen.
  rewrite Hlen, IH, Nat.eqb_refl. cbn [negb].
  assert (Hval : word_value (abi_encode_uint v) = v).
  { unfold abi_encode_uint. rewrite word_value_word_bytes.
    apply N.mod_small. unfold max_uint32 in Hv.
    assert (2 ^ 32 < 256 ^ N.of_nat 32) by reflexivity. lia. }
  rewrite Hval. apply N.leb_le in Hv. rewrite Hv. reflexivity.
Qed.

End Codec.

(** ** What each function computes

    The run of each function as a decision tree over its guards. *)

Section Runs.
Context {fhe : FHEEngine}.

Lemma State_eq (s t : State) :
  exchangeCount s = exchangeCount t ->
  orderBooks s = orderBooks t ->
  riskAssessments s = riskAssessments t ->
  decryptedAssessments s = decryptedAssessments t ->
  requestToExchangeId s = requestToExchangeId t ->
  events s = events t ->
  s = t.
Proof. destruct s, t; simpl; intros; subst; reflexivity. Qed.

Lemma registerExchange_run env x s :
  registerExchange env x s =
    if exchangeCount s <? max_uint256
    then Ok (exchangeCount s + 1) (set_exchangeCount (exchangeCount s + 1) s)
    else Revert ArithmeticOverflow s.
Proof.
  unfold registerExchange, bind, gets, require.
  destruct (exchangeCount s <? max_uint256); reflexivity.
Qed.

Lemma assessRisk_run env id s : assessRisk env id s = Ok tt (assessed id s).
Proof. reflexivity. Qed.

Lemma submitEncryptedOrderBook_run env b a f v x s :
  submitEncryptedOrderBook env b a f v x s =
    if exchangeCount s <? max_uint256
    then Ok tt (submitted env b a f v x s)
    else Revert ArithmeticOverflow s.
Proof.
  unfold submitEncryptedOrderBook, bind at 1.
  rewrite registerExchange_run.
  destruct (exchangeCount s <? max_uint256); [|reflexivity].
  unfold bind, modify, emit. rewrite assessRisk_run. reflexivity.
Qed.

Lemma requestAssessmentDecryption_run env id s :
  requestAssessmentDecryption env id s =
    if negb (msg_sender env =? exchange (orderBookAt s id))
    then Revert NotExchangeOwner s
    else if isRevealed (decryptedAssessmentAt s id)
    then Revert AlreadyDecrypted s
    else Ok tt (set_requestExchange (oracle_request_id env) id s).
Proof.
  unfold requestAssessmentDecryption, bind, gets, require.
  destruct (msg_sender env =? exchange (orderBookAt s id)); [|reflexivity].
  simpl. destruct (isRevealed (decryptedAssessmentAt s id)); reflexivity.
Qed.

Lemma requestOrderBookDecryption_run env id s :
  requestOrderBookDecryption env id s =
    if negb (msg_sender env =? exchange (orderBookAt s id))
    then Revert NotExchangeOwner s
    else Ok tt s.
Proof.
  unfold requestOrderBookDecryption, bind, gets, require.
  destruct (msg_sender env =? exchange (orderBookAt s id)); reflexivity.
Qed.

Lemma decryptAssessment_run env r c p s :
  decryptAssessment env r c p s =
    if requestExchange s r =? 0 then Revert InvalidRequest s
    else if isRevealed (decryptedAssessmentAt s (requestExchange s r))
    then Revert AlreadyDecrypted s
    else if negb (checkSignatures r c p) then Revert InvalidKMSSignatures s
    else match abi_decode_uint32s 3 c with
         | Some [li; cr; ins] => Ok tt (revealedWith (requestExchange s r) li cr ins s)
         | _ => Revert AbiDecodeFailure s
         end.
Proof.
  unfold decryptAssessment, bind at 1. unfold gets at 1.
  unfold bind at 1.
  destruct (requestExchange s r =? 0); [reflexivity|].
  simpl require. unfold ret at 1.
  unfold bind at 1. unfold gets at 1. unfold bind at 1.
  destruct (isRevealed (decryptedAssessmentAt s (requestExchange s r))) eqn:Hrev;
    [reflexivity|].
  simpl require. unfold ret at 1.
  unfold bind at 1, FHE_checkSignatures.
  destruct (checkSignatures r c p); [|reflexivity].
  simpl require. unfold ret at 1.
  unfold bind at 1, abi_decode.
  destruct (abi_decode_uint32s 3 c) as [[|li [|cr [|ins [|? ?]]]]|]; try reflexivity.
  unfold ret at 1.
  unfold bind, update_decryptedAssessment, emit, modify, revealedWith.
  f_equal. apply State_eq; try reflexivity.
  unfold set_decryptedAssessment, log_event, decryptedAssessmentAt in *; simpl.
  rewrite !lookup_insert_eq, !insert_insert_eq. simpl.
  unfold with_isRevealed, with_marketInstability, with_flashCrashRisk,
    with_liquidityImpact; simpl. reflexivity.
Qed.

Lemma decryptOrderBook_run env r c p s :
  decryptOrderBook env r c p s =
    if negb (checkSignatures r c p) then Revert InvalidKMSSignatures s
    else match abi_decode_uint32s 4 c with
         | Some [_; _; _; _] => Ok tt s
         | _ => Revert AbiDecodeFailure s
         end.
Proof.
  unfold decryptOrderBook, bind at 1. unfold FHE_checkSignatures.
  destruct (checkSignatures r c p); [|reflexivity].
  simpl require. unfold ret at 1. unfold bind, abi_decode.
  destruct (abi_decode_uint32s 4 c) as [[|? [|? [|? [|? [|? ?]]]]]|]; reflexivity.
Qed.

End Runs.

(** ** The invariant of the reachable states *)

Section Invariant.
Context {fhe : FHEEngine}.

Lemma StronglySorted_snoc {A} (R : A -> A -> Prop) (l : list A) (x : A) :
  StronglySorted R l -> Forall (fun y => R y x) l -> StronglySorted R (l ++ [x]).
Proof.
  induction 1 as [|y l Hl IH Hy]; intros Hx; simpl.
  - repeat constructor.
  - inversion Hx; subst. constructor; [auto|].
    apply Forall_app; split; [assumption|]. constructor; [assumption|constructor].
Qed.

Lemma submittedIds_snoc evs ev :
  submittedIds (evs ++ [ev]) =
    submittedIds evs ++ match ev with
                        | OrderBookSubmitted id _ _ => [id]
                        | _ => []
                        end.
Proof. unfold submittedIds. rewrite omap_app. destruct ev; reflexivity. Qed.

Lemma owner_nonzero_stored s id :
  exchange (orderBookAt s id) <> 0 -> is_Some (orderBooks s !! id).
Proof.
  unfold orderBookAt. destruct (orderBooks s !! id); [eauto|].
  simpl. congruence.
Qed.

Lemma revealed_stored s id :
  isRevealed (decryptedAssessmentAt s id) = true ->
  is_Some (decryptedAssessments s !! id).
Proof.
  unfold decryptedAssessmentAt. destruct (decryptedAssessments s !! id); [eauto|].
  simpl. congruence.
Qed.

Lemma pending_stored s r :
  requestExchange s r <> 0 -> requestToExchangeId s !! r = Some (requestExchange s r).
Proof.
  unfold requestExchange. destruct (requestToExchangeId s !! r); simpl.
  - reflexivity.
  - intros H. contradiction H. reflexivity.
Qed.

Lemma Inv_initial : Inv initial.
Proof.
  split; simpl; try setoid_rewrite lookup_empty.
  - intros e [? ?]; discriminate.
  - intros e; split; intros [? ?]; discriminate.
  - intros e; split; intros [? ?]; discriminate.
  - intros r e ?; discriminate.
  - rewrite map_size_empty. lia.
  - constructor.
  - constructor.
  - unfold max_uint256. lia.
Qed.

Lemma fresh_id s : Inv s -> orderBooks s !! (exchangeCount s + 1) = None.
Proof.
  intros HI. destruct (orderBooks s !! (exchangeCount s + 1)) eqn:E; [|reflexivity].
  destruct (inv_ids s HI (exchangeCount s + 1)) as [_ ?]; [eauto|lia].
Qed.

Lemma Inv_registered s :
  Inv s -> exchangeCount s < max_uint256 ->
  Inv (set_exchangeCount (exchangeCount s + 1) s).
Proof.
  intros HI Hlt. destruct HI. split; simpl; auto.
  - intros e He. destruct (inv_ids0 e He). lia.
  - lia.
  - lia.
Qed.

Lemma Inv_submitted env b a f v x s :
  Inv s -> exchangeCount s < max_uint256 -> Inv (submitted env b a f v x s).
Proof.
  intros HI Hlt. pose proof (fresh_id s HI) as Hfresh. destruct HI.
  split; simpl.
  - intros e. rewrite lookup_insert_is_Some. intros [<-|[_ He]]; [lia|].
    destruct (inv_ids0 e He). lia.
  - intros e. rewrite !lookup_insert_is_Some. rewrite inv_risk0. tauto.
  - intros e. rewrite !lookup_insert_is_Some. rewrite inv_dec0. tauto.
  - intros r e Hr. rewrite lookup_insert_is_Some.
    destruct (decide (exchangeCount s + 1 = e)); [auto|]. right. split; [auto|]. eauto.
  - rewrite map_size_insert_None by assumption. lia.
  - rewrite !submittedIds_snoc. simpl. rewrite app_nil_r.
    apply Forall_app. split.
    + eapply Forall_impl; [exact inv_log0|]. simpl. intros e He.
      rewrite lookup_insert_is_Some.
      destruct (decide (exchangeCount s + 1 = e)); [auto|]. right. split; auto.
    + constructor; [|constructor]. rewrite lookup_insert_eq. eauto.
  - rewrite !submittedIds_snoc. simpl. rewrite app_nil_r.
    apply StronglySorted_snoc; [assumption|].
    eapply Forall_impl; [exact inv_log0|]. simpl. intros e He.
    destruct (inv_ids0 e He). lia.
  - lia.
Qed.

Lemma Inv_requested r id s :
  Inv s -> is_Some (orderBooks s !! id) -> Inv (set_requestExchange r id s).
Proof.
  intros HI Hid. destruct HI. split; simpl; auto.
  intros r' e. rewrite lookup_insert. case_decide.
  - intros [= <-]. assumption.
  - apply inv_req0.
Qed.

Lemma Inv_revealedWith id li cr ins s :
  Inv s -> is_Some (orderBooks s !! id) -> Inv (revealedWith id li cr ins s).
Proof.
  intros HI Hid. destruct HI. split; simpl; auto.
  - intros e. rewrite lookup_insert_is_Some. rewrite inv_dec0.
    destruct (decide (id = e)); [subst; tauto|tauto].
  - rewrite submittedIds_snoc. simpl. rewrite app_nil_r. assumption.
  - rewrite submittedIds_snoc. simpl. rewrite app_nil_r. assumption.
Qed.

Lemma sender_is_owner_stored env s id :
  msg_sender env <> 0 ->
  (msg_sender env =? exchange (orderBookAt s id)) = true ->
  is_Some (orderBooks s !! id).
Proof.
  intros Hs Heq. apply N.eqb_eq in Heq. apply owner_nonzero_stored. congruence.
Qed.

Lemma Inv_transact env c s :
  Inv s -> msg_sender env <> 0 -> Inv (transact env c s).
Proof.
  intros HI Hs. unfold transact, commit. destruct c; simpl.
  - unfold bind. rewrite registerExchange_run.
    destruct (exchangeCount s <? max_uint256) eqn:E; [|assumption].
    simpl. apply Inv_registered; [assumption|]. apply N.ltb_lt; assumption.
  - rewrite submitEncryptedOrderBook_run.
    destruct (exchangeCount s <? max_uint256) eqn:E; [|assumption].
    apply Inv_submitted; [assumption|]. apply N.ltb_lt; assumption.
  - rewrite requestAssessmentDecryption_run.
    destruct (msg_sender env =? exchange (orderBookAt s exchangeId0)) eqn:E;
      [|assumption]. simpl.
    destruct (isRevealed (decryptedAssessmentAt s exchangeId0)); [assumption|].
    apply Inv_requested; [assumption|]. eapply sender_is_owner_stored; eassumption.
  - rewrite decryptAssessment_run.
    destruct (requestExchange s requestId =? 0) eqn:E; [assumption|].
    destruct (isRevealed _); [assumption|].
    destruct (checkSignatures _ _ _); [|assumption]. simpl.
    destruct (abi_decode_uint32s 3 cleartexts) as [[|li [|cr [|ins [|? ?]]]]|];
      try assumption.
    apply Inv_revealedWith; [assumption|].
    apply N.eqb_neq in E. eapply inv_req; [eassumption|].
    apply pending_stored; assumption.
  - rewrite requestOrderBookDecryption_run.
    destruct (negb _); assumption.
  - rewrite decryptOrderBook_run.
    destruct (negb _); [assumption|].
    destruct (abi_decode_uint32s 4 cleartexts) as [[|? [|? [|? [|? [|? ?]]]]]|];
      assumption.
  - assumption.
Qed.

Lemma reachable_Inv s : reachable s -> Inv s.
Proof.
  induction 1 as [|s env c _ IH Hs]; [apply Inv_initial|].
  apply Inv_transact; assumption.
Qed.

End Invariant.

(** ** Runs of several transactions *)

Section Steps.
Context {fhe : FHEEngine}.

Lemma steps_preserve (P : State -> Prop) :
  (forall s env c, Inv s -> P s -> msg_sender env <> 0 -> P (transact env c s)) ->
  forall s s', steps s s' -> Inv s -> P s -> Inv s' /\ P s'.
Proof.
  intros Hstep s s' Hs. induction Hs as [s|s env c s' Hne _ IH]; intros HI HP.
  - split; assumption.
  - apply IH; [apply Inv_transact; assumption|]. apply Hstep; assumption.
Qed.

Lemma steps_reachable s s' : steps s s' -> reachable s -> reachable s'.
Proof.
  induction 1 as [s|s env c s' Hne _ IH]; intros Hr; [assumption|].
  apply IH. constructor; assumption.
Qed.

End Steps.

(** * Properties *)

Section Properties.
Context {fhe : FHEEngine}.

(** ** Access control *)

(** C4. A caller that is not the stored owner [orderBooks[id].exchange] gets
    "Not exchange owner" from both request functions, and nothing was written
    when the call failed: the request table and every record are as before. *)
Theorem non_owner_request_is_rejected (env : Env) (id : uint256) (s : State) :
  msg_sender env <> exchange (orderBookAt s id) ->
  requestAssessmentDecryption env id s = Revert NotExchangeOwner s /\
  requestOrderBookDecryption env id s = Revert NotExchangeOwner s /\
  transact env (CallRequestAssessmentDecryption id) s = s /\
  transact env (CallRequestOrderBookDecryption id) s = s.
Proof.
  intros Hne. apply N.eqb_neq in Hne.
  assert (H1 : requestAssessmentDecryption env id s = Revert NotExchangeOwner s).
  { rewrite requestAssessmentDecryption_run, Hne. reflexivity. }
  assert (H2 : requestOrderBookDecryption env id s = Revert NotExchangeOwner s).
  { rewrite requestOrderBookDecryption_run, Hne. reflexivity. }
  repeat split; try assumption; unfold transact, commit; simpl.
  - rewrite H1. reflexivity.
  - rewrite H2. reflexivity.
Qed.

(** ** Fail-closed callbacks *)

(** C2. [decryptAssessment] writes nothing unless the signature check and the
    decoding both went through. A callback that passes the two guards on the
    request table and the reveal flag reverts with the signature error when
    the check fails and with the decoding error when the cleartexts do not
    decode; at either failure the storage is the storage of the call's start,
    the transaction leaves the state as it was, and the reveal flag of the
    target is still [false]. A successful call had a valid signature. *)
Theorem invalid_callback_writes_nothing
    (env : Env) (r : uint256) (c p : bytes) (s : State) :
  (forall err s',
     decryptAssessment env r c p s = Revert err s' ->
     err = InvalidKMSSignatures \/ err = AbiDecodeFailure ->
     s' = s /\
     transact env (CallDecryptAssessment r c p) s = s /\
     isRevealed (decryptedAssessmentAt s (requestExchange s r)) = false /\
     decryptedAssessmentAt (transact env (CallDecryptAssessment r c p) s)
       (requestExchange s r) = decryptedAssessmentAt s (requestExchange s r)) /\
  (requestExchange s r <> 0 ->
   isRevealed (decryptedAssessmentAt s (requestExchange s r)) = false ->
   checkSignatures r c p = false ->
   decryptAssessment env r c p s = Revert InvalidKMSSignatures s) /\
  (requestExchange s r <> 0 ->
   isRevealed (decryptedAssessmentAt s (requestExchange s r)) = false ->
   checkSignatures r c p = true ->
   abi_decode_uint32s 3 c = None ->
   decryptAssessment env r c p s = Revert AbiDecodeFailure s) /\
  (forall s', decryptAssessment env r c p s = Ok tt s' ->
     checkSignatures r c p = true /\ is_Some (abi_decode_uint32s 3 c)).
Proof.
  pose proof (decryptAssessment_run env r c p s) as Hrun.
  split; [|split; [|split; [|]]].
  - intros err s' Hrev Herr. unfold transact, commit; simpl.
    rewrite Hrun in *.
    destruct (requestExchange s r =? 0);
      [inversion Hrev; subst; destruct Herr; discriminate|].
    destruct (isRevealed (decryptedAssessmentAt s (requestExchange s r)));
      [inversion Hrev; subst; destruct Herr; discriminate|].
    destruct (negb (checkSignatures r c p));
      [inversion Hrev; subst; auto|].
    destruct (abi_decode_uint32s 3 c) as [[|li [|cr [|ins [|? ?]]]]|];
      inversion Hrev; subst; auto.
  - intros Hne Hrev Hsig. rewrite Hrun.
    apply N.eqb_neq in Hne. rewrite Hne, Hrev, Hsig. reflexivity.
  - intros Hne Hrev Hsig Hdec. rewrite Hrun.
    apply N.eqb_neq in Hne. rewrite Hne, Hrev, Hsig, Hdec. reflexivity.
  - intros s' Hok. rewrite Hrun in Hok.
    destruct (requestExchange s r =? 0); [discriminate|].
    destruct (isRevealed (decryptedAssessmentAt s (requestExchange s r)));
      [discriminate|].
    destruct (checkSignatures r c p); [|discriminate].
    destruct (abi_decode_uint32s 3 c); [eauto|discriminate].
Qed.

(** ** Reveal is final *)

Lemma revealed_id_allocated s id :
  Inv s -> isRevealed (decryptedAssessmentAt s id) = true ->
  1 <= id /\ id <= exchangeCount s.
Proof.
  intros HI Hrev. apply (inv_ids s HI). apply (inv_dec s HI).
  apply revealed_stored. assumption.
Qed.

Lemma revealed_frame env c s id :
  Inv s -> msg_sender env <> 0 ->
  isRevealed (decryptedAssessmentAt s id) = true ->
  decryptedAssessmentAt (transact env c s) id = decryptedAssessmentAt s id.
Proof.
  intros HI Hs Hrev. unfold transact, commit. destruct c; simpl.
  - unfold bind. rewrite registerExchange_run.
    destruct (exchangeCount s <? max_uint256); reflexivity.
  - rewrite submitEncryptedOrderBook_run.
    destruct (exchangeCount s <? max_uint256); [|reflexivity].
    destruct (revealed_id_allocated s id HI Hrev) as [_ Hle].
    unfold decryptedAssessmentAt; simpl.
    rewrite lookup_insert_ne by lia. reflexivity.
  - rewrite requestAssessmentDecryption_run.
    destruct (negb _); [reflexivity|].
    destruct (isRevealed (decryptedAssessmentAt s exchangeId0)); reflexivity.
  - rewrite decryptAssessment_run.
    destruct (requestExchange s requestId =? 0); [reflexivity|].
    destruct (isRevealed (decryptedAssessmentAt s (requestExchange s requestId)))
      eqn:Er; [reflexivity|].
    destruct (negb _); [reflexivity|].
    destruct (abi_decode_uint32s 3 cleartexts) as [[|li [|cr [|ins [|? ?]]]]|];
      try reflexivity.
    unfold decryptedAssessmentAt at 1; simpl.
    rewrite lookup_insert_ne; [reflexivity|].
    intros Heq. rewrite Heq in Er. congruence.
  - rewrite requestOrderBookDecryption_run. destruct (negb _); reflexivity.
  - rewrite decryptOrderBook_run. destruct (negb _); [reflexivity|].
    destruct (abi_decode_uint32s 4 cleartexts) as [[|? [|? [|? [|? [|? ?]]]]]|];
      reflexivity.
  - reflexivity.
Qed.

(** C1 (as amended). Once [decryptedAssessments[id].isRevealed] is set in a
    reachable state, a further [requestAssessmentDecryption] for [id] fails
    and writes nothing: with "Already decrypted" when the stored owner calls,
    with "Not exchange owner" for any other caller, whose ownership check
    comes first. Every callback whose request id leads to [id] fails with
    "Already decrypted" and writes nothing, so a second delivery of a
    callback is a no-op. No transaction changes the record again: in every
    later state it is the record that was committed, flag included. *)
Theorem revealed_is_final (s : State) (id : uint256) :
  reachable s ->
  isRevealed (decryptedAssessmentAt s id) = true ->
  (forall env,
     requestAssessmentDecryption env id s =
       Revert (if msg_sender env =? exchange (orderBookAt s id)
               then AlreadyDecrypted else NotExchangeOwner) s /\
     transact env (CallRequestAssessmentDecryption id) s = s) /\
  (forall env r c p,
     requestExchange s r = id ->
     decryptAssessment env r c p s = Revert AlreadyDecrypted s /\
     transact env (CallDecryptAssessment r c p) s = s) /\
  (forall s', steps s s' ->
     decryptedAssessmentAt s' id = decryptedAssessmentAt s id).
Proof.
  intros Hreach Hrev. pose proof (reachable_Inv s Hreach) as HI.
  split; [|split].
  - intros env. unfold transact, commit; simpl.
    rewrite requestAssessmentDecryption_run, Hrev.
    destruct (msg_sender env =? exchange (orderBookAt s id)); simpl; auto.
  - intros env r c p Hr. unfold transact, commit; simpl.
    rewrite decryptAssessment_run, Hr, Hrev.
    destruct (revealed_id_allocated s id HI Hrev) as [Hpos _].
    assert (E : (id =? 0) = false) by (apply N.eqb_neq; lia).
    rewrite E. auto.
  - intros s' Hsteps.
    apply (steps_preserve
             (fun t => decryptedAssessmentAt t id = decryptedAssessmentAt s id))
      in Hsteps; [tauto| |assumption|reflexivity].
    intros t env c HIt Ht Hne. rewrite <- Ht. apply revealed_frame; try assumption.
    rewrite Ht. assumption.
Qed.

(** ** The risk formulas *)

Lemma assessedRisk_dec (dec : euint32 -> uint32) (ob : EncryptedOrderBook) :
  Homomorphic dec ->
  dec (encryptedLiquidityImpact (assessedRisk ob)) =
    ((dec (encryptedBidOrders ob) + 2 ^ 32 - dec (encryptedAskOrders ob)) mod 2 ^ 32) / 100 /\
  dec (encryptedFlashCrashRisk (assessedRisk ob)) =
    (dec (encryptedOrderFlow ob) * 2) mod 2 ^ 32 /\
  dec (encryptedMarketInstability (assessedRisk ob)) =
    ((dec (encryptedVolatility ob) * 3) mod 2 ^ 32 + dec (encryptedOrderFlow ob) / 5)
      mod 2 ^ 32.
Proof.
  intros [Hc Ha Hs Hm Hd]. unfold assessedRisk; simpl.
  assert (H100 : dec (asEuint32 100) = 100) by (apply Hc; vm_compute; discriminate).
  assert (H2 : dec (asEuint32 2) = 2) by (apply Hc; vm_compute; discriminate).
  assert (H3 : dec (asEuint32 3) = 3) by (apply Hc; vm_compute; discriminate).
  assert (H5 : dec (asEuint32 5) = 5) by (apply Hc; vm_compute; discriminate).
  repeat split.
  - rewrite Hd by (rewrite H100; discriminate). rewrite Hs, H100. reflexivity.
  - rewrite Hm, H2. reflexivity.
  - rewrite Ha, Hm, H3. rewrite Hd by (rewrite H5; discriminate).
    rewrite H5. reflexivity.
Qed.

Lemma decode_scenario_cleartexts :
  abi_decode_uint32s 3 (abi_encode [2; 100; 70]) = Some [2; 100; 70].
Proof. vm_compute. reflexivity. Qed.

(** C3. [assessRisk] stores under the order book's id the handles
    [div (sub bid ask) 100], [mul flow 2] and [add (mul volatility 3) (div flow 5)],
    with these operands in this order, and [submitEncryptedOrderBook] stores
    them for the handles it was given. On an engine that is homomorphic for
    [dec], with inputs standing for bid = 500, ask = 300, flow = 50 and
    volatility = 20, the owner's reveal request followed by the oracle's
    callback with the decrypted values and a proof the engine accepts leaves
    the record (2, 100, 70, revealed). *)
Theorem assessRisk_formulas_and_reveal :
  (forall env id s,
     exists s', assessRisk env id s = Ok tt s' /\
       riskAssessments s' !! id = Some {|
         encryptedLiquidityImpact :=
           fhe_div (fhe_sub (encryptedBidOrders (orderBookAt s id))
                            (encryptedAskOrders (orderBookAt s id)))
                   (asEuint32 100);
         encryptedFlashCrashRisk :=
           fhe_mul (encryptedOrderFlow (orderBookAt s id)) (asEuint32 2);
         encryptedMarketInstability :=
           fhe_add (fhe_mul (encryptedVolatility (orderBookAt s id)) (asEuint32 3))
                   (fhe_div (encryptedOrderFlow (orderBookAt s id)) (asEuint32 5))
       |}) /\
  (forall env b a f v x s,
     exchangeCount s < max_uint256 ->
     exists s', submitEncryptedOrderBook env b a f v x s = Ok tt s' /\
       riskAssessments s' !! (exchangeCount s + 1) = Some {|
         encryptedLiquidityImpact := fhe_div (fhe_sub b a) (asEuint32 100);
         encryptedFlashCrashRisk := fhe_mul f (asEuint32 2);
         encryptedMarketInstability :=
           fhe_add (fhe_mul v (asEuint32 3)) (fhe_div f (asEuint32 5))
       |}) /\
  (forall (dec : euint32 -> uint32) env envReq envCb b a f v x s proof,
     Homomorphic dec ->
     dec b = 500 -> dec a = 300 -> dec f = 50 -> dec v = 20 ->
     exchangeCount s < max_uint256 ->
     msg_sender envReq = x ->
     let s1 := transact env (CallSubmitEncryptedOrderBook b a f v x) s in
     let id := exchangeCount s1 in
     let s2 := transact envReq (CallRequestAssessmentDecryption id) s1 in
     let ra := riskAssessmentAt s2 id in
     let cleartexts :=
       abi_encode [dec (encryptedLiquidityImpact ra);
                   dec (encryptedFlashCrashRisk ra);
                   dec (encryptedMarketInstability ra)] in
     checkSignatures (oracle_request_id envReq) cleartexts proof = true ->
     decryptedAssessments
       (transact envCb
          (CallDecryptAssessment (oracle_request_id envReq) cleartexts proof) s2)
       !! id
     = Some {| liquidityImpact := 2; flashCrashRisk := 100;
               marketInstability := 70; isRevealed := true |}).
Proof.
  split; [|split].
  - intros env id s. exists (assessed id s). split; [apply assessRisk_run|].
    simpl. rewrite lookup_insert_eq. reflexivity.
  - intros env b a f v x s Hlt. apply N.ltb_lt in Hlt.
    exists (submitted env b a f v x s). split.
    + rewrite submitEncryptedOrderBook_run, Hlt. reflexivity.
    + simpl. rewrite lookup_insert_eq. unfold orderBookAt; simpl.
      rewrite lookup_insert_eq. reflexivity.
  - intros dec env envReq envCb b a f v x s proof Hh Hb Ha Hf Hv Hlt Hx.
    apply N.ltb_lt in Hlt.
    assert (E1 : transact env (CallSubmitEncryptedOrderBook b a f v x) s
                 = submitted env b a f v x s).
    { unfold transact, commit; simpl.
      rewrite submitEncryptedOrderBook_run, Hlt. reflexivity. }
    rewrite E1. clear E1. simpl.
    set (id := exchangeCount s + 1).
    set (s1 := submitted env b a f v x s).
    assert (Hob : orderBookAt s1 id = submittedBook env id b a f v x).
    { unfold orderBookAt, s1; simpl. rewrite lookup_insert_eq. reflexivity. }
    assert (Hda : decryptedAssessmentAt s1 id = zeroDecryptedAssessment).
    { unfold decryptedAssessmentAt, s1; simpl. rewrite lookup_insert_eq. reflexivity. }
    assert (Hra : riskAssessmentAt s1 id = assessedRisk (submittedBook env id b a f v x)).
    { unfold riskAssessmentAt, s1; simpl. rewrite lookup_insert_eq.
      unfold orderBookAt; simpl. rewrite lookup_insert_eq. reflexivity. }
    assert (E2 : transact envReq (CallRequestAssessmentDecryption id) s1
                 = set_requestExchange (oracle_request_id envReq) id s1).
    { unfold transact, commit; simpl.
      rewrite requestAssessmentDecryption_run, Hob, Hda; simpl.
      rewrite Hx, N.eqb_refl. reflexivity. }
    rewrite E2. clear E2.
    set (s2 := set_requestExchange (oracle_request_id envReq) id s1).
    assert (Hra2 : riskAssessmentAt s2 id = riskAssessmentAt s1 id) by reflexivity.
    rewrite Hra2, Hra.
    destruct (assessedRisk_dec dec (submittedBook env id b a f v x) Hh)
      as (Hli & Hfc & Hmi).
    rewrite Hli, Hfc, Hmi.
    cbn [submittedBook encryptedBidOrders encryptedAskOrders encryptedOrderFlow
         encryptedVolatility].
    rewrite Hb, Ha, Hf, Hv.
    change (((500 + 2 ^ 32 - 300) mod 2 ^ 32) / 100) with 2.
    change ((50 * 2) mod 2 ^ 32) with 100.
    change (((20 * 3) mod 2 ^ 32 + 50 / 5) mod 2 ^ 32) with 70.
    intros Hsig.
    unfold transact, commit. cbn [dispatch].
    rewrite decryptAssessment_run.
    assert (Hreq : requestExchange s2 (oracle_request_id envReq) = id).
    { unfold requestExchange, s2; simpl. rewrite lookup_insert_eq. reflexivity. }
    rewrite Hreq.
    assert (Hid : (id =? 0) = false) by (apply N.eqb_neq; unfold id; lia).
    rewrite Hid.
    assert (Hda2 : decryptedAssessmentAt s2 id = zeroDecryptedAssessment) by exact Hda.
    rewrite Hda2. cbn [zeroDecryptedAssessment isRevealed].
    rewrite Hsig. cbn [negb].
    rewrite decode_scenario_cleartexts.
    unfold revealedWith, log_event, set_decryptedAssessment.
    cbn [decryptedAssessments].
    rewrite lookup_insert_eq. reflexivity.
Qed.

(** ** Submission *)

(** C5. A successful [submitEncryptedOrderBook] on a state with counter [n]
    allocates [n + 1] and leaves, under that id, the order book as
    submitted, the risk assessment computed from it, and the decrypted
    assessment (0, 0, 0, not revealed). A submission that fails has written
    nothing at the point of failure, and the assessment step cannot fail. In
    every reachable state the three tables have the same ids: an order book
    comes with exactly its risk assessment and its decrypted assessment. *)
Theorem submission_creates_all_records :
  (forall env b a f v x s s',
     submitEncryptedOrderBook env b a f v x s = Ok tt s' ->
     let id := exchangeCount s + 1 in
     exchangeCount s' = id /\
     orderBooks s' !! id = Some (submittedBook env id b a f v x) /\
     riskAssessments s' !! id = Some (assessedRisk (submittedBook env id b a f v x)) /\
     decryptedAssessments s' !! id =
       Some {| liquidityImpact := 0; flashCrashRisk := 0;
               marketInstability := 0; isRevealed := false |}) /\
  (forall env b a f v x s err s',
     submitEncryptedOrderBook env b a f v x s = Revert err s' -> s' = s) /\
  (forall env id s, exists s', assessRisk env id s = Ok tt s') /\
  (forall s, reachable s ->
     forall id,
       (is_Some (orderBooks s !! id) -> is_Some (riskAssessments s !! id)) /\
       (is_Some (orderBooks s !! id) -> is_Some (decryptedAssessments s !! id)) /\
       (is_Some (riskAssessments s !! id) -> is_Some (orderBooks s !! id)) /\
       (is_Some (decryptedAssessments s !! id) -> is_Some (orderBooks s !! id))).
Proof.
  split; [|split; [|split]].
  - intros env b a f v x s s' Hrun. rewrite submitEncryptedOrderBook_run in Hrun.
    destruct (exchangeCount s <? max_uint256); [|discriminate].
    injection Hrun as <-. simpl. rewrite !lookup_insert_eq.
    unfold orderBookAt; simpl. rewrite lookup_insert_eq. auto.
  - intros env b a f v x s err s' Hrun. rewrite submitEncryptedOrderBook_run in Hrun.
    destruct (exchangeCount s <? max_uint256); [discriminate|].
    injection Hrun as _ <-. reflexivity.
  - intros env id s. eexists. apply assessRisk_run.
  - intros s Hreach id. pose proof (reachable_Inv s Hreach) as HI.
    pose proof (inv_risk s HI id). pose proof (inv_dec s HI id). tauto.
Qed.

(** C8. A successful submission on a reachable state takes the id
    [exchangeCount + 1]: it is not zero, it is greater than the id of every
    order book stored so far and than every id announced by an earlier
    [OrderBookSubmitted] event, and it is the id announced by this
    submission's own event. The counter never goes down, the announced ids
    are strictly increasing, and on the initial state both
    [registerExchange] and a submission allocate 1. *)
Theorem exchange_ids_strictly_increase :
  (forall env b a f v x s s',
     reachable s ->
     submitEncryptedOrderBook env b a f v x s = Ok tt s' ->
     let id := exchangeCount s' in
     id = exchangeCount s + 1 /\
     id <> 0 /\
     is_Some (orderBooks s' !! id) /\
     (forall id', is_Some (orderBooks s !! id') -> id' < id) /\
     Forall (fun id' => id' < id) (submittedIds (events s)) /\
     submittedIds (events s') = submittedIds (events s) ++ [id]) /\
  (forall s, reachable s ->
     StronglySorted N.lt (submittedIds (events s)) /\
     Forall (fun id => 1 <= id /\ id <= exchangeCount s) (submittedIds (events s))) /\
  (forall env c s, exchangeCount s <= exchangeCount (transact env c s)) /\
  (forall env x, exists s', registerExchange env x initial = Ok 1 s') /\
  (forall env b a f v x,
     exists s', submitEncryptedOrderBook env b a f v x initial = Ok tt s' /\
                exchangeCount s' = 1 /\ is_Some (orderBooks s' !! 1)).
Proof.
  split; [|split; [|split; [|split]]].
  - intros env b a f v x s s' Hreach Hrun.
    pose proof (reachable_Inv s Hreach) as HI.
    rewrite submitEncryptedOrderBook_run in Hrun.
    destruct (exchangeCount s <? max_uint256); [|discriminate].
    injection Hrun as <-. simpl.
    assert (Hold : forall id', is_Some (orderBooks s !! id') ->
                               id' < exchangeCount s + 1).
    { intros id' Hid'. destruct (inv_ids s HI id' Hid'). lia. }
    repeat split.
    + lia.
    + rewrite lookup_insert_eq. eauto.
    + exact Hold.
    + eapply Forall_impl; [apply (inv_log s HI)|]. exact Hold.
    + rewrite !submittedIds_snoc. simpl. rewrite app_nil_r. reflexivity.
  - intros s Hreach. pose proof (reachable_Inv s Hreach) as HI. split.
    + apply (inv_sorted s HI).
    + eapply Forall_impl; [apply (inv_log s HI)|]. apply (inv_ids s HI).
  - intros env c s. unfold transact, commit. destruct c; simpl.
    + unfold bind. rewrite registerExchange_run.
      destruct (exchangeCount s <? max_uint256); simpl; lia.
    + rewrite submitEncryptedOrderBook_run.
      destruct (exchangeCount s <? max_uint256); simpl; lia.
    + rewrite requestAssessmentDecryption_run.
      destruct (negb _); [lia|].
      destruct (isRevealed (decryptedAssessmentAt s exchangeId0)); simpl; lia.
    + rewrite decryptAssessment_run.
      destruct (requestExchange s requestId =? 0); [lia|].
      destruct (isRevealed (decryptedAssessmentAt s (requestExchange s requestId)));
        [lia|].
      destruct (negb _); [lia|].
      destruct (abi_decode_uint32s 3 cleartexts) as [[|li [|cr [|ins [|? ?]]]]|];
        simpl; lia.
    + rewrite requestOrderBookDecryption_run. destruct (negb _); lia.
    + rewrite decryptOrderBook_run. destruct (negb _); [lia|].
      destruct (abi_decode_uint32s 4 cleartexts) as [[|? [|? [|? [|? [|? ?]]]]]|];
        lia.
    + lia.
  - intros env x. eexists. rewrite registerExchange_run. reflexivity.
  - intros env b a f v x. eexists. rewrite submitEncryptedOrderBook_run.
    split; [reflexivity|]. split; [reflexivity|].
    simpl. rewrite lookup_insert_eq. eauto.
Qed.

(** ** The request table *)

Lemma abi_decode_uint32s_length n data vs :
  abi_decode_uint32s n data = Some vs -> length vs = n.
Proof.
  revert data vs. induction n as [|n IH]; intros data vs; unfold abi_decode_uint32s;
    fold abi_decode_uint32s.
  - intros [= <-]. reflexivity.
  - destruct (negb (length (take 32 data) =? 32)%nat); [discriminate|].
    destruct (negb (word_value (take 32 data) <=? max_uint32)); [discriminate|].
    destruct (abi_decode_uint32s n (drop 32 data)) as [ws|] eqn:E; [|discriminate].
    intros [= <-]. simpl. f_equal. eapply IH. eassumption.
Qed.

(** C7 (as amended). A first valid callback (the request id leads to an
    exchange id, the record is not revealed, the signature check passes, the
    cleartexts decode to three values) commits the three values, sets the
    reveal flag and logs [AssessmentDecrypted]. The request table is not
    touched: the request id still leads to the same exchange id afterwards.
    What stops a repeat of the callback is the reveal flag. *)
Theorem first_callback_commits_and_keeps_request
    (env : Env) (r : uint256) (c p : bytes) (s : State) (li cr ins : uint32) :
  requestExchange s r <> 0 ->
  isRevealed (decryptedAssessmentAt s (requestExchange s r)) = false ->
  checkSignatures r c p = true ->
  abi_decode_uint32s 3 c = Some [li; cr; ins] ->
  exists s',
    decryptAssessment env r c p s = Ok tt s' /\
    decryptedAssessmentAt s' (requestExchange s r) =
      {| liquidityImpact := li; flashCrashRisk := cr;
         marketInstability := ins; isRevealed := true |} /\
    events s' = events s ++ [AssessmentDecrypted (requestExchange s r)] /\
    requestToExchangeId s' = requestToExchangeId s /\
    requestExchange s' r = requestExchange s r /\
    (forall env' c' p',
       decryptAssessment env' r c' p' s' = Revert AlreadyDecrypted s').
Proof.
  intros Hne Hrev Hsig Hdec.
  exists (revealedWith (requestExchange s r) li cr ins s).
  assert (Hda : decryptedAssessmentAt
                  (revealedWith (requestExchange s r) li cr ins s)
                  (requestExchange s r)
                = {| liquidityImpact := li; flashCrashRisk := cr;
                     marketInstability := ins; isRevealed := true |}).
  { unfold decryptedAssessmentAt; simpl. rewrite lookup_insert_eq. reflexivity. }
  apply N.eqb_neq in Hne.
  repeat split; try assumption; try reflexivity.
  - rewrite decryptAssessment_run, Hne, Hrev, Hsig, Hdec. reflexivity.
  - intros env' c' p'. rewrite decryptAssessment_run.
    change (requestExchange (revealedWith (requestExchange s r) li cr ins s) r)
      with (requestExchange s r).
    rewrite Hne, Hda. reflexivity.
Qed.

(** C9 (as amended). The contract keeps no more than the request table, and
    a request neither looks at it nor clears it: a request by the owner for
    a record that is not revealed is accepted whatever is already pending,
    adds its own entry and leaves every other entry in place, so several
    unresolved requests for one exchange id can be outstanding together.
    Only one of them commits: once a callback for an exchange id has
    succeeded, the callback of every request that leads to the same
    exchange id fails with "Already decrypted". *)
Theorem requests_coexist_one_commits :
  (forall env id s,
     msg_sender env = exchange (orderBookAt s id) ->
     isRevealed (decryptedAssessmentAt s id) = false ->
     exists s',
       requestAssessmentDecryption env id s = Ok tt s' /\
       requestExchange s' (oracle_request_id env) = id /\
       (forall r, r <> oracle_request_id env ->
                  requestExchange s' r = requestExchange s r) /\
       decryptedAssessments s' = decryptedAssessments s) /\
  (forall env r1 r2 c p s s',
     requestExchange s r1 = requestExchange s r2 ->
     decryptAssessment env r1 c p s = Ok tt s' ->
     forall env' c' p',
       decryptAssessment env' r2 c' p' s' = Revert AlreadyDecrypted s').
Proof.
  split.
  - intros env id s Hown Hrev.
    exists (set_requestExchange (oracle_request_id env) id s). repeat split.
    + rewrite requestAssessmentDecryption_run, Hrev, Hown, N.eqb_refl. reflexivity.
    + unfold requestExchange; simpl. rewrite lookup_insert_eq. reflexivity.
    + intros r Hr. unfold requestExchange; simpl.
      rewrite lookup_insert_ne by congruence. reflexivity.
  - intros env r1 r2 c p s s' Heq Hrun env' c' p'.
    rewrite decryptAssessment_run in Hrun.
    destruct (requestExchange s r1 =? 0) eqn:E0; [discriminate|].
    destruct (isRevealed (decryptedAssessmentAt s (requestExchange s r1)));
      [discriminate|].
    destruct (negb (checkSignatures r1 c p)); [discriminate|].
    destruct (abi_decode_uint32s 3 c) as [[|li [|cr [|ins [|? ?]]]]|];
      try discriminate.
    injection Hrun as <-.
    rewrite decryptAssessment_run.
    change (requestExchange (revealedWith (requestExchange s r1) li cr ins s) r2)
      with (requestExchange s r2).
    rewrite <- Heq, E0.
    unfold decryptedAssessmentAt; simpl. rewrite lookup_insert_eq. reflexivity.
Qed.

(** ** The public counter *)

(** What one transaction does to the counter and to the order books: nothing,
    a bare increment, or an increment with the new id's order book. *)
Lemma transact_books env c s :
  (exchangeCount (transact env c s) = exchangeCount s /\
   orderBooks (transact env c s) = orderBooks s) \/
  (exchangeCount (transact env c s) = exchangeCount s + 1 /\
   orderBooks (transact env c s) = orderBooks s) \/
  (exchangeCount (transact env c s) = exchangeCount s + 1 /\
   exists ob, orderBooks (transact env c s) = <[exchangeCount s + 1 := ob]> (orderBooks s)).
Proof.
  unfold transact, commit. destruct c; simpl.
  - unfold bind. rewrite registerExchange_run.
    destruct (exchangeCount s <? max_uint256); simpl; auto.
  - rewrite submitEncryptedOrderBook_run.
    destruct (exchangeCount s <? max_uint256); simpl; eauto.
  - rewrite requestAssessmentDecryption_run.
    destruct (negb _); [auto|].
    destruct (isRevealed (decryptedAssessmentAt s exchangeId0)); simpl; auto.
  - rewrite decryptAssessment_run.
    destruct (requestExchange s requestId =? 0); [auto|].
    destruct (isRevealed (decryptedAssessmentAt s (requestExchange s requestId)));
      [auto|].
    destruct (negb _); [auto|].
    destruct (abi_decode_uint32s 3 cleartexts) as [[|li [|cr [|ins [|? ?]]]]|];
      simpl; auto.
  - rewrite requestOrderBookDecryption_run. destruct (negb _); auto.
  - rewrite decryptOrderBook_run. destruct (negb _); [auto|].
    destruct (abi_decode_uint32s 4 cleartexts) as [[|? [|? [|? [|? [|? ?]]]]]|];
      auto.
  - auto.
Qed.

Lemma skipped_transact n env c s :
  Inv s -> skipped n s -> skipped n (transact env c s).
Proof.
  intros HI (Hnone & Hle & Hsize). unfold skipped.
  destruct (transact_books env c s) as [[-> ->]|[[-> ->]|[-> [ob ->]]]].
  - auto.
  - repeat split; [assumption|lia|lia].
  - repeat split.
    + rewrite lookup_insert_ne by lia. assumption.
    + lia.
    + rewrite map_size_insert_None by (apply fresh_id; assumption). lia.
Qed.

(** C10. [registerExchange] has no guard on its caller or its argument.
    While the counter is below its maximum, a call succeeds, adds exactly 1
    to [exchangeCount], returns the new value and changes nothing else: the
    three record tables, the request table and the log are as before. The id
    it returns has no order book then and never gets one, and in every later
    state with room in the counter a submission succeeds and receives (and
    stores its order book under) an id greater than the number of order
    books stored, the new one included. *)
Theorem registerExchange_only_counts :
  (forall env x s,
     exchangeCount s < max_uint256 ->
     exists s',
       registerExchange env x s = Ok (exchangeCount s + 1) s' /\
       exchangeCount s' = exchangeCount s + 1 /\
       orderBooks s' = orderBooks s /\
       riskAssessments s' = riskAssessments s /\
       decryptedAssessments s' = decryptedAssessments s /\
       requestToExchangeId s' = requestToExchangeId s /\
       events s' = events s) /\
  (forall env x s,
     reachable s ->
     exchangeCount s < max_uint256 ->
     exists s1,
       registerExchange env x s = Ok (exchangeCount s + 1) s1 /\
       forall s2, steps s1 s2 ->
         orderBooks s2 !! (exchangeCount s + 1) = None /\
         forall env' b a f v x',
           exchangeCount s2 < max_uint256 ->
           exists s3,
             submitEncryptedOrderBook env' b a f v x' s2 = Ok tt s3 /\
             exchangeCount s3 = exchangeCount s2 + 1 /\
             orderBooks s3 !! exchangeCount s3
               = Some (submittedBook env' (exchangeCount s3) b a f v x') /\
             N.of_nat (size (orderBooks s2)) < exchangeCount s3 /\
             N.of_nat (size (orderBooks s3)) < exchangeCount s3 /\
             orderBooks s3 !! (exchangeCount s + 1) = None).
Proof.
  split.
  - intros env x s Hlt. apply N.ltb_lt in Hlt.
    exists (set_exchangeCount (exchangeCount s + 1) s).
    rewrite registerExchange_run, Hlt. repeat split.
  - intros env x s Hreach Hlt.
    pose proof (reachable_Inv s Hreach) as HI.
    exists (set_exchangeCount (exchangeCount s + 1) s). split.
    { rewrite registerExchange_run. apply N.ltb_lt in Hlt. rewrite Hlt. reflexivity. }
    intros s2 Hsteps.
    assert (HI1 : Inv (set_exchangeCount (exchangeCount s + 1) s))
      by (apply Inv_registered; assumption).
    assert (Hsk : skipped (exchangeCount s + 1)
                    (set_exchangeCount (exchangeCount s + 1) s)).
    { unfold skipped; simpl. split; [apply fresh_id; assumption|].
      split; [lia|]. pose proof (inv_size s HI). lia. }
    destruct (steps_preserve (skipped (exchangeCount s + 1))
                (fun t env0 c HIt Ht _ => skipped_transact _ env0 c t HIt Ht)
                _ _ Hsteps HI1 Hsk) as [HI2 (Hnone & Hle & Hsize)].
    split; [assumption|].
    intros env' b a f v x' Hlt2.
    exists (submitted env' b a f v x' s2). split.
    { rewrite submitEncryptedOrderBook_run. apply N.ltb_lt in Hlt2.
      rewrite Hlt2. reflexivity. }
    simpl. repeat split.
    + rewrite lookup_insert_eq. reflexivity.
    + lia.
    + rewrite map_size_insert_None by (apply fresh_id; assumption). lia.
    + rewrite lookup_insert_ne by lia. assumption.
Qed.

End Properties.

(** * The properties on the concrete run *)

Section Concrete.
Import Scenario.

Lemma ClearEngine_homomorphic : Homomorphic (H := ClearEngine) (fun h => h).
Proof.
  split; simpl.
  - intros n Hn. apply N.mod_small. unfold max_uint32 in Hn. lia.
  - reflexivity.
  - reflexivity.
  - reflexivity.
  - intros a b Hb. unfold clear_div. apply N.eqb_neq in Hb. rewrite Hb. reflexivity.
Qed.

Lemma reachable_st_submitted : reachable st_submitted.
Proof. apply reachable_transact; [apply reachable_initial|discriminate]. Qed.

Lemma reachable_st_requested : reachable st_requested.
Proof. apply reachable_transact; [apply reachable_st_submitted|discriminate]. Qed.

Lemma reachable_st_requested_twice : reachable st_requested_twice.
Proof. apply reachable_transact; [apply reachable_st_requested|discriminate]. Qed.

Lemma reachable_st_revealed : reachable st_revealed.
Proof. apply reachable_transact; [apply reachable_st_requested|discriminate]. Qed.

(** The stranger asks for exchange 1, which belongs to the owner. *)
Lemma non_owner_request_is_rejected_witness :
  msg_sender env_stranger <> exchange (orderBookAt st_submitted 1) /\
  requestAssessmentDecryption env_stranger 1 st_submitted
    = Revert NotExchangeOwner st_submitted /\
  requestOrderBookDecryption env_stranger 1 st_submitted
    = Revert NotExchangeOwner st_submitted /\
  transact env_stranger (CallRequestAssessmentDecryption 1) st_submitted = st_submitted /\
  transact env_stranger (CallRequestOrderBookDecryption 1) st_submitted = st_submitted.
Proof.
  assert (H : msg_sender env_stranger <> exchange (orderBookAt st_submitted 1))
    by (vm_compute; discriminate).
  split; [exact H|].
  exact (non_owner_request_is_rejected env_stranger 1 st_submitted H).
Defined.

(** A forged proof and garbled cleartexts against the pending request 1. *)
Lemma invalid_callback_writes_nothing_witness :
  decryptAssessment env_relayer 1 cleartexts forged_proof st_requested
    = Revert InvalidKMSSignatures st_requested /\
  decryptAssessment env_relayer 1 garbled (clear_proof 1 garbled) st_requested
    = Revert AbiDecodeFailure st_requested /\
  transact env_relayer (CallDecryptAssessment 1 cleartexts forged_proof) st_requested
    = st_requested /\
  isRevealed (decryptedAssessmentAt st_requested 1) = false.
Proof.
  assert (Hne : requestExchange st_requested 1 <> 0) by (vm_compute; discriminate).
  assert (Hrev : isRevealed (decryptedAssessmentAt st_requested
                               (requestExchange st_requested 1)) = false)
    by reflexivity.
  assert (Hforged : checkSignatures (FHEEngine := ClearEngine) 1 cleartexts forged_proof = false)
    by reflexivity.
  assert (Hsig : checkSignatures (FHEEngine := ClearEngine) 1 garbled (clear_proof 1 garbled) = true)
    by reflexivity.
  assert (Hdec : abi_decode_uint32s 3 garbled = None) by reflexivity.
  destruct (invalid_callback_writes_nothing env_relayer 1 cleartexts forged_proof
              st_requested) as (Hfail & Hbad & _ & _).
  destruct (invalid_callback_writes_nothing env_relayer 1 garbled
              (clear_proof 1 garbled) st_requested) as (_ & _ & Hgarbled & _).
  pose proof (Hbad Hne Hrev Hforged) as Hrun.
  destruct (Hfail _ _ Hrun (or_introl eq_refl)) as (_ & Htx & Hflag & _).
  split; [exact Hrun|]. split; [exact (Hgarbled Hne Hrev Hsig Hdec)|].
  split; [exact Htx|exact Hflag].
Defined.

(** C1, as stated, fails: exchange 1 is revealed and the stranger's request
    is turned down for not being the owner, not for the record being
    revealed. *)
Lemma revealed_request_error_counterexample :
  reachable st_revealed /\
  isRevealed (decryptedAssessmentAt st_revealed 1) = true /\
  requestAssessmentDecryption env_stranger 1 st_revealed
    = Revert NotExchangeOwner st_revealed /\
  requestAssessmentDecryption env_stranger 1 st_revealed
    <> Revert AlreadyDecrypted st_revealed.
Proof.
  split; [apply reachable_st_revealed|]. split; [reflexivity|].
  assert (H : requestAssessmentDecryption env_stranger 1 st_revealed
              = Revert NotExchangeOwner st_revealed).
  { rewrite requestAssessmentDecryption_run.
    assert (E : (msg_sender env_stranger =? exchange (orderBookAt st_revealed 1)) = false)
      by reflexivity.
    rewrite E. reflexivity. }
  split; [exact H|]. rewrite H. discriminate.
Qed.

(** After the reveal: the owner's new request, a second delivery of the
    callback, and the record after a later submission. *)
Lemma revealed_is_final_witness :
  requestAssessmentDecryption env_owner_again 1 st_revealed
    = Revert AlreadyDecrypted st_revealed /\
  transact env_owner_again (CallRequestAssessmentDecryption 1) st_revealed
    = st_revealed /\
  decryptAssessment env_relayer 1 cleartexts proof st_revealed
    = Revert AlreadyDecrypted st_revealed /\
  decryptedAssessmentAt (transact env_stranger submit_call st_revealed) 1
    = decryptedAssessmentAt st_revealed 1.
Proof.
  assert (Hrev : isRevealed (decryptedAssessmentAt st_revealed 1) = true)
    by reflexivity.
  destruct (revealed_is_final st_revealed 1 reachable_st_revealed Hrev)
    as (Hreq & Hcb & Hlater).
  assert (Hown : (msg_sender env_owner_again =? exchange (orderBookAt st_revealed 1))
                 = true) by reflexivity.
  destruct (Hreq env_owner_again) as [Hreq1 Hreq2]. rewrite Hown in Hreq1.
  assert (Hr : requestExchange st_revealed 1 = 1) by reflexivity.
  destruct (Hcb env_relayer 1 cleartexts proof Hr) as [Hcb1 _].
  assert (Hsteps : steps st_revealed (transact env_stranger submit_call st_revealed)).
  { eapply steps_next; [|apply steps_done]. discriminate. }
  split; [exact Hreq1|]. split; [exact Hreq2|]. split; [exact Hcb1|].
  exact (Hlater _ Hsteps).
Defined.

(** The end-to-end run on the cleartext engine. *)
Lemma assessRisk_formulas_and_reveal_witness :
  decryptedAssessments st_revealed !! 1
  = Some {| liquidityImpact := 2; flashCrashRisk := 100;
            marketInstability := 70; isRevealed := true |}.
Proof.
  assert (Hlt : exchangeCount (initial (fhe := ClearEngine)) < max_uint256)
    by reflexivity.
  assert (Hsig : checkSignatures (FHEEngine := ClearEngine) 1 cleartexts proof = true)
    by reflexivity.
  exact (proj2 (proj2 (@assessRisk_formulas_and_reveal ClearEngine))
           (fun h => h) env_owner env_owner env_relayer 500 300 50 20 owner
           initial proof ClearEngine_homomorphic eq_refl eq_refl eq_refl eq_refl
           Hlt eq_refl Hsig).
Defined.

(** The first submission, and the pairing after the reveal. *)
Lemma submission_creates_all_records_witness :
  orderBooks st_submitted !! 1
    = Some (submittedBook (fhe := ClearEngine) env_owner 1 500 300 50 20 owner) /\
  riskAssessments st_submitted !! 1
    = Some (assessedRisk
              (submittedBook (fhe := ClearEngine) env_owner 1 500 300 50 20 owner)) /\
  decryptedAssessments st_submitted !! 1
    = Some {| liquidityImpact := 0; flashCrashRisk := 0;
              marketInstability := 0; isRevealed := false |} /\
  is_Some (riskAssessments st_revealed !! 1) /\
  is_Some (decryptedAssessments st_revealed !! 1).
Proof.
  destruct (submission_creates_all_records (fhe := ClearEngine))
    as (Hsub & _ & _ & Hpair).
  assert (Hrun : submitEncryptedOrderBook (fhe := ClearEngine)
                    env_owner 500 300 50 20 owner initial
                 = Ok tt st_submitted) by reflexivity.
  destruct (Hsub _ _ _ _ _ _ _ _ Hrun) as (_ & Hob & Hra & Hda).
  assert (Hbook : is_Some (orderBooks st_revealed !! 1)) by (eexists; reflexivity).
  destruct (Hpair st_revealed reachable_st_revealed 1) as (H1 & H2 & _ & _).
  split; [exact Hob|]. split; [exact Hra|]. split; [exact Hda|].
  split; [exact (H1 Hbook)|exact (H2 Hbook)].
Defined.

(** C7, as stated, fails: after the valid first callback request id 1 still
    leads to exchange 1. *)
Lemma callback_keeps_request_counterexample :
  decryptAssessment env_relayer 1 cleartexts proof st_requested = Ok tt st_revealed /\
  requestToExchangeId st_revealed !! 1 = Some 1 /\
  requestToExchangeId st_revealed = requestToExchangeId st_requested /\
  requestExchange st_revealed 1 = 1.
Proof. evaluate. Qed.

(** The valid first callback for request 1. *)
Lemma first_callback_commits_and_keeps_request_witness :
  exists s',
    decryptAssessment env_relayer 1 cleartexts proof st_requested = Ok tt s' /\
    decryptedAssessmentAt s' (requestExchange st_requested 1) =
      {| liquidityImpact := 2; flashCrashRisk := 100;
         marketInstability := 70; isRevealed := true |} /\
    events s' = events st_requested
                ++ [AssessmentDecrypted (requestExchange st_requested 1)] /\
    requestToExchangeId s' = requestToExchangeId st_requested /\
    requestExchange s' 1 = requestExchange st_requested 1 /\
    (forall env' c' p',
       decryptAssessment env' 1 c' p' s' = Revert AlreadyDecrypted s').
Proof.
  assert (Hne : requestExchange st_requested 1 <> 0) by (vm_compute; discriminate).
  assert (Hrev : isRevealed (decryptedAssessmentAt st_requested
                               (requestExchange st_requested 1)) = false)
    by reflexivity.
  assert (Hsig : checkSignatures (FHEEngine := ClearEngine) 1 cleartexts proof = true)
    by reflexivity.
  assert (Hdec : abi_decode_uint32s 3 cleartexts = Some [2; 100; 70])
    by reflexivity.
  exact (first_callback_commits_and_keeps_request env_relayer 1 cleartexts proof
           st_requested 2 100 70 Hne Hrev Hsig Hdec).
Defined.

(** A second submission, by the stranger, after the reveal. *)
Lemma exchange_ids_strictly_increase_witness :
  exists s',
    submitEncryptedOrderBook (fhe := ClearEngine) env_stranger 10 20 30 40 stranger
      st_revealed = Ok tt s' /\
    exchangeCount s' = 2 /\
    is_Some (orderBooks s' !! exchangeCount s') /\
    Forall (fun id' => id' < exchangeCount s') (submittedIds (events st_revealed)) /\
    StronglySorted N.lt (submittedIds (events st_revealed)).
Proof.
  destruct (exchange_ids_strictly_increase (fhe := ClearEngine))
    as (Hsub & Hlog & _).
  exists (submitted (fhe := ClearEngine) env_stranger 10 20 30 40 stranger st_revealed).
  assert (Hrun : submitEncryptedOrderBook (fhe := ClearEngine)
                   env_stranger 10 20 30 40 stranger st_revealed
                 = Ok tt (submitted (fhe := ClearEngine)
                            env_stranger 10 20 30 40 stranger st_revealed))
    by reflexivity.
  destruct (Hsub _ _ _ _ _ _ _ _ reachable_st_revealed Hrun)
    as (Hid & _ & Hbook & _ & Hprev & _).
  destruct (Hlog st_revealed reachable_st_revealed) as [Hsorted _].
  split; [exact Hrun|]. split; [exact Hid|]. split; [exact Hbook|].
  split; [exact Hprev|exact Hsorted].
Defined.

(** C9, as stated, fails: after the owner's two requests, request ids 1 and 2
    are both unresolved for exchange 1. *)
Lemma two_unresolved_requests_counterexample :
  reachable st_requested_twice /\
  unresolved st_requested_twice 1 1 /\
  unresolved st_requested_twice 2 1 /\
  (1 : N) <> 2.
Proof.
  split; [apply reachable_st_requested_twice|].
  unfold unresolved, pendingFor.
  split_conj; try discriminate; reflexivity.
Qed.

(** The owner's second request is accepted next to the first; after the
    callback for request 1, the callback for request 2 is refused. *)
Lemma requests_coexist_one_commits_witness :
  (exists s',
     requestAssessmentDecryption env_owner_again 1 st_requested = Ok tt s' /\
     requestExchange s' 2 = 1 /\ requestExchange s' 1 = 1) /\
  (forall env' c' p',
     decryptAssessment env' 2 c' p'
       (transact env_relayer (CallDecryptAssessment 1 cleartexts proof)
          st_requested_twice)
     = Revert AlreadyDecrypted
         (transact env_relayer (CallDecryptAssessment 1 cleartexts proof)
            st_requested_twice)).
Proof.
  destruct (requests_coexist_one_commits (fhe := ClearEngine)) as (Hreq & Hone).
  assert (Hown : msg_sender env_owner_again = exchange (orderBookAt st_requested 1))
    by reflexivity.
  assert (Hrev : isRevealed (decryptedAssessmentAt st_requested 1) = false)
    by reflexivity.
  assert (Hsame : requestExchange st_requested_twice 1
                  = requestExchange st_requested_twice 2)
    by reflexivity.
  assert (Hrun : decryptAssessment env_relayer 1 cleartexts proof st_requested_twice
                 = Ok tt (transact env_relayer
                            (CallDecryptAssessment 1 cleartexts proof)
                            st_requested_twice))
    by reflexivity.
  split.
  - destruct (Hreq env_owner_again 1 st_requested Hown Hrev)
      as (s' & Hok & Hnew & Hold & _).
    exists s'. split; [exact Hok|]. split; [exact Hnew|].
    assert (Hne : (1 : N) <> oracle_request_id env_owner_again) by discriminate.
    rewrite (Hold 1 Hne). reflexivity.
  - exact (Hone env_relayer 1 2 cleartexts proof st_requested_twice _ Hsame Hrun).
Defined.

(** The stranger takes id 1 from the counter; the owner's submission then
    succeeds with id 2, stores its order book there, and id 1 has no order
    book: one order book, counter 2. *)
Lemma registerExchange_only_counts_witness :
  registerExchange (fhe := ClearEngine) env_stranger stranger initial
    = Ok 1 st_registered /\
  submitEncryptedOrderBook (fhe := ClearEngine) env_owner 500 300 50 20 owner
    st_registered = Ok tt st_registered_submitted /\
  exchangeCount st_registered_submitted = 2 /\
  orderBooks st_registered_submitted !! 2
    = Some (submittedBook (fhe := ClearEngine) env_owner 2 500 300 50 20 owner) /\
  orderBooks st_registered_submitted !! 1 = None /\
  N.of_nat (size (orderBooks st_registered_submitted)) < 2.
Proof.
  destruct (registerExchange_only_counts (fhe := ClearEngine)) as (_ & Hskip).
  assert (Hlt : exchangeCount (initial (fhe := ClearEngine)) < max_uint256)
    by reflexivity.
  destruct (Hskip env_stranger stranger initial reachable_initial Hlt)
    as (s1 & Hreg & Hlater).
  assert (Hreg' : registerExchange (fhe := ClearEngine) env_stranger stranger initial
                  = Ok 1 st_registered) by reflexivity.
  assert (Hs1 : s1 = st_registered) by congruence.
  subst s1.
  destruct (Hlater st_registered (steps_done st_registered)) as [_ Hsub].
  assert (Hlt1 : exchangeCount st_registered < max_uint256) by reflexivity.
  destruct (Hsub env_owner 500 300 50 20 owner Hlt1)
    as (s3 & Hrun & Hcount & Hbook & _ & Hsize & Hnone).
  assert (Hrun' : submitEncryptedOrderBook (fhe := ClearEngine)
                    env_owner 500 300 50 20 owner st_registered
                  = Ok tt st_registered_submitted) by reflexivity.
  assert (Hs3 : s3 = st_registered_submitted) by congruence.
  subst s3.
  split; [exact Hreg'|]. split; [exact Hrun'|]. split; [exact Hcount|].
  split; [exact Hbook|]. split; [exact Hnone|]. rewrite Hcount in Hsize. exact Hsize.
Defined.

End Concrete.

(** * Further properties of the contract *)

Section Further.
Context {fhe : FHEEngine}.

(** What a transaction can do to the state: nothing, a bare increment of the
    counter, a submission, a recorded request, or a committed reveal. *)
Lemma transact_cases env c s :
  transact env c s = s \/
  (exists x, c = CallRegisterExchange x /\ exchangeCount s < max_uint256 /\
     transact env c s = set_exchangeCount (exchangeCount s + 1) s) \/
  (exists b a f v x, c = CallSubmitEncryptedOrderBook b a f v x /\
     exchangeCount s < max_uint256 /\
     transact env c s = submitted env b a f v x s) \/
  (exists id, c = CallRequestAssessmentDecryption id /\
     msg_sender env = exchange (orderBookAt s id) /\
     isRevealed (decryptedAssessmentAt s id) = false /\
     transact env c s = set_requestExchange (oracle_request_id env) id s) \/
  (exists r cl p li cr ins, c = CallDecryptAssessment r cl p /\
     requestExchange s r <> 0 /\
     isRevealed (decryptedAssessmentAt s (requestExchange s r)) = false /\
     checkSignatures r cl p = true /\
     abi_decode_uint32s 3 cl = Some [li; cr; ins] /\
     transact env c s = revealedWith (requestExchange s r) li cr ins s).
Proof.
  unfold transact, commit. destruct c; simpl.
  - unfold bind. rewrite registerExchange_run.
    destruct (exchangeCount s <? max_uint256) eqn:E; [|auto].
    apply N.ltb_lt in E. right; left. eauto.
  - rewrite submitEncryptedOrderBook_run.
    destruct (exchangeCount s <? max_uint256) eqn:E; [|auto].
    apply N.ltb_lt in E. right; right; left. eauto 10.
  - rewrite requestAssessmentDecryption_run.
    destruct (msg_sender env =? exchange (orderBookAt s exchangeId0)) eqn:E;
      [|auto]. simpl.
    destruct (isRevealed (decryptedAssessmentAt s exchangeId0)) eqn:Er; [auto|].
    apply N.eqb_eq in E. right; right; right; left. eauto.
  - rewrite decryptAssessment_run.
    destruct (requestExchange s requestId =? 0) eqn:E0; [auto|].
    destruct (isRevealed (decryptedAssessmentAt s (requestExchange s requestId)))
      eqn:Er; [auto|].
    destruct (checkSignatures requestId cleartexts proof) eqn:Ec; [|auto]. simpl.
    destruct (abi_decode_uint32s 3 cleartexts) as [[|li [|cr [|ins [|? ?]]]]|] eqn:Ed;
      auto.
    apply N.eqb_neq in E0. right; right; right; right.
    exists requestId, cleartexts, proof, li, cr, ins. auto 10.
  - rewrite requestOrderBookDecryption_run. destruct (negb _); auto.
  - rewrite decryptOrderBook_run. destruct (negb _); [auto|].
    destruct (abi_decode_uint32s 4 cleartexts) as [[|? [|? [|? [|? [|? ?]]]]]|];
      auto.
  - auto.
Qed.

Lemma abi_decode_uint32s_range n data vs :
  abi_decode_uint32s n data = Some vs -> Forall (fun v => v <= max_uint32) vs.
Proof.
  revert data vs. induction n as [|n IH]; intros data vs; unfold abi_decode_uint32s;
    fold abi_decode_uint32s.
  - intros [= <-]. constructor.
  - destruct (negb (length (take 32 data) =? 32)%nat); [discriminate|].
    destruct (word_value (take 32 data) <=? max_uint32) eqn:Ev; [|discriminate].
    simpl. destruct (abi_decode_uint32s n (drop 32 data)) as [ws|] eqn:E;
      [|discriminate].
    intros [= <-]. constructor; [apply N.leb_le; exact Ev|]. eapply IH. eassumption.
Qed.

Lemma missing_book_has_no_owner s id :
  orderBooks s !! id = None -> exchange (orderBookAt s id) = 0.
Proof. intros H. unfold orderBookAt. rewrite H. reflexivity. Qed.

Lemma stored_book_read s id ob :
  orderBooks s !! id = Some ob -> orderBookAt s id = ob.
Proof. intros H. unfold orderBookAt. rewrite H. reflexivity. Qed.

Lemma missing_record_not_revealed s id :
  decryptedAssessments s !! id = None ->
  decryptedAssessmentAt s id = zeroDecryptedAssessment.
Proof. intros H. unfold decryptedAssessmentAt. rewrite H. reflexivity. Qed.

Lemma fresh_record s : Inv s -> decryptedAssessments s !! (exchangeCount s + 1) = None.
Proof.
  intros HI. destruct (decryptedAssessments s !! (exchangeCount s + 1)) eqn:E;
    [|reflexivity].
  assert (Hs : is_Some (orderBooks s !! (exchangeCount s + 1))).
  { apply (inv_dec s HI). eauto. }
  rewrite (fresh_id s HI) in Hs. destruct Hs; discriminate.
Qed.

(** *** The records *)

Lemma StoreInv_initial : StoreInv initial.
Proof.
  split; simpl; intros *; rewrite lookup_empty; discriminate.
Qed.

Lemma StoreInv_transact env c s : StoreInv s -> StoreInv (transact env c s).
Proof.
  intros [Hk Hr Hz Hg].
  destruct (transact_cases env c s)
    as [->|[(x & _ & _ & ->)|[(b & a & f & v & x & _ & _ & ->)|
        [(id & _ & _ & _ & ->)|(r & cl & p & li & cr & ins & _ & _ & _ & _ & Hd & ->)]]]].
  - split; assumption.
  - split; assumption.
  - split; simpl.
    + intros id ob. rewrite lookup_insert. case_decide.
      * intros [= <-]. simpl. congruence.
      * apply Hk.
    + intros id ob. rewrite !lookup_insert. case_decide.
      * intros [= <-]. unfold orderBookAt; simpl. rewrite lookup_insert_eq.
        reflexivity.
      * apply Hr.
    + intros id da. rewrite lookup_insert. case_decide.
      * intros [= <-]. reflexivity.
      * apply Hz.
    + intros id da. rewrite lookup_insert. case_decide.
      * intros [= <-]. simpl. unfold max_uint32. lia.
      * apply Hg.
  - split; assumption.
  - pose proof (abi_decode_uint32s_range _ _ _ Hd) as Hrange.
    inversion Hrange as [|? ? Hli Hrest]; subst.
    inversion Hrest as [|? ? Hcr Hrest']; subst.
    inversion Hrest' as [|? ? Hins _]; subst.
    split; simpl; try assumption.
    + intros id da. rewrite lookup_insert. case_decide.
      * intros [= <-]. simpl. discriminate.
      * apply Hz.
    + intros id da. rewrite lookup_insert. case_decide.
      * intros [= <-]. simpl. auto.
      * apply Hg.
Qed.

Lemma reachable_StoreInv s : reachable s -> StoreInv s.
Proof.
  induction 1 as [|s env c _ IH _]; [apply StoreInv_initial|].
  apply StoreInv_transact; assumption.
Qed.

(** *** Owners *)

Lemma OwnerInv_initial : OwnerInv initial.
Proof.
  split; simpl.
  - intros r id. rewrite lookup_empty. discriminate.
  - intros id. unfold decryptedAssessmentAt; simpl. rewrite lookup_empty.
    discriminate.
Qed.

Lemma OwnerInv_transact env c s :
  Inv s -> msg_sender env <> 0 -> OwnerInv s -> OwnerInv (transact env c s).
Proof.
  intros HI Hs [Hq Hv].
  destruct (transact_cases env c s)
    as [->|[(x & _ & _ & ->)|[(b & a & f & v & x & _ & _ & ->)|
        [(id & _ & Hown & _ & ->)|(r & cl & p & li & cr & ins & _ & Hne & _ & _ & _ & ->)]]]].
  - split; assumption.
  - split; assumption.
  - pose proof (fresh_id s HI) as Hfresh. pose proof (fresh_record s HI) as Hfr.
    assert (Hold : forall id, is_Some (orderBooks s !! id) ->
                     orderBookAt (submitted env b a f v x s) id = orderBookAt s id).
    { intros id Hid. unfold orderBookAt; simpl. rewrite lookup_insert_ne; [reflexivity|].
      intros <-. rewrite Hfresh in Hid. destruct Hid; discriminate. }
    split.
    + intros r id Hr. simpl in Hr.
      rewrite Hold by (eapply inv_req; eassumption). eapply Hq; eassumption.
    + intros id Hrev.
      assert (Hid : id <> exchangeCount s + 1).
      { intros ->. unfold decryptedAssessmentAt in Hrev; simpl in Hrev.
        rewrite lookup_insert_eq in Hrev. discriminate. }
      assert (Hrev' : isRevealed (decryptedAssessmentAt s id) = true).
      { unfold decryptedAssessmentAt in *; simpl in Hrev.
        rewrite lookup_insert_ne in Hrev by congruence. exact Hrev. }
      rewrite Hold; [apply Hv; exact Hrev'|].
      apply (inv_dec s HI). apply revealed_stored. exact Hrev'.
  - split.
    + intros r id'. simpl. rewrite lookup_insert. case_decide.
      * intros [= <-]. change (exchange (orderBookAt s id) <> 0). congruence.
      * apply Hq.
    + exact Hv.
  - split.
    + exact Hq.
    + intros id. unfold decryptedAssessmentAt; simpl. rewrite lookup_insert.
      case_decide.
      * subst id. intros _. change (exchange (orderBookAt s (requestExchange s r)) <> 0).
        eapply Hq. apply pending_stored. exact Hne.
      * apply Hv.
Qed.

Lemma reachable_OwnerInv s : reachable s -> OwnerInv s.
Proof.
  induction 1 as [|s env c Hr IH Hs]; [apply OwnerInv_initial|].
  apply OwnerInv_transact; [apply reachable_Inv| |]; assumption.
Qed.

(** *** The log *)

Lemma decryptedIds_snoc evs ev :
  decryptedIds (evs ++ [ev]) =
    decryptedIds evs ++ match ev with
                        | AssessmentDecrypted id => [id]
                        | _ => []
                        end.
Proof. unfold decryptedIds. rewrite omap_app. destruct ev; reflexivity. Qed.

Lemma LogInv_initial : LogInv initial.
Proof.
  split; simpl.
  - intros id. rewrite lookup_empty. intros [? ?]; discriminate.
  - intros id x t H. apply elem_of_nil in H. contradiction.
  - intros id. unfold decryptedAssessmentAt; simpl. rewrite lookup_empty. simpl.
    split; [intros H; apply elem_of_nil in H; contradiction|discriminate].
  - constructor.
Qed.

Lemma LogInv_transact env c s : Inv s -> LogInv s -> LogInv (transact env c s).
Proof.
  intros HI [Hsub Hev Hdec Hnd].
  destruct (transact_cases env c s)
    as [->|[(x & _ & _ & ->)|[(b & a & f & v & x & _ & _ & ->)|
        [(id & _ & _ & _ & ->)|(r & cl & p & li & cr & ins & _ & Hne & Hrev & _ & _ & ->)]]]].
  - split; assumption.
  - split; assumption.
  - pose proof (fresh_id s HI) as Hfresh. pose proof (fresh_record s HI) as Hfr.
    split; simpl.
    + intros id. rewrite !submittedIds_snoc. simpl. rewrite app_nil_r.
      rewrite lookup_insert_is_Some, elem_of_app, list_elem_of_singleton.
      intros [<-|[_ Hid]]; auto.
    + intros id x' t. rewrite !elem_of_app, !list_elem_of_singleton.
      intros [[Hin|Heq]|Heq]; try discriminate.
      * destruct (Hev id x' t Hin) as (ob & Hob & Hx & Ht).
        exists ob. split; [|auto]. rewrite lookup_insert_ne; [exact Hob|].
        intros <-. congruence.
      * injection Heq as -> -> ->. eexists. rewrite lookup_insert_eq.
        split; [reflexivity|]. split; reflexivity.
    + intros id. rewrite !decryptedIds_snoc. simpl. rewrite !app_nil_r.
      rewrite Hdec. unfold decryptedAssessmentAt; simpl.
      rewrite lookup_insert. case_decide.
      * subst id. rewrite Hfr. simpl. reflexivity.
      * reflexivity.
    + rewrite !decryptedIds_snoc. simpl. rewrite !app_nil_r. exact Hnd.
  - split; assumption.
  - split; simpl.
    + intros id Hid. rewrite submittedIds_snoc. simpl. rewrite app_nil_r. auto.
    + intros id x t. rewrite elem_of_app, list_elem_of_singleton.
      intros [Hin|Heq]; [auto|discriminate].
    + intros id. rewrite decryptedIds_snoc, elem_of_app, list_elem_of_singleton.
      unfold decryptedAssessmentAt at 1; simpl. rewrite lookup_insert.
      case_decide.
      * subst id. simpl. tauto.
      * rewrite Hdec. unfold decryptedAssessmentAt. intuition congruence.
    + rewrite decryptedIds_snoc. apply NoDup_app. split; [exact Hnd|].
      split; [|apply NoDup_singleton].
      intros id Hin Hid. apply list_elem_of_singleton in Hid. subst id.
      apply Hdec in Hin. congruence.
Qed.

Lemma reachable_LogInv s : reachable s -> LogInv s.
Proof.
  induction 1 as [|s env c Hr IH _]; [apply LogInv_initial|].
  apply LogInv_transact; [apply reachable_Inv|]; assumption.
Qed.

Lemma StronglySorted_lt_NoDup (l : list N) : StronglySorted N.lt l -> NoDup l.
Proof.
  induction 1 as [|x l _ IH Hx]; constructor; [|exact IH].
  intros Hin. rewrite Forall_forall in Hx. specialize (Hx x Hin). lia.
Qed.

(** ** Stored records *)

Lemma books_frame env c s id :
  Inv s -> is_Some (orderBooks s !! id) ->
  orderBooks (transact env c s) !! id = orderBooks s !! id /\
  riskAssessments (transact env c s) !! id = riskAssessments s !! id.
Proof.
  intros HI Hid.
  destruct (transact_cases env c s)
    as [->|[(x & _ & _ & ->)|[(b & a & f & v & x & _ & _ & ->)|
        [(id' & _ & _ & _ & ->)|(r & cl & p & li & cr & ins & _ & _ & _ & _ & _ & ->)]]]];
    try (split; reflexivity).
  assert (Hne : exchangeCount s + 1 <> id).
  { intros <-. rewrite (fresh_id s HI) in Hid. destruct Hid; discriminate. }
  simpl. rewrite !lookup_insert_ne by exact Hne. split; reflexivity.
Qed.

Lemma books_frame_steps s s' id :
  Inv s -> steps s s' -> is_Some (orderBooks s !! id) ->
  Inv s' /\
  orderBooks s' !! id = orderBooks s !! id /\
  riskAssessments s' !! id = riskAssessments s !! id.
Proof.
  intros HI Hsteps Hid.
  apply (steps_preserve
           (fun t => orderBooks t !! id = orderBooks s !! id /\
                     riskAssessments t !! id = riskAssessments s !! id))
    in Hsteps; [assumption| |assumption|split; reflexivity].
  intros t env c HIt [Ht1 Ht2] _.
  destruct (books_frame env c t id HIt) as [H1 H2]; [rewrite Ht1; exact Hid|].
  rewrite H1, H2. split; assumption.
Qed.

(** X1. An order book and its risk assessment are written once: whatever
    transactions follow, the two records stored under an id stay what they
    were. *)
Theorem stored_records_never_change (s s' : State) (id : uint256) :
  reachable s -> steps s s' -> is_Some (orderBooks s !! id) ->
  orderBooks s' !! id = orderBooks s !! id /\
  riskAssessments s' !! id = riskAssessments s !! id.
Proof.
  intros Hreach Hsteps Hid.
  apply (books_frame_steps s s' id (reachable_Inv s Hreach) Hsteps Hid).
Qed.

(** X2. In every reachable state an order book sits under its own
    [exchangeId], which lies between 1 and [exchangeCount], and the risk
    assessment stored with it is the one the formulas give for this order
    book's handles. *)
Theorem stored_records_are_consistent (s : State) (id : uint256)
    (ob : EncryptedOrderBook) :
  reachable s -> orderBooks s !! id = Some ob ->
  exchangeId ob = id /\ 1 <= id /\ id <= exchangeCount s /\
  riskAssessments s !! id = Some {|
    encryptedLiquidityImpact :=
      fhe_div (fhe_sub (encryptedBidOrders ob) (encryptedAskOrders ob)) (asEuint32 100);
    encryptedFlashCrashRisk := fhe_mul (encryptedOrderFlow ob) (asEuint32 2);
    encryptedMarketInstability :=
      fhe_add (fhe_mul (encryptedVolatility ob) (asEuint32 3))
              (fhe_div (encryptedOrderFlow ob) (asEuint32 5))
  |}.
Proof.
  intros Hreach Hob.
  pose proof (reachable_Inv s Hreach) as HI.
  pose proof (reachable_StoreInv s Hreach) as HS.
  destruct (inv_ids s HI id) as [H1 H2]; [eauto|].
  split; [apply (store_key s HS id ob Hob)|]. split; [exact H1|]. split; [exact H2|].
  apply (store_risk s HS id ob Hob).
Qed.

(** X3. In every reachable state a decrypted assessment that is not revealed
    holds (0, 0, 0), for ids with and without a record, and the three values
    of any record fit 32 bits. *)
Theorem decrypted_records_are_zero_or_in_range (s : State) (id : uint256) :
  reachable s ->
  (isRevealed (decryptedAssessmentAt s id) = false ->
   decryptedAssessmentAt s id = zeroDecryptedAssessment) /\
  liquidityImpact (decryptedAssessmentAt s id) <= max_uint32 /\
  flashCrashRisk (decryptedAssessmentAt s id) <= max_uint32 /\
  marketInstability (decryptedAssessmentAt s id) <= max_uint32.
Proof.
  intros Hreach. pose proof (reachable_StoreInv s Hreach) as HS.
  unfold decryptedAssessmentAt.
  destruct (decryptedAssessments s !! id) as [da|] eqn:E; simpl.
  - split; [apply (store_zero s HS id da E)|apply (store_range s HS id da E)].
  - split; [reflexivity|]. unfold max_uint32. lia.
Qed.

(** X4. An id outside 1..[exchangeCount] has nothing behind it in a
    reachable state: no record in any of the three tables and no request id
    that leads to it, and both decryption requests for it fail with "Not
    exchange owner" for every caller. *)
Theorem unallocated_ids_have_nothing (s : State) (id : uint256) :
  reachable s -> id = 0 \/ exchangeCount s < id ->
  orderBooks s !! id = None /\
  riskAssessments s !! id = None /\
  decryptedAssessments s !! id = None /\
  (forall r, requestToExchangeId s !! r <> Some id) /\
  (forall env, msg_sender env <> 0 ->
     requestAssessmentDecryption env id s = Revert NotExchangeOwner s /\
     requestOrderBookDecryption env id s = Revert NotExchangeOwner s).
Proof.
  intros Hreach Hid. pose proof (reachable_Inv s Hreach) as HI.
  assert (Hob : orderBooks s !! id = None).
  { destruct (orderBooks s !! id) eqn:E; [|reflexivity].
    destruct (inv_ids s HI id) as [H1 H2]; [eauto|]. lia. }
  assert (Hnot : ~ is_Some (orderBooks s !! id)).
  { rewrite Hob. intros [? ?]; discriminate. }
  split; [exact Hob|].
  split. { destruct (riskAssessments s !! id) eqn:E; [|reflexivity].
           exfalso. apply Hnot. apply (inv_risk s HI). eauto. }
  split. { destruct (decryptedAssessments s !! id) eqn:E; [|reflexivity].
           exfalso. apply Hnot. apply (inv_dec s HI). eauto. }
  split. { intros r Hr. apply Hnot. eapply inv_req; eassumption. }
  intros env Hs.
  rewrite requestAssessmentDecryption_run, requestOrderBookDecryption_run.
  rewrite (missing_book_has_no_owner s id Hob).
  apply N.eqb_neq in Hs. rewrite Hs. split; reflexivity.
Qed.

(** ** The log *)

(** X5. In every reachable state the log tells what the storage holds. The
    ids announced by [OrderBookSubmitted] are the ids that have an order
    book, each announced once, and an announcement carries the exchange and
    the timestamp stored in the order book. The ids announced by
    [AssessmentDecrypted] are the ids whose assessment is revealed, each
    announced once. *)
Theorem log_reports_the_storage (s : State) :
  reachable s ->
  (forall id, id ∈ submittedIds (events s) <-> is_Some (orderBooks s !! id)) /\
  NoDup (submittedIds (events s)) /\
  (forall id x t,
     OrderBookSubmitted id x t ∈ events s ->
     exists ob, orderBooks s !! id = Some ob /\ exchange ob = x /\ timestamp ob = t) /\
  (forall id,
     id ∈ decryptedIds (events s) <->
     isRevealed (decryptedAssessmentAt s id) = true) /\
  NoDup (decryptedIds (events s)).
Proof.
  intros Hreach.
  pose proof (reachable_Inv s Hreach) as HI.
  pose proof (reachable_LogInv s Hreach) as HL.
  split.
  { intros id. split; [|apply (log_submitted s HL)].
    intros Hin. pose proof (inv_log s HI) as Hall.
    rewrite Forall_forall in Hall. apply Hall. exact Hin. }
  split; [apply StronglySorted_lt_NoDup; apply (inv_sorted s HI)|].
  split; [apply (log_announced s HL)|].
  split; [apply (log_decrypted s HL)|apply (log_decrypted_once s HL)].
Qed.

(** ** Who writes what *)

(** X6. One transaction changes the record tables only in these ways. An
    order book or a risk assessment changes under an id only when the
    transaction is a submission and the id is the new [exchangeCount + 1].
    A decrypted assessment changes only for that reason or when the
    transaction is a callback with an accepted proof whose request id leads
    to this id, not revealed so far. A request id's target changes only when
    the transaction is an assessment request by the stored owner of the new
    target, answered with this request id. *)
Theorem record_writers (env : Env) (c : Call) (s : State) :
  (forall id,
     orderBooks (transact env c s) !! id <> orderBooks s !! id \/
     riskAssessments (transact env c s) !! id <> riskAssessments s !! id ->
     (exists b a f v x, c = CallSubmitEncryptedOrderBook b a f v x) /\
     id = exchangeCount s + 1) /\
  (forall id,
     decryptedAssessments (transact env c s) !! id <> decryptedAssessments s !! id ->
     ((exists b a f v x, c = CallSubmitEncryptedOrderBook b a f v x) /\
      id = exchangeCount s + 1) \/
     (exists r cl p, c = CallDecryptAssessment r cl p /\
        requestExchange s r = id /\ id <> 0 /\
        isRevealed (decryptedAssessmentAt s id) = false /\
        checkSignatures r cl p = true)) /\
  (forall r,
     requestToExchangeId (transact env c s) !! r <> requestToExchangeId s !! r ->
     exists id, c = CallRequestAssessmentDecryption id /\
       r = oracle_request_id env /\
       msg_sender env = exchange (orderBookAt s id) /\
       requestToExchangeId (transact env c s) !! r = Some id).
Proof.
  destruct (transact_cases env c s)
    as [->|[(x & _ & _ & ->)|[(b & a & f & v & x & -> & _ & ->)|
        [(id' & -> & Hown & _ & ->)|(r' & cl & p & li & cr & ins & -> & Hne & Hrev & Hsig & _ & ->)]]]];
    simpl.
  - repeat split; intros; try tauto; congruence.
  - repeat split; intros; try tauto; congruence.
  - split; [|split].
    + intros id. rewrite !lookup_insert. case_decide; [|tauto].
      intros _. split; [eauto 10|congruence].
    + intros id. rewrite lookup_insert. case_decide; [|tauto].
      intros _. left. split; [eauto 10|congruence].
    + intros r Hr. congruence.
  - split; [|split].
    + intros id [H|H]; congruence.
    + intros id H. congruence.
    + intros r. rewrite lookup_insert. case_decide; [|tauto].
      intros _. exists id'. auto.
  - split; [|split].
    + intros id [H|H]; congruence.
    + intros id. rewrite lookup_insert. case_decide; [|tauto].
      intros _. right. subst id. exists r', cl, p. auto 10.
    + intros r Hr. congruence.
Qed.

(** ** Ownership *)

Lemma steps_without_steps a s s' : steps_without a s s' -> steps s s'.
Proof.
  induction 1 as [s|s env c s' H0 _ _ IH]; [apply steps_done|].
  eapply steps_next; eassumption.
Qed.

Lemma steps_steps_without_zero s s' : steps s s' -> steps_without 0 s s'.
Proof.
  induction 1 as [s|s env c s' H0 _ IH]; [apply steps_without_done|].
  eapply steps_without_next; eassumption.
Qed.

(** X7. The owner of an order book is the [exchange] argument of its
    submission, whoever sent the submission, and stays so: in every later
    state [requestOrderBookDecryption] for the id succeeds exactly for this
    address, and [requestAssessmentDecryption] fails with "Not exchange
    owner" for every other address, while for this address it is accepted
    until the assessment is revealed. *)
Theorem ownership_is_the_named_exchange
    (env0 : Env) (b a f v : euint32) (x : address) (s s1 s2 : State) :
  reachable s ->
  submitEncryptedOrderBook env0 b a f v x s = Ok tt s1 ->
  steps s1 s2 ->
  forall env,
    (requestOrderBookDecryption env (exchangeCount s + 1) s2 = Ok tt s2 <->
     msg_sender env = x) /\
    (msg_sender env <> x ->
     requestAssessmentDecryption env (exchangeCount s + 1) s2
       = Revert NotExchangeOwner s2) /\
    (msg_sender env = x ->
     requestAssessmentDecryption env (exchangeCount s + 1) s2
       = if isRevealed (decryptedAssessmentAt s2 (exchangeCount s + 1))
         then Revert AlreadyDecrypted s2
         else Ok tt (set_requestExchange (oracle_request_id env)
                       (exchangeCount s + 1) s2)).
Proof.
  intros Hreach Hsub Hsteps env.
  pose proof (reachable_Inv s Hreach) as HI.
  rewrite submitEncryptedOrderBook_run in Hsub.
  destruct (exchangeCount s <? max_uint256) eqn:Hlt; [|discriminate].
  injection Hsub as <-. apply N.ltb_lt in Hlt.
  set (id := exchangeCount s + 1) in *.
  assert (Hbook : orderBooks (submitted env0 b a f v x s) !! id
                  = Some (submittedBook env0 id b a f v x)).
  { simpl. rewrite lookup_insert_eq. reflexivity. }
  destruct (books_frame_steps _ s2 id (Inv_submitted env0 b a f v x s HI Hlt) Hsteps)
    as (_ & Hob & _); [rewrite Hbook; eauto|].
  rewrite Hbook in Hob.
  assert (Hown : exchange (orderBookAt s2 id) = x).
  { rewrite (stored_book_read s2 id _ Hob). reflexivity. }
  rewrite requestOrderBookDecryption_run, requestAssessmentDecryption_run, Hown.
  destruct (msg_sender env =? x) eqn:E; simpl.
  - apply N.eqb_eq in E. split; [tauto|]. split; [congruence|]. intros _.
    destruct (isRevealed (decryptedAssessmentAt s2 id)); reflexivity.
  - apply N.eqb_neq in E. split; [split; [discriminate|congruence]|].
    split; [reflexivity|congruence].
Qed.

(** While the owner of [id] sends nothing, [id] keeps its placeholder and no
    request id leads to it. *)
Lemma unrequested_frame env c s id ob :
  Inv s -> msg_sender env <> exchange ob ->
  orderBooks s !! id = Some ob ->
  decryptedAssessments s !! id = Some zeroDecryptedAssessment ->
  (forall r, requestExchange s r <> id) ->
  decryptedAssessments (transact env c s) !! id = Some zeroDecryptedAssessment /\
  (forall r, requestExchange (transact env c s) r <> id).
Proof.
  intros HI Hs Hob Hda Hreq.
  destruct (transact_cases env c s)
    as [->|[(x & _ & _ & ->)|[(b & a & f & v & x & _ & _ & ->)|
        [(id' & _ & Hown & _ & ->)|(r' & cl & p & li & cr & ins & _ & _ & _ & _ & _ & ->)]]]];
    try (split; assumption).
  - split; [|exact Hreq]. simpl. rewrite lookup_insert_ne; [exact Hda|].
    intros Heq. rewrite <- Heq, (fresh_id s HI) in Hob. discriminate.
  - split; [exact Hda|]. intros r. unfold requestExchange; simpl.
    rewrite lookup_insert. case_decide; [|apply Hreq].
    simpl. intros ->. apply Hs. rewrite Hown, (stored_book_read s id ob Hob).
    reflexivity.
  - split; [|exact Hreq]. simpl. rewrite lookup_insert_ne; [exact Hda|]. apply Hreq.
Qed.

Lemma unrequested_steps a s s' id ob :
  steps_without a s s' -> exchange ob = a ->
  Inv s -> orderBooks s !! id = Some ob ->
  decryptedAssessments s !! id = Some zeroDecryptedAssessment ->
  (forall r, requestExchange s r <> id) ->
  decryptedAssessments s' !! id = Some zeroDecryptedAssessment /\
  (forall r, requestExchange s' r <> id).
Proof.
  intros Hsteps Ha. induction Hsteps as [s|s env c s' H0 Hne _ IH];
    intros HI Hob Hda Hreq; [split; assumption|].
  destruct (unrequested_frame env c s id ob HI) as [Hda' Hreq']; try assumption;
    [congruence|].
  apply IH; try assumption.
  - apply Inv_transact; assumption.
  - destruct (books_frame env c s id HI) as [-> _]; [eauto|exact Hob].
Qed.

Lemma submitted_unrequested env b a f v x s :
  Inv s ->
  decryptedAssessments (submitted env b a f v x s) !! (exchangeCount s + 1)
    = Some zeroDecryptedAssessment /\
  (forall r, requestExchange (submitted env b a f v x s) r <> exchangeCount s + 1).
Proof.
  intros HI. split; [simpl; rewrite lookup_insert_eq; reflexivity|].
  intros r Hr. change (requestExchange s r = exchangeCount s + 1) in Hr.
  assert (Hne : requestExchange s r <> 0) by lia.
  pose proof (pending_stored s r Hne) as Hentry. rewrite Hr in Hentry.
  pose proof (inv_req s HI r _ Hentry) as Hsome.
  rewrite (fresh_id s HI) in Hsome. destruct Hsome; discriminate.
Qed.

(** X8. Only the named exchange can set a reveal in motion. After a
    submission naming [x], as long as [x] sends no transaction, whatever the
    other addresses send, the new id's decrypted assessment stays
    (0, 0, 0, not revealed), no request id leads to the id, and so every
    callback is refused or lands on another id. *)
Theorem only_the_named_exchange_triggers_reveal
    (env0 : Env) (b a f v : euint32) (x : address) (s s1 s2 : State) :
  reachable s ->
  submitEncryptedOrderBook env0 b a f v x s = Ok tt s1 ->
  steps_without x s1 s2 ->
  decryptedAssessmentAt s2 (exchangeCount s + 1) = zeroDecryptedAssessment /\
  (forall r, requestExchange s2 r <> exchangeCount s + 1) /\
  (forall env r cl p,
     decryptedAssessmentAt (transact env (CallDecryptAssessment r cl p) s2)
       (exchangeCount s + 1) = zeroDecryptedAssessment).
Proof.
  intros Hreach Hsub Hsteps.
  pose proof (reachable_Inv s Hreach) as HI.
  rewrite submitEncryptedOrderBook_run in Hsub.
  destruct (exchangeCount s <? max_uint256) eqn:Hlt; [|discriminate].
  injection Hsub as <-. apply N.ltb_lt in Hlt.
  set (id := exchangeCount s + 1) in *.
  pose proof (Inv_submitted env0 b a f v x s HI Hlt) as HI1.
  destruct (submitted_unrequested env0 b a f v x s HI) as [Hda1 Hreq1].
  assert (Hbook : orderBooks (submitted env0 b a f v x s) !! id
                  = Some (submittedBook env0 id b a f v x)).
  { simpl. rewrite lookup_insert_eq. reflexivity. }
  destruct (unrequested_steps x _ s2 id (submittedBook env0 id b a f v x)
              Hsteps eq_refl HI1 Hbook Hda1 Hreq1) as [Hda2 Hreq2].
  assert (Hzero : decryptedAssessmentAt s2 id = zeroDecryptedAssessment).
  { unfold decryptedAssessmentAt. rewrite Hda2. reflexivity. }
  split; [exact Hzero|]. split; [exact Hreq2|].
  intros env r cl p.
  destruct (transact_cases env (CallDecryptAssessment r cl p) s2)
    as [->|[(? & Hc & _)|[(? & ? & ? & ? & ? & Hc & _)|
        [(? & Hc & _)|(r' & cl' & p' & li & cr & ins & Hc & _ & _ & _ & _ & ->)]]]];
    try discriminate; [exact Hzero|].
  injection Hc as <- <- <-.
  unfold decryptedAssessmentAt; simpl.
  rewrite lookup_insert_ne by apply Hreq2. rewrite Hda2. reflexivity.
Qed.

(** X9. An order book submitted with the zero address as its exchange can
    never be decrypted: in every later state both decryption requests for
    its id fail with "Not exchange owner" for every caller, and its
    decrypted assessment stays (0, 0, 0, not revealed). *)
Theorem zero_exchange_is_never_decrypted
    (env0 : Env) (b a f v : euint32) (s s1 s2 : State) :
  reachable s ->
  submitEncryptedOrderBook env0 b a f v 0 s = Ok tt s1 ->
  steps s1 s2 ->
  decryptedAssessmentAt s2 (exchangeCount s + 1) = zeroDecryptedAssessment /\
  (forall env, msg_sender env <> 0 ->
     requestAssessmentDecryption env (exchangeCount s + 1) s2
       = Revert NotExchangeOwner s2 /\
     requestOrderBookDecryption env (exchangeCount s + 1) s2
       = Revert NotExchangeOwner s2).
Proof.
  intros Hreach Hsub Hsteps.
  pose proof (reachable_Inv s Hreach) as HI.
  rewrite submitEncryptedOrderBook_run in Hsub.
  destruct (exchangeCount s <? max_uint256) eqn:Hlt; [|discriminate].
  injection Hsub as <-. apply N.ltb_lt in Hlt.
  set (id := exchangeCount s + 1) in *.
  pose proof (Inv_submitted env0 b a f v 0 s HI Hlt) as HI1.
  destruct (submitted_unrequested env0 b a f v 0 s HI) as [Hda1 Hreq1].
  assert (Hbook : orderBooks (submitted env0 b a f v 0 s) !! id
                  = Some (submittedBook env0 id b a f v 0)).
  { simpl. rewrite lookup_insert_eq. reflexivity. }
  destruct (unrequested_steps 0 _ s2 id (submittedBook env0 id b a f v 0)
              (steps_steps_without_zero _ _ Hsteps)
              eq_refl HI1 Hbook Hda1 Hreq1) as [Hda2 _].
  destruct (books_frame_steps _ s2 id HI1 Hsteps) as (_ & Hob & _);
    [rewrite Hbook; eauto|].
  rewrite Hbook in Hob.
  split; [unfold decryptedAssessmentAt; rewrite Hda2; reflexivity|].
  intros env Hs.
  rewrite requestAssessmentDecryption_run, requestOrderBookDecryption_run.
  rewrite (stored_book_read s2 id _ Hob). simpl.
  apply N.eqb_neq in Hs. rewrite Hs. split; reflexivity.
Qed.

(** ** The counter *)

Lemma accounting_step env c s :
  Inv s ->
  exchangeCount (transact env c s) + N.of_nat (size (orderBooks s)) =
    exchangeCount s + N.of_nat (size (orderBooks (transact env c s)))
    + N.of_nat (bare_registrations [(env, c)] s).
Proof.
  intros HI. unfold bare_registrations. rewrite Nat.add_0_r.
  destruct c.
  - unfold transact, commit; simpl. unfold bind. rewrite registerExchange_run.
    destruct (exchangeCount s <? max_uint256); simpl; lia.
  - unfold transact, commit; simpl. rewrite submitEncryptedOrderBook_run.
    destruct (exchangeCount s <? max_uint256); simpl; [|lia].
    rewrite map_size_insert_None by (apply fresh_id; exact HI). lia.
  - destruct (transact_cases env (CallRequestAssessmentDecryption exchangeId0) s)
      as [->|[(? & Hc & _)|[(? & ? & ? & ? & ? & Hc & _)|
          [(? & _ & _ & _ & ->)|(? & ? & ? & ? & ? & ? & Hc & _)]]]];
      try discriminate; simpl; lia.
  - destruct (transact_cases env (CallDecryptAssessment requestId cleartexts proof) s)
      as [->|[(? & Hc & _)|[(? & ? & ? & ? & ? & Hc & _)|
          [(? & Hc & _)|(? & ? & ? & ? & ? & ? & _ & _ & _ & _ & _ & ->)]]]];
      try discriminate; simpl; lia.
  - destruct (transact_cases env (CallRequestOrderBookDecryption exchangeId0) s)
      as [->|[(? & Hc & _)|[(? & ? & ? & ? & ? & Hc & _)|
          [(? & Hc & _)|(? & ? & ? & ? & ? & ? & Hc & _)]]]];
      try discriminate; simpl; lia.
  - destruct (transact_cases env (CallDecryptOrderBook requestId cleartexts proof) s)
      as [->|[(? & Hc & _)|[(? & ? & ? & ? & ? & Hc & _)|
          [(? & Hc & _)|(? & ? & ? & ? & ? & ? & Hc & _)]]]];
      try discriminate; simpl; lia.
  - destruct (transact_cases env CallGetExchangeCount s)
      as [->|[(? & Hc & _)|[(? & ? & ? & ? & ? & Hc & _)|
          [(? & Hc & _)|(? & ? & ? & ? & ? & ? & Hc & _)]]]];
      try discriminate; simpl; lia.
Qed.

Lemma accounting_trace tr s :
  Inv s -> Forall (fun ec => msg_sender (fst ec) <> 0) tr ->
  Inv (run_trace tr s) /\
  exchangeCount (run_trace tr s) + N.of_nat (size (orderBooks s)) =
    exchangeCount s + N.of_nat (size (orderBooks (run_trace tr s)))
    + N.of_nat (bare_registrations tr s).
Proof.
  revert s. induction tr as [|[env c] tr IH]; intros s HI Hall.
  - simpl. split; [exact HI|lia].
  - inversion Hall as [|? ? Hs Hall']; subst. simpl in Hs.
    pose proof (Inv_transact env c s HI Hs) as HI'.
    destruct (IH (transact env c s) HI' Hall') as [HI'' Heq].
    pose proof (accounting_step env c s HI) as Hstep.
    change (run_trace ((env, c) :: tr) s) with (run_trace tr (transact env c s)).
    split; [exact HI''|].
    assert (Hb : bare_registrations ((env, c) :: tr) s
                 = (bare_registrations [(env, c)] s
                    + bare_registrations tr (transact env c s))%nat).
    { simpl. lia. }
    rewrite Hb. lia.
Qed.

(** X10. [exchangeCount] counts allocations, not order books: after any
    history of transactions from deployment it equals the number of order
    books stored plus the number of direct [registerExchange] calls that
    succeeded, and this is the value [getExchangeCount] returns, with the
    state as it was. *)
Theorem counter_counts_allocations (tr : list (Env * Call)) :
  Forall (fun ec => msg_sender (fst ec) <> 0) tr ->
  exchangeCount (run_trace tr initial) =
    N.of_nat (size (orderBooks (run_trace tr initial)))
    + N.of_nat (bare_registrations tr initial) /\
  (forall env,
     getExchangeCount env (run_trace tr initial) =
       Ok (N.of_nat (size (orderBooks (run_trace tr initial)))
           + N.of_nat (bare_registrations tr initial))
          (run_trace tr initial)).
Proof.
  intros Hall.
  destruct (accounting_trace tr initial Inv_initial Hall) as [_ Heq].
  simpl in Heq. rewrite map_size_empty in Heq.
  assert (E : exchangeCount (run_trace tr initial) =
              N.of_nat (size (orderBooks (run_trace tr initial)))
              + N.of_nat (bare_registrations tr initial)) by lia.
  split; [exact E|]. intros env. unfold getExchangeCount, gets. rewrite <- E.
  reflexivity.
Qed.

(** X11. The counter never leaves the [uint256] range, and at its last value
    2^256 - 1 both [registerExchange] and [submitEncryptedOrderBook] revert
    on the checked increment, before anything is written. *)
Theorem counter_stops_at_its_maximum :
  (forall s, reachable s -> exchangeCount s <= max_uint256) /\
  (forall env b a f v x s,
     exchangeCount s = max_uint256 ->
     registerExchange env x s = Revert ArithmeticOverflow s /\
     submitEncryptedOrderBook env b a f v x s = Revert ArithmeticOverflow s /\
     transact env (CallRegisterExchange x) s = s /\
     transact env (CallSubmitEncryptedOrderBook b a f v x) s = s).
Proof.
  split.
  - intros s Hreach. apply (inv_bound s (reachable_Inv s Hreach)).
  - intros env b a f v x s Hmax.
    assert (E : (exchangeCount s <? max_uint256) = false)
      by (apply N.ltb_ge; lia).
    unfold transact, commit; simpl. unfold bind.
    rewrite registerExchange_run, submitEncryptedOrderBook_run, E. auto.
Qed.

(** ** Decoding the cleartexts *)

Lemma abi_word_0 data : abi_word 0 data = word_value (take 32 data).
Proof. reflexivity. Qed.

Lemma abi_word_S i data : abi_word (S i) data = abi_word i (drop 32 data).
Proof.
  unfold abi_word. rewrite drop_drop.
  replace (32 * S i)%nat with (32 + 32 * i)%nat by lia. reflexivity.
Qed.

Lemma abi_decode_uint32s_step n data :
  abi_decode_uint32s (S n) data =
    if negb (length (take 32 data) =? 32)%nat then None
    else if negb (word_value (take 32 data) <=? max_uint32) then None
    else match abi_decode_uint32s n (drop 32 data) with
         | Some vs => Some (word_value (take 32 data) :: vs)
         | None => None
         end.
Proof. reflexivity. Qed.

(** [abi.decode] succeeds exactly when the head is there and every word fits,
    and then returns the words. *)
Lemma abi_decode_uint32s_Some n data vs :
  abi_decode_uint32s n data = Some vs <->
  (32 * n <= length data)%nat /\
  vs = map (fun i => abi_word i data) (seq 0 n) /\
  Forall (fun v => v <= max_uint32) vs.
Proof.
  revert data vs. induction n as [|n IH]; intros data vs.
  - change (abi_decode_uint32s 0 data) with (Some (@nil N)). simpl. split.
    + intros [= <-]. split; [lia|]. split; [reflexivity|constructor].
    + intros (_ & -> & _). reflexivity.
  - rewrite abi_decode_uint32s_step, length_take.
    cbn [seq]. rewrite <- seq_shift. cbn [map]. rewrite map_map.
    destruct (Nat.eqb_spec (min 32 (length data)) 32) as [Hlen|Hlen]; cbn [negb].
    2:{ split; [discriminate|]. intros (Hl & _). lia. }
    destruct (N.leb_spec (word_value (take 32 data)) max_uint32) as [Hw|Hw];
      cbn [negb].
    2:{ split; [discriminate|]. intros (_ & -> & Hall).
        inversion Hall as [|? ? H0 _]; subst. rewrite abi_word_0 in H0. lia. }
    destruct (abi_decode_uint32s n (drop 32 data)) as [ws|] eqn:E.
    + apply IH in E. destruct E as (Hl & -> & Hall).
      rewrite length_drop in Hl. split.
      * intros [= <-]. split; [lia|]. split.
        -- rewrite abi_word_0. f_equal. apply map_ext. intros i.
           rewrite abi_word_S. reflexivity.
        -- constructor; assumption.
      * intros (_ & -> & _). rewrite abi_word_0. f_equal. f_equal.
        apply map_ext. intros i. rewrite abi_word_S. reflexivity.
    + split; [discriminate|]. intros (Hl & -> & Hall). exfalso.
      assert (Hsome : abi_decode_uint32s n (drop 32 data)
                      = Some (map (fun i => abi_word i (drop 32 data)) (seq 0 n))).
      { apply IH. rewrite length_drop. split; [lia|]. split; [reflexivity|].
        inversion Hall as [|? ? _ Hrest]; subst.
        erewrite map_ext; [exact Hrest|]. intros i. simpl.
        rewrite abi_word_S. reflexivity. }
      congruence.
Qed.

Lemma abi_decode_uint32s_short n data :
  (length data < 32 * n)%nat -> abi_decode_uint32s n data = None.
Proof.
  intros Hlen. destruct (abi_decode_uint32s n data) as [vs|] eqn:E; [|reflexivity].
  apply abi_decode_uint32s_Some in E. lia.
Qed.

(** X12. On a callback that passes the three guards (known request, record
    not revealed, accepted proof), [decryptAssessment] fails with the
    decoding error when the cleartexts have fewer than 96 bytes and when one
    of the first three 32-byte words exceeds 2^32 - 1; otherwise it commits
    these three words, read big-endian, and ignores every byte after
    them. *)
Theorem callback_commits_the_decoded_words
    (env : Env) (r : uint256) (c p : bytes) (s : State) :
  requestExchange s r <> 0 ->
  isRevealed (decryptedAssessmentAt s (requestExchange s r)) = false ->
  checkSignatures r c p = true ->
  ((length c < 96)%nat ->
   decryptAssessment env r c p s = Revert AbiDecodeFailure s) /\
  (max_uint32 < abi_word 0 c \/ max_uint32 < abi_word 1 c \/ max_uint32 < abi_word 2 c ->
   decryptAssessment env r c p s = Revert AbiDecodeFailure s) /\
  ((96 <= length c)%nat ->
   abi_word 0 c <= max_uint32 -> abi_word 1 c <= max_uint32 ->
   abi_word 2 c <= max_uint32 ->
   decryptAssessment env r c p s
     = Ok tt (revealedWith (requestExchange s r)
                (abi_word 0 c) (abi_word 1 c) (abi_word 2 c) s) /\
   forall extra, decryptAssessment env r (c ++ extra) p s
     = if checkSignatures r (c ++ extra) p
       then Ok tt (revealedWith (requestExchange s r)
                     (abi_word 0 c) (abi_word 1 c) (abi_word 2 c) s)
       else Revert InvalidKMSSignatures s).
Proof.
  intros Hne Hrev Hsig. apply N.eqb_neq in Hne.
  assert (Hrun : forall c',
    decryptAssessment env r c' p s =
      if negb (checkSignatures r c' p) then Revert InvalidKMSSignatures s
      else match abi_decode_uint32s 3 c' with
           | Some [li; cr; ins] => Ok tt (revealedWith (requestExchange s r) li cr ins s)
           | _ => Revert AbiDecodeFailure s
           end).
  { intros c'. rewrite decryptAssessment_run, Hne, Hrev. reflexivity. }
  split; [|split].
  - intros Hlen. rewrite Hrun, Hsig. cbn [negb].
    rewrite abi_decode_uint32s_short by (simpl; lia). reflexivity.
  - intros Hbig. rewrite Hrun, Hsig. cbn [negb].
    destruct (abi_decode_uint32s 3 c) as [vs|] eqn:E; [|reflexivity].
    apply abi_decode_uint32s_Some in E. destruct E as (_ & -> & Hall).
    cbn [seq map] in Hall.
    inversion Hall as [|? ? H0 Hall1]; subst.
    inversion Hall1 as [|? ? H1 Hall2]; subst.
    inversion Hall2 as [|? ? H2 _]; subst. lia.
  - intros Hlen H0 H1 H2.
    assert (Hdec : forall extra, abi_decode_uint32s 3 (c ++ extra)
                     = Some [abi_word 0 c; abi_word 1 c; abi_word 2 c]).
    { intros extra. apply abi_decode_uint32s_Some.
      split; [rewrite length_app; lia|]. split.
      - cbn [seq map]. unfold abi_word.
        rewrite !drop_app_le by lia.
        rewrite !take_app_le by (rewrite length_drop; lia). reflexivity.
      - repeat constructor; assumption. }
    split.
    + pose proof (Hdec []) as Hd. rewrite app_nil_r in Hd.
      rewrite Hrun, Hsig, Hd. reflexivity.
    + intros extra. rewrite Hrun, Hdec.
      destruct (checkSignatures r (c ++ extra) p); reflexivity.
Qed.

Lemma word_value_abi_encode_uint v :
  v <= max_uint256 -> word_value (abi_encode_uint v) = v.
Proof.
  intros Hv. unfold abi_encode_uint. rewrite word_value_word_bytes.
  apply N.mod_small. unfold max_uint256 in Hv.
  assert (H : 256 ^ N.of_nat 32 = 2 ^ 256) by reflexivity.
  rewrite H. assert (0 < 2 ^ 256) by reflexivity. lia.
Qed.

Lemma abi_decode_encode_app vs extra :
  Forall (fun v => v <= max_uint256) vs ->
  abi_decode_uint32s (length vs) (abi_encode vs ++ extra) =
    if forallb (fun v => v <=? max_uint32) vs then Some vs else None.
Proof.
  induction 1 as [|v vs Hv _ IH]; [reflexivity|].
  change (abi_encode (v :: vs)) with (abi_encode_uint v ++ abi_encode vs).
  rewrite <- app_assoc. cbn [length forallb].
  rewrite abi_decode_uint32s_step.
  assert (Hlen : length (abi_encode_uint v) = 32%nat) by apply length_word_bytes.
  rewrite take_app_length' by (symmetry; exact Hlen).
  rewrite drop_app_length' by (symmetry; exact Hlen).
  rewrite Hlen, Nat.eqb_refl, IH, (word_value_abi_encode_uint v Hv). cbn [negb].
  destruct (v <=? max_uint32); cbn [negb andb]; [|reflexivity].
  destruct (forallb (fun v0 => v0 <=? max_uint32) vs); reflexivity.
Qed.

(** X14. Encoding and decoding agree: when the cleartexts are the ABI
    encoding of three [uint256] values, followed by any bytes, a callback
    that passes the three guards commits exactly these values if each fits
    32 bits, and fails with the decoding error if one of them does not. *)
Theorem encoded_cleartexts_round_trip
    (env : Env) (r : uint256) (p extra : bytes) (s : State) (x y z : N) :
  requestExchange s r <> 0 ->
  isRevealed (decryptedAssessmentAt s (requestExchange s r)) = false ->
  checkSignatures r (abi_encode [x; y; z] ++ extra) p = true ->
  x <= max_uint256 -> y <= max_uint256 -> z <= max_uint256 ->
  (x <= max_uint32 /\ y <= max_uint32 /\ z <= max_uint32 ->
   decryptAssessment env r (abi_encode [x; y; z] ++ extra) p s
     = Ok tt (revealedWith (requestExchange s r) x y z s)) /\
  (max_uint32 < x \/ max_uint32 < y \/ max_uint32 < z ->
   decryptAssessment env r (abi_encode [x; y; z] ++ extra) p s
     = Revert AbiDecodeFailure s).
Proof.
  intros Hne Hrev Hsig Hx Hy Hz. apply N.eqb_neq in Hne.
  rewrite decryptAssessment_run, Hne, Hrev, Hsig. cbn [negb].
  assert (Hall : Forall (fun v => v <= max_uint256) [x; y; z])
    by (repeat constructor; assumption).
  pose proof (abi_decode_encode_app [x; y; z] extra Hall) as Hdec.
  cbn [length forallb] in Hdec. rewrite Hdec.
  split.
  - intros (Hx' & Hy' & Hz').
    apply N.leb_le in Hx', Hy', Hz'. rewrite Hx', Hy', Hz'. reflexivity.
  - intros Hbad.
    destruct (N.leb_spec x max_uint32); cbn [andb]; [|reflexivity].
    destruct (N.leb_spec y max_uint32); cbn [andb]; [|reflexivity].
    destruct (N.leb_spec z max_uint32); cbn [andb]; [|reflexivity].
    lia.
Qed.

(** X15. Requests and reveals exist only for order books with an owner: in
    every reachable state a request id leads either nowhere or to the id of
    a stored order book whose exchange is not the zero address, and a
    revealed assessment belongs to such an order book. *)
Theorem requests_and_reveals_have_owned_books (s : State) :
  reachable s ->
  (forall r,
     requestExchange s r <> 0 ->
     exists ob, orderBooks s !! requestExchange s r = Some ob /\ exchange ob <> 0) /\
  (forall id,
     isRevealed (decryptedAssessmentAt s id) = true ->
     exists ob, orderBooks s !! id = Some ob /\ exchange ob <> 0).
Proof.
  intros Hreach.
  pose proof (reachable_Inv s Hreach) as HI.
  pose proof (reachable_OwnerInv s Hreach) as HO.
  assert (Hbook : forall id, exchange (orderBookAt s id) <> 0 ->
                    exists ob, orderBooks s !! id = Some ob /\ exchange ob <> 0).
  { intros id Hid. destruct (owner_nonzero_stored s id Hid) as [ob Hob].
    exists ob. split; [exact Hob|].
    rewrite (stored_book_read s id ob Hob) in Hid. exact Hid. }
  split.
  - intros r Hr. apply Hbook. eapply (owner_requested s HO).
    apply pending_stored. exact Hr.
  - intros id Hrev. apply Hbook. apply (owner_revealed s HO). exact Hrev.
Qed.

(** ** Whole runs *)

(** X16. Submission, the owner's request and the callback compose: from any
    state with room in the counter, after a submission naming [x], a request
    by [x] that the oracle answers with request id [r], and a callback for
    [r] by any sender with the encoding of three 32-bit values and a proof
    the engine accepts, the new id's record holds exactly these three
    values, revealed, whatever the submitted handles were; the log has grown
    by [RiskAnalysisCompleted], [OrderBookSubmitted] and
    [AssessmentDecrypted] for the id, in this order, and the counter by 1. *)
Theorem reveal_commits_what_the_engine_accepts
    (env envReq envCb : Env) (b a f v : euint32) (x : address) (s : State)
    (u w z : uint32) (proof : bytes) :
  exchangeCount s < max_uint256 ->
  msg_sender envReq = x ->
  u <= max_uint32 -> w <= max_uint32 -> z <= max_uint32 ->
  checkSignatures (oracle_request_id envReq) (abi_encode [u; w; z]) proof = true ->
  let id := exchangeCount s + 1 in
  let s3 :=
    transact envCb
      (CallDecryptAssessment (oracle_request_id envReq) (abi_encode [u; w; z]) proof)
      (transact envReq (CallRequestAssessmentDecryption id)
         (transact env (CallSubmitEncryptedOrderBook b a f v x) s)) in
  decryptedAssessments s3 !! id =
    Some {| liquidityImpact := u; flashCrashRisk := w;
            marketInstability := z; isRevealed := true |} /\
  events s3 = events s ++ [RiskAnalysisCompleted id;
                           OrderBookSubmitted id x (block_timestamp env);
                           AssessmentDecrypted id] /\
  orderBooks s3 !! id = Some (submittedBook env id b a f v x) /\
  exchangeCount s3 = id.
Proof.
  intros Hlt Hx Hu Hw Hz Hsig id. apply N.ltb_lt in Hlt.
  assert (E1 : transact env (CallSubmitEncryptedOrderBook b a f v x) s
               = submitted env b a f v x s).
  { unfold transact, commit; simpl.
    rewrite submitEncryptedOrderBook_run, Hlt. reflexivity. }
  rewrite E1. set (s1 := submitted env b a f v x s).
  assert (Hob : orderBookAt s1 id = submittedBook env id b a f v x).
  { unfold orderBookAt, s1; simpl. rewrite lookup_insert_eq. reflexivity. }
  assert (Hda : decryptedAssessmentAt s1 id = zeroDecryptedAssessment).
  { unfold decryptedAssessmentAt, s1; simpl. rewrite lookup_insert_eq. reflexivity. }
  assert (E2 : transact envReq (CallRequestAssessmentDecryption id) s1
               = set_requestExchange (oracle_request_id envReq) id s1).
  { unfold transact, commit; simpl.
    rewrite requestAssessmentDecryption_run, Hob, Hda; simpl.
    rewrite Hx, N.eqb_refl. reflexivity. }
  rewrite E2. set (s2 := set_requestExchange (oracle_request_id envReq) id s1).
  assert (Hreq : requestExchange s2 (oracle_request_id envReq) = id).
  { unfold requestExchange, s2; simpl. rewrite lookup_insert_eq. reflexivity. }
  assert (Hid : (id =? 0) = false) by (apply N.eqb_neq; unfold id; lia).
  assert (Hda2 : decryptedAssessmentAt s2 id = zeroDecryptedAssessment) by exact Hda.
  assert (Hdec : abi_decode_uint32s 3 (abi_encode [u; w; z]) = Some [u; w; z]).
  { apply (abi_decode_encode [u; w; z]). repeat constructor; assumption. }
  assert (E3 : transact envCb
                 (CallDecryptAssessment (oracle_request_id envReq)
                    (abi_encode [u; w; z]) proof) s2
               = revealedWith id u w z s2).
  { unfold transact, commit. cbn [dispatch].
    rewrite decryptAssessment_run, Hreq, Hid, Hda2.
    cbn [zeroDecryptedAssessment isRevealed]. rewrite Hsig. cbn [negb].
    rewrite Hdec. reflexivity. }
  cbv zeta. rewrite E3.
  split; [simpl; rewrite lookup_insert_eq; reflexivity|].
  split; [simpl; rewrite <- !app_assoc; reflexivity|].
  split; [simpl; rewrite lookup_insert_eq; reflexivity|reflexivity].
Qed.

End Further.

(** * The further properties on the concrete runs *)

Section FurtherConcrete.
Import Scenario Runs2.

Ltac n_le := apply N.leb_le; reflexivity.
Ltac n_lt := apply N.ltb_lt; reflexivity.

Lemma steps_submitted_revealed : steps st_submitted st_revealed.
Proof.
  eapply steps_next with (env := env_owner) (c := CallRequestAssessmentDecryption 1);
    [discriminate|].
  eapply steps_next with (env := env_relayer)
                         (c := CallDecryptAssessment 1 cleartexts proof);
    [discriminate|].
  apply steps_done.
Qed.

(** The order book of exchange 1 after the request and the reveal. *)
Lemma stored_records_never_change_witness :
  orderBooks st_revealed !! 1 = orderBooks st_submitted !! 1 /\
  riskAssessments st_revealed !! 1 = riskAssessments st_submitted !! 1.
Proof.
  assert (Hbook : is_Some (orderBooks st_submitted !! 1)) by (eexists; reflexivity).
  exact (stored_records_never_change st_submitted st_revealed 1
           reachable_st_submitted steps_submitted_revealed Hbook).
Defined.

(** The order book of exchange 1 and its risk assessment. *)
Lemma stored_records_are_consistent_witness :
  riskAssessments st_revealed !! 1
  = Some {| encryptedLiquidityImpact := (2 : @euint32 ClearEngine);
            encryptedFlashCrashRisk := (100 : @euint32 ClearEngine);
            encryptedMarketInstability := (70 : @euint32 ClearEngine) |}.
Proof.
  assert (Hbook : orderBooks st_revealed !! 1
                  = Some (submittedBook (fhe := ClearEngine)
                            env_owner 1 500 300 50 20 owner)) by reflexivity.
  destruct (stored_records_are_consistent st_revealed 1 _
              reachable_st_revealed Hbook) as (_ & _ & _ & Hrisk).
  exact Hrisk.
Defined.

(** Before the callback the record of exchange 1 is the placeholder. *)
Lemma decrypted_records_are_zero_or_in_range_witness :
  decryptedAssessmentAt st_requested 1 = zeroDecryptedAssessment /\
  liquidityImpact (decryptedAssessmentAt st_revealed 1) <= max_uint32.
Proof.
  destruct (decrypted_records_are_zero_or_in_range st_requested 1
              reachable_st_requested) as (Hzero & _).
  destruct (decrypted_records_are_zero_or_in_range st_revealed 1
              reachable_st_revealed) as (_ & Hli & _).
  assert (Hrev : isRevealed (decryptedAssessmentAt st_requested 1) = false)
    by reflexivity.
  split; [exact (Hzero Hrev)|exact Hli].
Defined.

(** Id 5 when one exchange has been registered. *)
Lemma unallocated_ids_have_nothing_witness :
  orderBooks st_revealed !! 5 = None /\
  requestAssessmentDecryption env_owner 5 st_revealed
    = Revert NotExchangeOwner st_revealed /\
  requestOrderBookDecryption env_owner 5 st_revealed
    = Revert NotExchangeOwner st_revealed.
Proof.
  assert (Hid : (5 : N) = 0 \/ exchangeCount st_revealed < 5) by (right; n_lt).
  destruct (unallocated_ids_have_nothing st_revealed 5 reachable_st_revealed Hid)
    as (Hob & _ & _ & _ & Hreq).
  assert (Hs : msg_sender env_owner <> 0) by discriminate.
  destruct (Hreq env_owner Hs) as [H1 H2].
  split; [exact Hob|]. split; [exact H1|exact H2].
Defined.

(** The log after the reveal announces exchange 1 as submitted by the owner
    at time 1000, and as decrypted. *)
Lemma log_reports_the_storage_witness :
  1 ∈ submittedIds (events st_revealed) /\
  1 ∈ decryptedIds (events st_revealed) /\
  (exists ob, orderBooks st_revealed !! 1 = Some ob /\
              exchange ob = owner /\ timestamp ob = 1000).
Proof.
  destruct (log_reports_the_storage st_revealed reachable_st_revealed)
    as (Hsub & _ & Hev & Hdec & _).
  assert (Hbook : is_Some (orderBooks st_revealed !! 1)) by (eexists; reflexivity).
  assert (Hrev : isRevealed (decryptedAssessmentAt st_revealed 1) = true)
    by reflexivity.
  assert (Hin : OrderBookSubmitted 1 owner 1000 ∈ events st_revealed).
  { apply elem_of_cons. right. apply elem_of_cons. left. reflexivity. }
  split; [exact (proj2 (Hsub 1) Hbook)|].
  split; [exact (proj2 (Hdec 1) Hrev)|exact (Hev 1 owner 1000 Hin)].
Defined.

(** The callback for request 1 is what changes the record of exchange 1. *)
Lemma record_writers_witness :
  ((exists b a f v x,
      CallDecryptAssessment (fhe := ClearEngine) 1 cleartexts proof
      = CallSubmitEncryptedOrderBook b a f v x) /\
   (1 : N) = exchangeCount st_requested + 1) \/
  (exists r cl p,
     CallDecryptAssessment (fhe := ClearEngine) 1 cleartexts proof
     = CallDecryptAssessment r cl p /\
     requestExchange st_requested r = 1 /\ (1 : N) <> 0 /\
     isRevealed (decryptedAssessmentAt st_requested 1) = false /\
     checkSignatures (FHEEngine := ClearEngine) r cl p = true).
Proof.
  destruct (record_writers env_relayer
              (CallDecryptAssessment (fhe := ClearEngine) 1 cleartexts proof)
              st_requested) as (_ & Hda & _).
  apply (Hda 1).
  assert (E1 : decryptedAssessments
                 (transact env_relayer
                    (CallDecryptAssessment (fhe := ClearEngine) 1 cleartexts proof)
                    st_requested) !! 1
               = Some {| liquidityImpact := 2; flashCrashRisk := 100;
                         marketInstability := 70; isRevealed := true |})
    by reflexivity.
  assert (E2 : decryptedAssessments st_requested !! 1
               = Some zeroDecryptedAssessment) by reflexivity.
  rewrite E1, E2. discriminate.
Defined.

(** The stranger submits and names the owner: the owner may ask for the
    order book, the stranger may not ask for the assessment. *)
Lemma ownership_is_the_named_exchange_witness :
  requestOrderBookDecryption env_owner 1 st_named = Ok tt st_named /\
  requestAssessmentDecryption env_third 1 st_named
    = Revert NotExchangeOwner st_named.
Proof.
  assert (Hsub : submitEncryptedOrderBook (fhe := ClearEngine)
                   env_third 500 300 50 20 owner initial = Ok tt st_named)
    by reflexivity.
  pose proof (ownership_is_the_named_exchange (fhe := ClearEngine)
                env_third 500 300 50 20 owner
                initial st_named st_named reachable_initial Hsub
                (steps_done st_named)) as H.
  destruct (H env_owner) as (Hbook & _ & _).
  destruct (H env_third) as (_ & Hno & _).
  assert (Hne : msg_sender env_third <> owner) by discriminate.
  split; [exact (proj2 Hbook eq_refl)|exact (Hno Hne)].
Defined.

(** After the owner's submission the stranger asks for the assessment and a
    callback comes in: the record of exchange 1 is still the placeholder. *)
Lemma only_the_named_exchange_triggers_reveal_witness :
  decryptedAssessmentAt
    (transact env_relayer (CallDecryptAssessment 3 cleartexts (clear_proof 3 cleartexts))
       (transact env_stranger (CallRequestAssessmentDecryption 1) st_submitted)) 1
  = zeroDecryptedAssessment.
Proof.
  assert (Hsub : submitEncryptedOrderBook (fhe := ClearEngine)
                   env_owner 500 300 50 20 owner initial = Ok tt st_submitted)
    by reflexivity.
  assert (Hsteps : steps_without owner st_submitted
                     (transact env_stranger (CallRequestAssessmentDecryption 1)
                        st_submitted)).
  { eapply steps_without_next; [| |apply steps_without_done]; discriminate. }
  destruct (only_the_named_exchange_triggers_reveal (fhe := ClearEngine)
              env_owner 500 300 50 20 owner initial st_submitted _
              reachable_initial Hsub Hsteps) as (_ & _ & Hcb).
  exact (Hcb env_relayer 3 cleartexts (clear_proof 3 cleartexts)).
Defined.

(** The order book submitted for the zero address. *)
Lemma zero_exchange_is_never_decrypted_witness :
  decryptedAssessmentAt st_orphan 1 = zeroDecryptedAssessment /\
  requestAssessmentDecryption env_owner 1 st_orphan
    = Revert NotExchangeOwner st_orphan /\
  requestOrderBookDecryption env_owner 1 st_orphan
    = Revert NotExchangeOwner st_orphan.
Proof.
  assert (Hsub : submitEncryptedOrderBook (fhe := ClearEngine)
                   env_owner 500 300 50 20 0 initial = Ok tt st_orphan)
    by reflexivity.
  destruct (zero_exchange_is_never_decrypted (fhe := ClearEngine)
              env_owner 500 300 50 20 initial st_orphan st_orphan
              reachable_initial Hsub (steps_done st_orphan)) as (Hzero & Hreq).
  assert (Hs : msg_sender env_owner <> 0) by discriminate.
  destruct (Hreq env_owner Hs) as [H1 H2].
  split; [exact Hzero|]. split; [exact H1|exact H2].
Defined.

(** The history: two bare registrations and one order book, counter 3. *)
Lemma counter_counts_allocations_witness :
  exchangeCount (run_trace history initial) = 3 /\
  size (orderBooks (run_trace history initial)) = 1%nat /\
  bare_registrations history initial = 2%nat /\
  getExchangeCount env_stranger (run_trace history initial)
    = Ok 3 (run_trace history initial).
Proof.
  assert (Hall : Forall (fun ec : Env * Call (fhe := ClearEngine) =>
                           msg_sender (fst ec) <> 0) history).
  { repeat constructor; discriminate. }
  destruct (counter_counts_allocations history Hall) as [Hcount Hget].
  assert (Hsize : size (orderBooks (run_trace history initial)) = 1%nat)
    by reflexivity.
  assert (Hbare : bare_registrations history initial = 2%nat) by reflexivity.
  pose proof (Hget env_stranger) as Hg.
  rewrite Hsize, Hbare in Hcount, Hg.
  split; [exact Hcount|]. split; [exact Hsize|]. split; [exact Hbare|exact Hg].
Defined.

(** The counter at 2^256 - 1. *)
Lemma counter_stops_at_its_maximum_witness :
  registerExchange env_owner owner st_full = Revert ArithmeticOverflow st_full /\
  submitEncryptedOrderBook (fhe := ClearEngine) env_owner 500 300 50 20 owner st_full
    = Revert ArithmeticOverflow st_full.
Proof.
  destruct (counter_stops_at_its_maximum (fhe := ClearEngine)) as [_ Hmax].
  assert (Hfull : exchangeCount st_full = max_uint256) by reflexivity.
  destruct (Hmax env_owner 500 300 50 20 owner st_full Hfull) as (H1 & H2 & _).
  split; [exact H1|exact H2].
Defined.

Lemma pending_request_1 :
  requestExchange st_requested 1 <> 0 /\
  isRevealed (decryptedAssessmentAt st_requested (requestExchange st_requested 1))
    = false.
Proof. split; [discriminate|reflexivity]. Qed.

(** Request 1 answered with 95 bytes, with an oversized second word, and
    with the three words. *)
Lemma callback_commits_the_decoded_words_witness :
  decryptAssessment env_relayer 1 short (clear_proof 1 short) st_requested
    = Revert AbiDecodeFailure st_requested /\
  decryptAssessment env_relayer 1 oversized (clear_proof 1 oversized) st_requested
    = Revert AbiDecodeFailure st_requested /\
  decryptAssessment env_relayer 1 cleartexts proof st_requested
    = Ok tt (revealedWith 1 2 100 70 st_requested).
Proof.
  destruct pending_request_1 as [Hne Hrev].
  assert (Hs1 : checkSignatures (FHEEngine := ClearEngine) 1 short
                  (clear_proof 1 short) = true) by reflexivity.
  assert (Hs2 : checkSignatures (FHEEngine := ClearEngine) 1 oversized
                  (clear_proof 1 oversized) = true) by reflexivity.
  assert (Hs3 : checkSignatures (FHEEngine := ClearEngine) 1 cleartexts proof = true)
    by reflexivity.
  destruct (callback_commits_the_decoded_words env_relayer 1 short
              (clear_proof 1 short) st_requested Hne Hrev Hs1) as (Hshort & _).
  destruct (callback_commits_the_decoded_words env_relayer 1 oversized
              (clear_proof 1 oversized) st_requested Hne Hrev Hs2) as (_ & Hbig & _).
  destruct (callback_commits_the_decoded_words env_relayer 1 cleartexts
              proof st_requested Hne Hrev Hs3) as (_ & _ & Hok).
  assert (Hlen : (length short < 96)%nat) by (apply Nat.ltb_lt; reflexivity).
  assert (Hover : max_uint32 < abi_word 0 oversized \/
                  max_uint32 < abi_word 1 oversized \/
                  max_uint32 < abi_word 2 oversized) by (right; left; n_lt).
  assert (Hlen3 : (96 <= length cleartexts)%nat) by (apply Nat.leb_le; reflexivity).
  assert (H0 : abi_word 0 cleartexts <= max_uint32) by n_le.
  assert (H1 : abi_word 1 cleartexts <= max_uint32) by n_le.
  assert (H2 : abi_word 2 cleartexts <= max_uint32) by n_le.
  split; [exact (Hshort Hlen)|]. split; [exact (Hbig Hover)|].
  exact (proj1 (Hok Hlen3 H0 H1 H2)).
Defined.

(** Request 1 answered with the encoding of (2, 100, 70) and three more
    bytes, and with the encoding of (2, 2^32, 70). *)
Lemma encoded_cleartexts_round_trip_witness :
  decryptAssessment env_relayer 1 padded (clear_proof 1 padded) st_requested
    = Ok tt (revealedWith 1 2 100 70 st_requested) /\
  decryptAssessment env_relayer 1 (abi_encode [2; 2 ^ 32; 70] ++ [])
    (clear_proof 1 (abi_encode [2; 2 ^ 32; 70] ++ [])) st_requested
    = Revert AbiDecodeFailure st_requested.
Proof.
  destruct pending_request_1 as [Hne Hrev].
  assert (Hs1 : checkSignatures (FHEEngine := ClearEngine) 1
                  (abi_encode [2; 100; 70] ++ [xff; x00; x01])
                  (clear_proof 1 padded) = true) by reflexivity.
  assert (Hs2 : checkSignatures (FHEEngine := ClearEngine) 1
                  (abi_encode [2; 2 ^ 32; 70] ++ [])
                  (clear_proof 1 (abi_encode [2; 2 ^ 32; 70] ++ [])) = true)
    by reflexivity.
  assert (Hx : (2 : N) <= max_uint256) by n_le.
  assert (Hy : (100 : N) <= max_uint256) by n_le.
  assert (Hz : (70 : N) <= max_uint256) by n_le.
  assert (Hbig : (2 ^ 32 : N) <= max_uint256) by n_le.
  destruct (encoded_cleartexts_round_trip env_relayer 1 (clear_proof 1 padded)
              [xff; x00; x01] st_requested 2 100 70 Hne Hrev Hs1 Hx Hy Hz)
    as (Hok & _).
  destruct (encoded_cleartexts_round_trip env_relayer 1
              (clear_proof 1 (abi_encode [2; 2 ^ 32; 70] ++ []))
              [] st_requested 2 (2 ^ 32) 70 Hne Hrev Hs2 Hx Hbig Hz)
    as (_ & Hbad).
  assert (Hfit : (2 : N) <= max_uint32 /\ (100 : N) <= max_uint32 /\
                 (70 : N) <= max_uint32) by (split_conj; n_le).
  assert (Hover : max_uint32 < 2 \/ max_uint32 < 2 ^ 32 \/ max_uint32 < 70)
    by (right; left; n_lt).
  split; [exact (Hok Hfit)|exact (Hbad Hover)].
Defined.

(** After the reveal request 1 leads to exchange 1, whose order book belongs
    to the owner. *)
Lemma requests_and_reveals_have_owned_books_witness :
  (exists ob, orderBooks st_revealed !! requestExchange st_revealed 1 = Some ob /\
              exchange ob <> 0) /\
  (exists ob, orderBooks st_revealed !! 1 = Some ob /\ exchange ob <> 0).
Proof.
  destruct (requests_and_reveals_have_owned_books st_revealed reachable_st_revealed)
    as [Hreq Hrev].
  assert (Hne : requestExchange st_revealed 1 <> 0) by discriminate.
  assert (Hr : isRevealed (decryptedAssessmentAt st_revealed 1) = true)
    by reflexivity.
  split; [exact (Hreq 1 Hne)|exact (Hrev 1 Hr)].
Defined.

(** The owner's order book revealed with (7, 8, 9), values that have nothing
    to do with the submitted handles. *)
Lemma reveal_commits_what_the_engine_accepts_witness :
  decryptedAssessments
    (transact env_relayer
       (CallDecryptAssessment 1 (abi_encode [7; 8; 9])
          (clear_proof 1 (abi_encode [7; 8; 9])))
       st_requested) !! 1
  = Some {| liquidityImpact := 7; flashCrashRisk := 8;
            marketInstability := 9; isRevealed := true |}.
Proof.
  assert (Hlt : exchangeCount (initial (fhe := ClearEngine)) < max_uint256) by n_lt.
  assert (H7 : (7 : N) <= max_uint32) by n_le.
  assert (H8 : (8 : N) <= max_uint32) by n_le.
  assert (H9 : (9 : N) <= max_uint32) by n_le.
  assert (Hsig : checkSignatures (FHEEngine := ClearEngine) 1 (abi_encode [7; 8; 9])
                   (clear_proof 1 (abi_encode [7; 8; 9])) = true) by reflexivity.
  exact (proj1 (reveal_commits_what_the_engine_accepts (fhe := ClearEngine)
                  env_owner env_owner env_relayer 500 300 50 20 owner initial
                  7 8 9 (clear_proof 1 (abi_encode [7; 8; 9]))
                  Hlt eq_refl H7 H8 H9 Hsig)).
Defined.

End FurtherConcrete.

(** * The callbacks and the library's record of requests *)

Section Library.
Context {fhe : FHEEngine} {lib : FHELibrary}.

Lemma LState_eta (ls : WithLibrary.LState) :
  {| WithLibrary.contract := WithLibrary.contract ls;
     WithLibrary.library := WithLibrary.library ls |} = ls.
Proof. destruct ls; reflexivity. Qed.

Lemma lib_decryptAssessment_unknown env r c p (ls : WithLibrary.LState) :
  requestExchange (WithLibrary.contract ls) r = 0 ->
  WithLibrary.decryptAssessment env r c p ls
    = WithLibrary.LRevert (Reverted InvalidRequest) ls.
Proof.
  intros H. destruct ls as [s l]. cbn [WithLibrary.contract] in H.
  unfold WithLibrary.decryptAssessment, WithLibrary.lbind at 1.
  unfold WithLibrary.lift at 1, gets. cbn [WithLibrary.contract WithLibrary.library].
  rewrite H. unfold WithLibrary.lbind at 1, WithLibrary.lift at 1.
  reflexivity.
Qed.

Lemma lib_decryptOrderBook_run env r c p (ls : WithLibrary.LState) :
  WithLibrary.decryptOrderBook env r c p ls =
    match lib_checkSignatures (WithLibrary.library ls) r c p with
    | NoHandles => WithLibrary.LRevert NoHandleFoundForRequestID ls
    | BadSignatures => WithLibrary.LRevert (Reverted InvalidKMSSignatures) ls
    | Verified l' =>
        let ls' := {| WithLibrary.contract := WithLibrary.contract ls;
                      WithLibrary.library := l' |} in
        match abi_decode_uint32s 4 c with
        | Some [_; _; _; _] => WithLibrary.LOk tt ls'
        | _ => WithLibrary.LRevert (Reverted AbiDecodeFailure) ls'
        end
    end.
Proof.
  destruct ls as [s l].
  unfold WithLibrary.decryptOrderBook, WithLibrary.lbind at 1.
  unfold WithLibrary.FHE_checkSignatures. cbn [WithLibrary.contract WithLibrary.library].
  destruct (lib_checkSignatures l r c p) as [l'| |]; [|reflexivity|reflexivity].
  unfold WithLibrary.lbind, WithLibrary.lift, abi_decode.
  cbn [WithLibrary.contract WithLibrary.library].
  destruct (abi_decode_uint32s 4 c) as [[|? [|? [|? [|? [|? ?]]]]]|]; reflexivity.
Qed.

Lemma keeps_known_lift {A} (m : M A) : keeps_known (WithLibrary.lift m).
Proof.
  intros ls. unfold WithLibrary.lift.
  destruct (m (WithLibrary.contract ls)); intros r Hr; exact Hr.
Qed.

Lemma keeps_known_lbind {A B} (m : WithLibrary.LM A) (k : A -> WithLibrary.LM B) :
  keeps_known m -> (forall a, keeps_known (k a)) ->
  keeps_known (WithLibrary.lbind m k).
Proof.
  intros Hm Hk ls. unfold WithLibrary.lbind.
  specialize (Hm ls). destruct (m ls) as [a ls1|why ls1]; [|exact Hm].
  specialize (Hk a ls1). destruct (k a ls1) as [b ls2|why ls2];
    intros r Hr; apply Hm, Hk, Hr.
Qed.

Lemma keeps_known_checkSignatures r c p :
  LibraryLaws -> keeps_known (WithLibrary.FHE_checkSignatures r c p).
Proof.
  intros Laws ls. unfold WithLibrary.FHE_checkSignatures.
  destruct (lib_checkSignatures (WithLibrary.library ls) r c p) as [l'| |] eqn:E;
    intros r' Hr'; [|exact Hr'|exact Hr'].
  exact (check_known Laws _ _ _ _ _ E r' Hr').
Qed.

Lemma keeps_known_decryptAssessment env r c p :
  LibraryLaws -> keeps_known (WithLibrary.decryptAssessment env r c p).
Proof.
  intros Laws. unfold WithLibrary.decryptAssessment.
  repeat first
    [ apply keeps_known_lift
    | apply keeps_known_checkSignatures; exact Laws
    | apply keeps_known_lbind; [|intros ?] ].
  match goal with
  | |- keeps_known (match ?v with _ => _ end) => destruct v as [|? [|? [|? [|? ?]]]]
  end;
  repeat first
    [ apply keeps_known_lift
    | apply keeps_known_lbind; [|intros ?] ].
Qed.

Lemma keeps_known_decryptOrderBook env r c p :
  LibraryLaws -> keeps_known (WithLibrary.decryptOrderBook env r c p).
Proof.
  intros Laws. unfold WithLibrary.decryptOrderBook.
  apply keeps_known_lbind; [apply keeps_known_checkSignatures; exact Laws|intros _].
  apply keeps_known_lbind; [apply keeps_known_lift|intros vs].
  destruct vs as [|? [|? [|? [|? [|? ?]]]]]; apply keeps_known_lift.
Qed.

Lemma transact_keeps_known env c (ls : WithLibrary.LState) r :
  keeps_known (WithLibrary.dispatch env c) ->
  lib_known (WithLibrary.library (WithLibrary.transact env c ls)) r = true ->
  lib_known (WithLibrary.library ls) r = true.
Proof.
  intros Hk. unfold WithLibrary.transact. specialize (Hk ls).
  destruct (WithLibrary.dispatch env c ls) as [[] ls'|why ls']; [apply Hk|trivial].
Qed.

Lemma lib_requestAssessmentDecryption_owner env id (ls ls' : WithLibrary.LState) :
  WithLibrary.requestAssessmentDecryption env id ls = WithLibrary.LOk tt ls' ->
  msg_sender env = exchange (orderBookAt (WithLibrary.contract ls) id).
Proof.
  destruct ls as [s l].
  unfold WithLibrary.requestAssessmentDecryption, WithLibrary.lbind at 1.
  unfold WithLibrary.lift at 1, gets. cbn [WithLibrary.contract WithLibrary.library].
  unfold WithLibrary.lbind at 1, WithLibrary.lift at 1, require.
  cbn [WithLibrary.contract WithLibrary.library].
  destruct (msg_sender env =? exchange (orderBookAt s id)) eqn:E.
  - intros _. apply N.eqb_eq, E.
  - unfold revert. discriminate.
Qed.

Lemma lib_requestOrderBookDecryption_owner env id (ls ls' : WithLibrary.LState) :
  WithLibrary.requestOrderBookDecryption env id ls = WithLibrary.LOk tt ls' ->
  msg_sender env = exchange (orderBookAt (WithLibrary.contract ls) id).
Proof.
  destruct ls as [s l].
  unfold WithLibrary.requestOrderBookDecryption, WithLibrary.lbind at 1.
  unfold WithLibrary.lift at 1, gets. cbn [WithLibrary.contract WithLibrary.library].
  unfold WithLibrary.lbind at 1, WithLibrary.lift at 1, require.
  cbn [WithLibrary.contract WithLibrary.library].
  destruct (msg_sender env =? exchange (orderBookAt s id)) eqn:E.
  - intros _. apply N.eqb_eq, E.
  - unfold revert. discriminate.
Qed.

End Library.

Section LibraryProperties.
Context {fhe : FHEEngine} {lib : FHELibrary}.

(** C6. A callback whose request id is not that of a recorded request fails
    and changes neither the contract's storage nor the library's, for both
    handlers. [decryptAssessment] looks the id up in [requestToExchangeId]
    and reverts with "Invalid request" when no exchange is recorded under
    it. [decryptOrderBook] has no table of its own: [FHE.checkSignatures]
    looks up the handles the library saved when the request was made and
    reverts with [NoHandleFoundForRequestID] when there are none. And an id
    that has no saved handles before a transaction has some after it only
    if the transaction is a decryption request sent by the owner of the
    exchange it names. *)
Theorem unknown_request_callbacks :
  (forall env r c p (ls : WithLibrary.LState),
     requestExchange (WithLibrary.contract ls) r = 0 ->
     WithLibrary.decryptAssessment env r c p ls
       = WithLibrary.LRevert (Reverted InvalidRequest) ls /\
     WithLibrary.transact env (CallDecryptAssessment r c p) ls = ls) /\
  (LibraryLaws ->
   forall env r c p (ls : WithLibrary.LState),
     lib_known (WithLibrary.library ls) r = false ->
     WithLibrary.decryptOrderBook env r c p ls
       = WithLibrary.LRevert NoHandleFoundForRequestID ls /\
     WithLibrary.transact env (CallDecryptOrderBook r c p) ls = ls) /\
  (LibraryLaws ->
   forall env call (ls : WithLibrary.LState) r,
     lib_known (WithLibrary.library ls) r = false ->
     lib_known (WithLibrary.library (WithLibrary.transact env call ls)) r = true ->
     exists exchangeId,
       (call = CallRequestAssessmentDecryption exchangeId \/
        call = CallRequestOrderBookDecryption exchangeId) /\
       msg_sender env = exchange (orderBookAt (WithLibrary.contract ls) exchangeId)).
Proof.
  split; [|split].
  - intros env r c p ls H.
    pose proof (lib_decryptAssessment_unknown env r c p ls H) as Hrun.
    split; [exact Hrun|].
    unfold WithLibrary.transact, WithLibrary.dispatch. rewrite Hrun. reflexivity.
  - intros Laws env r c p ls H.
    assert (Hrun : WithLibrary.decryptOrderBook env r c p ls
                   = WithLibrary.LRevert NoHandleFoundForRequestID ls).
    { rewrite lib_decryptOrderBook_run, (check_unknown Laws _ _ c p H). reflexivity. }
    split; [exact Hrun|].
    unfold WithLibrary.transact, WithLibrary.dispatch. rewrite Hrun. reflexivity.
  - intros Laws env call ls r Hno Hyes.
    assert (Hkeeps : keeps_known (WithLibrary.dispatch env call) -> False).
    { intros Hk. pose proof (transact_keeps_known env call ls r Hk Hyes). congruence. }
    destruct call as [a|b a f v x|id|r' c p|id|r' c p|].
    + exfalso. apply Hkeeps. cbn [WithLibrary.dispatch].
      apply keeps_known_lbind; [|intros ?]; apply keeps_known_lift.
    + exfalso. apply Hkeeps. cbn [WithLibrary.dispatch]. apply keeps_known_lift.
    + exists id. split; [left; reflexivity|].
      unfold WithLibrary.transact in Hyes. cbn [WithLibrary.dispatch] in Hyes.
      destruct (WithLibrary.requestAssessmentDecryption env id ls) as [[] ls'|why ls'] eqn:E;
        [|congruence].
      exact (lib_requestAssessmentDecryption_owner env id ls ls' E).
    + exfalso. apply Hkeeps. cbn [WithLibrary.dispatch].
      apply keeps_known_decryptAssessment, Laws.
    + exists id. split; [right; reflexivity|].
      unfold WithLibrary.transact in Hyes. cbn [WithLibrary.dispatch] in Hyes.
      destruct (WithLibrary.requestOrderBookDecryption env id ls) as [[] ls'|why ls'] eqn:E;
        [|congruence].
      exact (lib_requestOrderBookDecryption_owner env id ls ls' E).
    + exfalso. apply Hkeeps. cbn [WithLibrary.dispatch].
      apply keeps_known_decryptOrderBook, Laws.
    + exfalso. apply Hkeeps. cbn [WithLibrary.dispatch].
      apply keeps_known_lbind; [|intros ?]; apply keeps_known_lift.
Qed.

(** X13. The outcome of [decryptOrderBook] follows the library's check and
    the decoding. It reverts with [NoHandleFoundForRequestID] when the
    library finds no handles for the request id and with the signature error
    when it refuses the proof, both before anything is written. When the
    library accepts, the call succeeds exactly when the cleartexts have at
    least 128 bytes and each of the first four words fits 32 bits, and
    reverts with the decoding error otherwise. The contract's declared
    storage is the same after every outcome, and a reverted transaction
    leaves the library's storage as it was too. *)
Theorem order_book_callback_outcome
    (env : Env) (r : uint256) (c p : bytes) (ls : WithLibrary.LState) :
  (lib_checkSignatures (WithLibrary.library ls) r c p = NoHandles ->
   WithLibrary.decryptOrderBook env r c p ls
     = WithLibrary.LRevert NoHandleFoundForRequestID ls /\
   WithLibrary.transact env (CallDecryptOrderBook r c p) ls = ls) /\
  (lib_checkSignatures (WithLibrary.library ls) r c p = BadSignatures ->
   WithLibrary.decryptOrderBook env r c p ls
     = WithLibrary.LRevert (Reverted InvalidKMSSignatures) ls /\
   WithLibrary.transact env (CallDecryptOrderBook r c p) ls = ls) /\
  (forall l',
     lib_checkSignatures (WithLibrary.library ls) r c p = Verified l' ->
     let ls' := {| WithLibrary.contract := WithLibrary.contract ls;
                   WithLibrary.library := l' |} in
     (WithLibrary.decryptOrderBook env r c p ls = WithLibrary.LOk tt ls' <->
      (128 <= length c)%nat /\
      abi_word 0 c <= max_uint32 /\ abi_word 1 c <= max_uint32 /\
      abi_word 2 c <= max_uint32 /\ abi_word 3 c <= max_uint32) /\
     ((128 <= length c)%nat ->
      abi_word 0 c <= max_uint32 -> abi_word 1 c <= max_uint32 ->
      abi_word 2 c <= max_uint32 -> abi_word 3 c <= max_uint32 ->
      WithLibrary.transact env (CallDecryptOrderBook r c p) ls = ls') /\
     ((length c < 128)%nat \/ max_uint32 < abi_word 0 c \/ max_uint32 < abi_word 1 c \/
      max_uint32 < abi_word 2 c \/ max_uint32 < abi_word 3 c ->
      WithLibrary.decryptOrderBook env r c p ls
        = WithLibrary.LRevert (Reverted AbiDecodeFailure) ls' /\
      WithLibrary.transact env (CallDecryptOrderBook r c p) ls = ls)) /\
  WithLibrary.contract (WithLibrary.transact env (CallDecryptOrderBook r c p) ls)
    = WithLibrary.contract ls.
Proof.
  unfold WithLibrary.transact. cbn [WithLibrary.dispatch].
  rewrite lib_decryptOrderBook_run.
  destruct (lib_checkSignatures (WithLibrary.library ls) r c p) as [l| |] eqn:Hsig.
  2:{ split; [intros _; split; reflexivity|].
      split; [discriminate|]. split; [discriminate|reflexivity]. }
  2:{ split; [discriminate|].
      split; [intros _; split; reflexivity|]. split; [discriminate|reflexivity]. }
  split; [discriminate|]. split; [discriminate|].
  cbv zeta.
  destruct (abi_decode_uint32s 4 c) as [vs|] eqn:E.
  - apply abi_decode_uint32s_Some in E. destruct E as (Hlen & -> & Hall).
    cbn [seq map] in *.
    inversion Hall as [|? ? H0 Hall1]; subst.
    inversion Hall1 as [|? ? H1 Hall2]; subst.
    inversion Hall2 as [|? ? H2 Hall3]; subst.
    inversion Hall3 as [|? ? H3 _]; subst.
    split; [|reflexivity].
    intros l' [= <-].
    split; [split; [intros _; repeat split; try assumption; lia|reflexivity]|].
    split; [reflexivity|]. intros Hbad. lia.
  - split; [|reflexivity].
    intros l' [= <-].
    assert (Hno : ~ ((128 <= length c)%nat /\
                     abi_word 0 c <= max_uint32 /\ abi_word 1 c <= max_uint32 /\
                     abi_word 2 c <= max_uint32 /\ abi_word 3 c <= max_uint32)).
    { intros (Hlen & H0 & H1 & H2 & H3).
      assert (Hsome : abi_decode_uint32s 4 c
                      = Some (map (fun i => abi_word i c) (seq 0 4))).
      { apply abi_decode_uint32s_Some. split; [lia|]. split; [reflexivity|].
        cbn [seq map]. repeat constructor; assumption. }
      congruence. }
    split; [split; [discriminate|intros H; destruct (Hno H)]|].
    split; [intros; exfalso; apply Hno; repeat split; assumption|].
    intros _. split; reflexivity.
Qed.

End LibraryProperties.

Section LibraryConcrete.
Import Scenario LibraryRuns.

Lemma CounterLibrary_laws : LibraryLaws (H := CounterLibrary).
Proof.
  split.
  - intros r. reflexivity.
  - intros l hs sel r l' Hreq r' Hr'.
    cbn [lib_requestDecryption lib_known CounterLibrary] in *.
    unfold counter_request in Hreq.
    destruct (counter_known l (counterRequest l)); [discriminate|].
    injection Hreq as <- <-.
    destruct (decide (r' = counterRequest l)) as [->|Hne]; [left; reflexivity|].
    right. unfold counter_known in *. cbn [requestedHandles] in Hr'.
    rewrite lookup_insert_ne in Hr' by congruence. exact Hr'.
  - intros l r c p H. cbn [lib_checkSignatures lib_known CounterLibrary] in *.
    unfold counter_check. rewrite H. reflexivity.
  - intros l r c p l' Hcheck r' Hr'.
    cbn [lib_checkSignatures lib_known CounterLibrary] in *.
    unfold counter_check in Hcheck.
    destruct (counter_known l r); [|discriminate].
    destruct (clear_check r c p); [|discriminate].
    injection Hcheck as <-. exact Hr'.
Qed.

(** Before the owner asks for the order book, the callback for request id 0
    is rejected although its proof is the one the engine accepts; after the
    owner's request, request id 0 has saved handles. The assessment callback
    is rejected at an id that was never handed out (99) and at the id of the
    order-book request (0). *)
Lemma unknown_request_callbacks_witness :
  (requestExchange (WithLibrary.contract lst_requested) 99 = 0 /\
   WithLibrary.decryptAssessment env_relayer 99 cleartexts (clear_proof 99 cleartexts)
     lst_requested = WithLibrary.LRevert (Reverted InvalidRequest) lst_requested /\
   WithLibrary.transact env_relayer
     (CallDecryptAssessment 99 cleartexts (clear_proof 99 cleartexts)) lst_requested
     = lst_requested) /\
  (requestExchange (WithLibrary.contract lst_requested) 0 = 0 /\
   WithLibrary.decryptAssessment env_relayer 0 cleartexts (clear_proof 0 cleartexts)
     lst_requested = WithLibrary.LRevert (Reverted InvalidRequest) lst_requested) /\
  (lib_known (WithLibrary.library lst_submitted) 0 = false /\
   checkSignatures (FHEEngine := ClearEngine) 0 book_cleartexts book_proof = true /\
   WithLibrary.decryptOrderBook env_relayer 0 book_cleartexts book_proof lst_submitted
     = WithLibrary.LRevert NoHandleFoundForRequestID lst_submitted /\
   WithLibrary.transact env_relayer
     (CallDecryptOrderBook 0 book_cleartexts book_proof) lst_submitted
     = lst_submitted) /\
  (lib_known (WithLibrary.library lst_book_requested) 0 = true /\
   exists exchangeId,
     (CallRequestOrderBookDecryption (fhe := ClearEngine) 1
        = CallRequestAssessmentDecryption exchangeId \/
      CallRequestOrderBookDecryption (fhe := ClearEngine) 1
        = CallRequestOrderBookDecryption exchangeId) /\
     msg_sender env_owner
       = exchange (orderBookAt (WithLibrary.contract lst_submitted) exchangeId)).
Proof.
  destruct (@unknown_request_callbacks ClearEngine CounterLibrary)
    as (Hassess & Hbook & Hknown).
  assert (H99 : requestExchange (WithLibrary.contract lst_requested) 99 = 0)
    by reflexivity.
  assert (H0 : requestExchange (WithLibrary.contract lst_requested) 0 = 0)
    by reflexivity.
  assert (Hno : lib_known (WithLibrary.library lst_submitted) 0 = false)
    by reflexivity.
  assert (Hyes : lib_known (WithLibrary.library lst_book_requested) 0 = true)
    by reflexivity.
  split; [|split; [|split]].
  - split; [exact H99|].
    exact (Hassess env_relayer 99 cleartexts (clear_proof 99 cleartexts)
             lst_requested H99).
  - split; [exact H0|].
    exact (proj1 (Hassess env_relayer 0 cleartexts (clear_proof 0 cleartexts)
                    lst_requested H0)).
  - split; [exact Hno|]. split; [reflexivity|].
    exact (Hbook CounterLibrary_laws env_relayer 0 book_cleartexts book_proof
             lst_submitted Hno).
  - split; [exact Hyes|].
    exact (Hknown CounterLibrary_laws env_owner (CallRequestOrderBookDecryption 1)
             lst_submitted 0 Hno Hyes).
Defined.

(** The order-book callback after the owner's request: accepted with its
    four words and logged by the library, refused with 127 bytes, with a
    forged proof, and at an id that was never handed out. *)
Lemma order_book_callback_outcome_witness :
  WithLibrary.decryptOrderBook env_relayer 0 book_cleartexts book_proof
    lst_book_requested = WithLibrary.LOk tt lst_book_fulfilled /\
  WithLibrary.decryptOrderBook env_relayer 0 short_book (clear_proof 0 short_book)
    lst_book_requested
    = WithLibrary.LRevert (Reverted AbiDecodeFailure) lst_book_fulfilled /\
  WithLibrary.transact env_relayer
    (CallDecryptOrderBook 0 short_book (clear_proof 0 short_book)) lst_book_requested
    = lst_book_requested /\
  WithLibrary.decryptOrderBook env_relayer 0 book_cleartexts forged_proof
    lst_book_requested
    = WithLibrary.LRevert (Reverted InvalidKMSSignatures) lst_book_requested /\
  WithLibrary.decryptOrderBook env_relayer 5 book_cleartexts
    (clear_proof 5 book_cleartexts) lst_book_requested
    = WithLibrary.LRevert NoHandleFoundForRequestID lst_book_requested.
Proof.
  destruct (order_book_callback_outcome env_relayer 0 book_cleartexts book_proof
              lst_book_requested) as (_ & _ & Hok & _).
  destruct (order_book_callback_outcome env_relayer 0 short_book
              (clear_proof 0 short_book) lst_book_requested) as (_ & _ & Hshort & _).
  destruct (order_book_callback_outcome env_relayer 0 book_cleartexts forged_proof
              lst_book_requested) as (_ & Hforged & _).
  destruct (order_book_callback_outcome env_relayer 5 book_cleartexts
              (clear_proof 5 book_cleartexts) lst_book_requested) as (Hnone & _).
  assert (Hsig : lib_checkSignatures (WithLibrary.library lst_book_requested) 0
                   book_cleartexts book_proof
                 = Verified (log_fulfilled 0 (WithLibrary.library lst_book_requested)))
    by reflexivity.
  assert (Hsig' : lib_checkSignatures (WithLibrary.library lst_book_requested) 0
                    short_book (clear_proof 0 short_book)
                  = Verified (log_fulfilled 0 (WithLibrary.library lst_book_requested)))
    by reflexivity.
  assert (Hbad : lib_checkSignatures (WithLibrary.library lst_book_requested) 0
                   book_cleartexts forged_proof = BadSignatures)
    by reflexivity.
  assert (Hnot : lib_checkSignatures (WithLibrary.library lst_book_requested) 5
                   book_cleartexts (clear_proof 5 book_cleartexts) = NoHandles)
    by reflexivity.
  assert (Hlen : (128 <= length book_cleartexts)%nat)
    by (apply Nat.leb_le; reflexivity).
  assert (H0 : abi_word 0 book_cleartexts <= max_uint32)
    by (apply N.leb_le; reflexivity).
  assert (H1 : abi_word 1 book_cleartexts <= max_uint32)
    by (apply N.leb_le; reflexivity).
  assert (H2 : abi_word 2 book_cleartexts <= max_uint32)
    by (apply N.leb_le; reflexivity).
  assert (H3 : abi_word 3 book_cleartexts <= max_uint32)
    by (apply N.leb_le; reflexivity).
  assert (Hlen' : (length short_book < 128)%nat)
    by (apply Nat.ltb_lt; reflexivity).
  destruct (Hok _ Hsig) as (Hiff & _ & _).
  destruct (Hshort _ Hsig') as (_ & _ & Hfail).
  split; [|split; [|split; [|split]]].
  - apply (proj2 Hiff). repeat split; assumption.
  - exact (proj1 (Hfail (or_introl Hlen'))).
  - exact (proj2 (Hfail (or_introl Hlen'))).
  - exact (proj1 (Hforged Hbad)).
  - exact (proj1 (Hnone Hnot)).
Defined.

End LibraryConcrete.
